(** * INTERPOL notice scrapers: a shallow embedding and its properties

    The repository holds three scripts:
    - [scrape_yellow_notices.py]: yellow notices, by recursive slicing of the
      (age, sex) search space, with per-notice detail hydration;
    - [yellow_scraper.py]: yellow notices, country by country, followed by a
      coverage report and two retry passes;
    - [main.py]: red notices, page by page.

    Python values are embedded as JSON trees, exceptions as an error type,
    the network, the clock and the files as explicit state. *)

From Stdlib Require Import ZArith Floats Ascii.
From stdpp Require Import gmap strings list pretty sorting.

#[local] Set Warnings "-register-all".

Open Scope Z_scope.

(** ** Python values, as [json.loads] produces them *)

(** A [dict] is kept as the list of its items; a lookup takes the first
    match, so every item list denotes a dict. Strings are UTF-8 byte
    strings. *)
Inductive json :=
| JNull
| JBool (b : bool)
| JInt (n : Z)
| JFloat (f : float)
| JStr (s : string)
| JList (l : list json)
| JObj (d : list (string * json)).

(** A flattened record: a dict literal, its keys in the order written. *)
Definition row := list (string * json).

Inductive exn :=
| AttributeError
| TypeError
| ValueError
| OverflowError
| RequestError
| OtherError (what : string).

Inductive result (A : Type) :=
| Ok (a : A)
| Raise (e : exn).
Arguments Ok {A} a.
Arguments Raise {A} e.

Definition is_ok {A} (r : result A) : bool :=
  match r with Ok _ => true | Raise _ => false end.

(** The builtins whose text is not reproduced here: [repr] of floats, lists
    and dicts (what [str] delegates to), and [int] applied to a [str]
    ([None] stands for [ValueError]). *)
Class Builtins := {
  py_repr : json -> string;
  int_of_str : string -> option Z;
}.

Module Py.

Definition is_dict (v : json) : bool :=
  match v with JObj _ => true | _ => false end.

Definition is_list (v : json) : bool :=
  match v with JList _ => true | _ => false end.

Definition is_str (v : json) : bool :=
  match v with JStr _ => true | _ => false end.

(** [bool(v)] *)
Definition truthy (v : json) : bool :=
  match v with
  | JNull => false
  | JBool b => b
  | JInt n => negb (n =? 0)
  | JFloat f => negb (PrimFloat.eqb f 0%float)
  | JStr s => negb (String.eqb s "")
  | JList l => match l with [] => false | _ => true end
  | JObj d => match d with [] => false | _ => true end
  end.

(** [a or b] *)
Definition or (a b : json) : json := if truthy a then a else b.

(** [str(v)] *)
Definition str `{Builtins} (v : json) : string :=
  match v with
  | JStr s => s
  | JNull => "None"
  | JBool true => "True"
  | JBool false => "False"
  | JInt n => pretty n
  | _ => py_repr v
  end.

Fixpoint lookup (d : list (string * json)) (k : string) : option json :=
  match d with
  | [] => None
  | (k', v) :: d' => if String.eqb k' k then Some v else lookup d' k
  end.

(** [c.get(k, dflt)]; only a dict has [get]. *)
Definition get (c : json) (k : string) (dflt : json) : result json :=
  match c with
  | JObj d => Ok (default dflt (lookup d k))
  | _ => Raise AttributeError
  end.

(** The code points of a UTF-8 string: a byte [10xxxxxx] continues the
    character before it. *)
Definition is_continuation (c : ascii) : bool :=
  let n := nat_of_ascii c in ((128 <=? n) && (n <? 192))%nat.

Definition starts_continued (s : string) : bool :=
  match s with
  | String c _ => is_continuation c
  | EmptyString => false
  end.

Fixpoint chars (s : string) : list string :=
  match s with
  | EmptyString => []
  | String c rest =>
      match chars rest with
      | ch :: chs =>
          if starts_continued ch then String c ch :: chs
          else String c "" :: ch :: chs
      | [] => [String c ""]
      end
  end.

Definition bytes (s : string) : list nat :=
  nat_of_ascii <$> String.list_ascii_of_string s.

(** The characters [str.isspace] accepts, UTF-8 encoded. *)
Definition whitespace : list (list nat) :=
  [ [9]; [10]; [11]; [12]; [13]; [28]; [29]; [30]; [31]; [32];
    [194; 133]; [194; 160]; [225; 154; 128];
    [226; 128; 128]; [226; 128; 129]; [226; 128; 130]; [226; 128; 131];
    [226; 128; 132]; [226; 128; 133]; [226; 128; 134]; [226; 128; 135];
    [226; 128; 136]; [226; 128; 137]; [226; 128; 138];
    [226; 128; 168]; [226; 128; 169]; [226; 128; 175];
    [226; 129; 159]; [227; 128; 128] ]%nat.

Definition isspace (ch : string) : bool :=
  bool_decide (bytes ch ∈ whitespace).

Fixpoint lstrip (chs : list string) : list string :=
  match chs with
  | ch :: rest => if isspace ch then lstrip rest else chs
  | [] => []
  end.

(** [s.strip()] *)
Definition strip (s : string) : string :=
  String.concat "" (rev (lstrip (rev (lstrip (chars s))))).

(** [iter(v)]: the elements of a list, the characters of a str, the keys
    of a dict. *)
Definition iter (v : json) : result (list json) :=
  match v with
  | JList l => Ok l
  | JStr s => Ok (JStr <$> chars s)
  | JObj d => Ok ((fun kv => JStr (fst kv)) <$> d)
  | _ => Raise TypeError
  end.

(** [len(v)] *)
Definition len (v : json) : result Z :=
  match v with
  | JList l => Ok (Z.of_nat (length l))
  | JStr s => Ok (Z.of_nat (length (chars s)))
  | JObj d => Ok (Z.of_nat (length d))
  | _ => Raise TypeError
  end.

Fixpoint all_strs (l : list json) : option (list string) :=
  match l with
  | [] => Some []
  | JStr s :: l' => (fun r => s :: r) <$> all_strs l'
  | _ :: _ => None
  end.

(** [sep.join(v)]: every element must be a str. *)
Definition join (sep : string) (v : json) : result string :=
  match iter v with
  | Ok items =>
      match all_strs items with
      | Some ss => Ok (String.concat sep ss)
      | None => Raise TypeError
      end
  | Raise e => Raise e
  end.

(** [int(f)] for a float: truncation towards zero. *)
Definition float_trunc (f : float) : result Z :=
  match Prim2SF f with
  | S754_zero _ => Ok 0
  | S754_infinity _ => Raise OverflowError
  | S754_nan => Raise ValueError
  | S754_finite s m e =>
      let mag := if 0 <=? e then Z.pos m * 2 ^ e else Z.pos m / 2 ^ (- e) in
      Ok (if s then - mag else mag)
  end.

(** [int(v)] *)
Definition int `{Builtins} (v : json) : result Z :=
  match v with
  | JInt n => Ok n
  | JBool b => Ok (if b then 1 else 0)
  | JFloat f => float_trunc f
  | JStr s => match int_of_str s with Some n => Ok n | None => Raise ValueError end
  | _ => Raise TypeError
  end.

(** Equality of hashable values, as a [set] tests it: a str equals only
    an equal str, [None] only [None], numbers compare by value. *)
Definition float_eq_int (f : float) (n : Z) : bool :=
  match Prim2SF f with
  | S754_zero _ => n =? 0
  | S754_finite s m e =>
      let sign (z : Z) := if s then - z else z in
      if 0 <=? e then n =? sign (Z.pos m * 2 ^ e)
      else (Z.pos m mod 2 ^ (- e) =? 0) && (n =? sign (Z.pos m / 2 ^ (- e)))
  | _ => false
  end.

Definition number (v : json) : option (Z + float) :=
  match v with
  | JBool b => Some (inl (if b then 1 else 0))
  | JInt n => Some (inl n)
  | JFloat f => Some (inr f)
  | _ => None
  end.

Definition eqb (a b : json) : bool :=
  match a, b with
  | JStr s, JStr t => String.eqb s t
  | JNull, JNull => true
  | _, _ =>
      match number a, number b with
      | Some (inl m), Some (inl n) => m =? n
      | Some (inl m), Some (inr g) => float_eq_int g m
      | Some (inr f), Some (inl n) => float_eq_int f n
      | Some (inr f), Some (inr g) => PrimFloat.eqb f g
      | _, _ => false
      end
  end.

Definition hashable (v : json) : bool :=
  match v with JList _ | JObj _ => false | _ => true end.

(** [key in s] for a set [s], kept as the list of its members. *)
Definition set_mem (key : json) (s : list json) : result bool :=
  if hashable key then Ok (existsb (eqb key) s) else Raise TypeError.

(** [math.ceil(a / b)] for integers [a] and [b > 0]. The quotient is
    taken exactly; Python rounds it to a float first, which agrees below
    2^53. *)
Definition ceil_div (a b : Z) : Z := - ((- a) / b).

End Py.

(** ** State and exceptions *)

(** A computation over a state [S] that returns or raises; the state
    survives an exception. *)
Definition M (S A : Type) : Type := S -> result A * S.

Definition ret {S A} (a : A) : M S A := fun s => (Ok a, s).

Definition raise {S A} (e : exn) : M S A := fun s => (Raise e, s).

Definition bind {S A B} (m : M S A) (k : A -> M S B) : M S B :=
  fun s =>
    match m s with
    | (Ok a, s') => k a s'
    | (Raise e, s') => (Raise e, s')
    end.

Definition lift_result {S A} (r : result A) : M S A := fun s => (r, s).

Definition get_state {S} : M S S := fun s => (Ok s, s).

Definition modify {S} (f : S -> S) : M S unit := fun s => (Ok tt, f s).

Notation "'let*' x ':=' m 'in' k" := (bind m (fun x => k))
  (at level 10, x name, m at level 100, k at level 200).
Notation "m ;; k" := (bind m (fun _ => k))
  (at level 100, k at level 200, right associativity).

Definition res_bind {A B} (r : result A) (k : A -> result B) : result B :=
  match r with
  | Ok a => k a
  | Raise e => Raise e
  end.

Notation "'let?' x ':=' r 'in' k" := (res_bind r (fun x => k))
  (at level 10, x name, r at level 100, k at level 200).

(** ** The network, the clock and [time.sleep] *)

Record request := { url : string; params : list (string * string) }.

(** What one [urlopen] followed by [json.loads] of the body comes to. *)
Inductive outcome :=
| Body (j : json)          (* a response whose body decodes to [j] *)
| BadBody                  (* a response whose body is not JSON *)
| URLError                 (* [HTTPError] or [URLError] *)
| Failure (what : string). (* any other exception *)

Class Remote := {
  World : Type;
  urlopen : request -> World -> outcome * World;
  utcnow : World -> string;
}.

Record io `{Remote} := {
  net : World;
  requests : list request; (* every request sent, oldest first *)
  slept : list float;      (* every [time.sleep], oldest first *)
}.

Section Io.
Context `{Remote}.

Definition send (r : request) : M io outcome :=
  fun s =>
    let (o, w) := urlopen r (net s) in
    (Ok o, {| net := w; requests := requests s ++ [r]; slept := slept s |}).

Definition sleep (d : float) : M io unit :=
  modify (fun s =>
    {| net := net s; requests := requests s; slept := slept s ++ [d] |}).

End Io.

(** ** scrape_yellow_notices.py *)

Module ScrapeYellowNotices.

Definition API_SEARCH_URL : string :=
  "https://ws-public.interpol.int/notices/v1/yellow".
Definition API_DETAILS_URL : string :=
  "https://ws-public.interpol.int/notices/v2/yellow".

Definition MAX_RESULTS_PER_PAGE : Z := 160.
Definition SEGMENT_THRESHOLD : Z := 320.
Definition RETRY_LIMIT : nat := 5.
Definition BACKOFF_FACTOR : float := 1.5%float.
Definition PAGE_DELAY : float := 0x1.999999999999ap-3%float. (* 0.2 *)
Definition DETAIL_DELAY : float := 0.25%float.

Definition SEX_SEGMENTS : list string := ["M"; "F"; "U"].

Definition OUTPUT_FIELDS : list string :=
  [ "entity_id"; "name"; "forename"; "birth_name"; "date_of_birth";
    "place_of_birth"; "country_of_birth"; "nationalities"; "sex"; "height";
    "weight"; "eyes_colors"; "hairs"; "distinguishing_marks";
    "father_forename"; "father_name"; "mother_forename"; "mother_name";
    "date_of_event"; "place"; "country"; "languages"; "issuing_country";
    "countries_likely_visited"; "url"; "images_url"; "thumbnail_url" ].

(** *** Segment *)

Record Segment := { age_min : Z; age_max : Z; sex : option string }.

Definition to_query (self : Segment) : list (string * string) :=
  [ ("ageMin", pretty (age_min self)); ("ageMax", pretty (age_max self)) ]
  ++ match sex self with
     | Some s => if String.eqb s "" then [] else [ ("sexId", s) ]
     | None => []
     end.

Definition split (self : Segment) : result (list Segment) :=
  if age_min self <? age_max self then
    let mid := (age_min self + age_max self) / 2 in
    Ok [ {| age_min := age_min self; age_max := mid; sex := sex self |};
         {| age_min := mid + 1; age_max := age_max self; sex := sex self |} ]
  else
    match sex self with
    | None =>
        Ok ((fun s => {| age_min := age_min self; age_max := age_max self;
                         sex := Some s |}) <$> SEX_SEGMENTS)
    | Some _ => Raise RequestError
    end.

Definition label (self : Segment) : string :=
  let sex :=
    match sex self with
    | Some s => if String.eqb s "" then "*" else s
    | None => "*"
    end in
  "age=" +:+ pretty (age_min self) +:+ "-" +:+ pretty (age_max self)
  +:+ "|sex=" +:+ sex.

(** *** The files and the state of a run *)

(** The progress file: unreadable, or holding a JSON document. *)
Inductive pfile :=
| Unreadable
| Content (data : json).

Record state `{Remote} := {
  wire : io;
  progress_file : option pfile;    (* data/yellow_notices_progress.json *)
  output_file : option (list row); (* data/yellow_notices_full.csv *)
  fetched : list (Segment * Z);    (* the calls of [fetch_segment], oldest first *)
}.

(** *** ProgressTracker *)

(** [processed_segments] is a [Set[str]]: [labels] are its strings;
    [foreign] tells that a loaded file also put a value in it that is not
    a str. *)
Record ProgressTracker := {
  processed_segments : gset string;
  foreign : bool;
}.

Definition str_le (s t : string) : Prop := String.leb s t = true.

#[local] Instance str_le_dec s t : Decision (str_le s t).
Proof. unfold str_le. apply _. Defined.

(** [sorted(s)] for a set of strings *)
Definition sorted (s : gset string) : list string :=
  merge_sort str_le (elements s).

Definition is_done (self : ProgressTracker) (segment : Segment) : bool :=
  bool_decide (label segment ∈ processed_segments self).

Section Run.
Context `{Builtins} `{Remote}.

Definition on_wire {A} (m : M io A) : M state A :=
  fun s =>
    let (r, w) := m (wire s) in
    (r, {| wire := w; progress_file := progress_file s;
           output_file := output_file s; fetched := fetched s |}).

Definition set_progress_file (f : pfile) : M state unit :=
  modify (fun s =>
    {| wire := wire s; progress_file := Some f;
       output_file := output_file s; fetched := fetched s |}).

Definition set_output_file (rows : list row) : M state unit :=
  modify (fun s =>
    {| wire := wire s; progress_file := progress_file s;
       output_file := Some rows; fetched := fetched s |}).

Definition log_fetch (segment : Segment) (total : Z) : M state unit :=
  modify (fun s =>
    {| wire := wire s; progress_file := progress_file s;
       output_file := output_file s;
       fetched := fetched s ++ [(segment, total)] |}).

(** [set(v)], split into its strings and whether anything else is in it *)
Fixpoint set_of (items : list json) : result ProgressTracker :=
  match items with
  | [] => Ok {| processed_segments := ∅; foreign := false |}
  | v :: rest =>
      if Py.hashable v then
        match set_of rest with
        | Ok t =>
            Ok match v with
               | JStr s =>
                   {| processed_segments := {[ s ]} ∪ processed_segments t;
                      foreign := foreign t |}
               | _ =>
                   {| processed_segments := processed_segments t;
                      foreign := true |}
               end
        | Raise e => Raise e
        end
      else Raise TypeError
  end.

Definition _load (f : option pfile) : result ProgressTracker :=
  match f with
  | None | Some Unreadable =>
      Ok {| processed_segments := ∅; foreign := false |}
  | Some (Content data) =>
      match Py.get data "processed_segments" (JList []) with
      | Ok v =>
          match Py.iter v with
          | Ok items => set_of items
          | Raise e => Raise e
          end
      | Raise e => Raise e
      end
  end.

(** [ProgressTracker(PROGRESS_FILE)] *)
Definition new_tracker : M state ProgressTracker :=
  let* s := get_state in lift_result (_load (progress_file s)).

(** [_flush] only runs from [mark_done], right after a label was added:
    when the set also holds a value that is not a str, [sorted] compares
    the two and raises. *)
Definition _flush (self : ProgressTracker) : M state unit :=
  if foreign self then raise TypeError
  else
    let* s := get_state in
    set_progress_file
      (Content (JObj
         [ ("timestamp", JStr (utcnow (net (wire s))));
           ("processed_segments",
            JList (JStr <$> sorted (processed_segments self))) ])).

Definition mark_done (self : ProgressTracker) (segment : Segment)
  : M state ProgressTracker :=
  let self' :=
    {| processed_segments := {[ label segment ]} ∪ processed_segments self;
       foreign := foreign self |} in
  _flush self' ;; ret self'.

(** *** HTTP *)

Fixpoint fpow (x : float) (n : nat) : float :=
  match n with
  | O => 1%float
  | S k => (x * fpow x k)%float
  end.

(** The [for attempt in range(1, RETRY_LIMIT + 1)] loop, entered at
    [attempt] with [left] iterations to go. *)
Fixpoint attempts (req : request) (attempt left : nat) : M io json :=
  match left with
  | O => ret (JObj [])
  | S left' =>
      let* o := send req in
      match o with
      | Body j => ret j
      | URLError =>
          if (attempt =? RETRY_LIMIT)%nat then raise RequestError
          else sleep (fpow BACKOFF_FACTOR attempt) ;;
               attempts req (S attempt) left'
      | BadBody => raise RequestError
      | Failure what => raise (OtherError what)
      end
  end.

Definition http_get_json (url : string) (params : list (string * string))
  : M io json :=
  attempts {| url := url; params := params |} 1 RETRY_LIMIT.

Definition query_total (segment : Segment) : M io Z :=
  let params := to_query segment ++ [ ("page", "1"); ("resultPerPage", "1") ] in
  let* data := http_get_json API_SEARCH_URL params in
  let* total := lift_result (Py.get data "total" (JInt 0)) in
  lift_result (Py.int total).

(** The [for page in range(page, page + left)] loop of [fetch_segment]. *)
Fixpoint pages (segment : Segment) (page : Z) (left : nat)
    (notices : list json) : M io (list json) :=
  match left with
  | O => ret notices
  | S left' =>
      let params :=
        to_query segment ++
        [ ("page", pretty page);
          ("resultPerPage", pretty MAX_RESULTS_PER_PAGE) ] in
      let* data := http_get_json API_SEARCH_URL params in
      let* embedded := lift_result (Py.get data "_embedded" (JObj [])) in
      let* chunk := lift_result (Py.get embedded "notices" (JList [])) in
      let* items := lift_result (Py.iter chunk) in
      let notices := notices ++ items in
      sleep PAGE_DELAY ;;
      let* n := lift_result (Py.len chunk) in
      if n <? MAX_RESULTS_PER_PAGE then ret notices
      else pages segment (page + 1) left' notices
  end.

Definition fetch_segment (segment : Segment) (expected_total : Z)
  : M io (list json) :=
  let total_pages :=
    Z.max 1 (Py.ceil_div expected_total MAX_RESULTS_PER_PAGE) in
  pages segment 1 (Z.to_nat total_pages) [].

Definition replace_char (a b : ascii) (s : string) : string :=
  String.string_of_list_ascii
    ((fun c => if Ascii.eqb c a then b else c) <$> String.list_ascii_of_string s).

Definition clean_entity_id (entity_id : string) : string :=
  replace_char "/" "-" entity_id.

Definition fetch_details (entity_id : string) : M io json :=
  let detail_url := API_DETAILS_URL +:+ "/" +:+ clean_entity_id entity_id in
  let* data := http_get_json detail_url [] in
  sleep DETAIL_DELAY ;;
  ret data.

(** *** Flattening *)

Definition is_none (v : json) : bool :=
  match v with JNull => true | _ => false end.

Definition safe_get (container : json) (key : string) : result string :=
  let? value := Py.get container key JNull in
  Ok match value with
     | JNull => ""
     | JList items =>
         String.concat ";"
           (Py.str <$> List.filter (fun item => negb (is_none item)) items)
     | _ => Py.str value
     end.

(** [safe_get(details, key) or safe_get(notice, key)] *)
Definition safe_get_or (details notice : json) (key : string) : result string :=
  let? value := safe_get details key in
  if String.eqb value "" then safe_get notice key else Ok value.

(** [safe_get(links.get(rel, {}) if isinstance(links, dict) else {}, "href")] *)
Definition link (links : json) (rel : string) : result string :=
  safe_get
    match links with
    | JObj d => default (JObj []) (Py.lookup d rel)
    | _ => JObj []
    end
    "href".

Definition merge_notice (notice details : json) : result row :=
  let links :=
    match details with
    | JObj d => default (JObj []) (Py.lookup d "_links")
    | _ => JObj []
    end in
  let? entity_id := Py.get notice "entity_id" (JStr "") in
  let? name := safe_get_or details notice "name" in
  let? forename := safe_get_or details notice "forename" in
  let? birth_name := safe_get details "birth_name" in
  let? date_of_birth := safe_get_or details notice "date_of_birth" in
  let? place_of_birth := safe_get details "place_of_birth" in
  let? country_of_birth := safe_get details "country_of_birth_id" in
  let? nationalities := safe_get_or details notice "nationalities" in
  let? sex := safe_get_or details notice "sex_id" in
  let? height := safe_get details "height" in
  let? weight := safe_get details "weight" in
  let? eyes_colors := safe_get details "eyes_colors_id" in
  let? hairs := safe_get details "hairs_id" in
  let? distinguishing_marks := safe_get details "distinguishing_marks" in
  let? father_forename := safe_get details "father_forename" in
  let? father_name := safe_get details "father_name" in
  let? mother_forename := safe_get details "mother_forename" in
  let? mother_name := safe_get details "mother_name" in
  let? date_of_event := safe_get details "date_of_event" in
  let? place := safe_get details "place" in
  let? country := safe_get details "country" in
  let? languages := safe_get details "languages_spoken_ids" in
  let? issuing_country := safe_get details "issuing_country" in
  let? countries_likely_visited :=
    safe_get details "countries_likely_to_be_visited" in
  let? url := link links "self" in
  let? images_url := link links "images" in
  let? thumbnail_url := link links "thumbnail" in
  Ok [ ("entity_id", JStr (Py.str entity_id));
       ("name", JStr name);
       ("forename", JStr forename);
       ("birth_name", JStr birth_name);
       ("date_of_birth", JStr date_of_birth);
       ("place_of_birth", JStr place_of_birth);
       ("country_of_birth", JStr country_of_birth);
       ("nationalities", JStr nationalities);
       ("sex", JStr sex);
       ("height", JStr height);
       ("weight", JStr weight);
       ("eyes_colors", JStr eyes_colors);
       ("hairs", JStr hairs);
       ("distinguishing_marks", JStr distinguishing_marks);
       ("father_forename", JStr father_forename);
       ("father_name", JStr father_name);
       ("mother_forename", JStr mother_forename);
       ("mother_name", JStr mother_name);
       ("date_of_event", JStr date_of_event);
       ("place", JStr place);
       ("country", JStr country);
       ("languages", JStr languages);
       ("issuing_country", JStr issuing_country);
       ("countries_likely_visited", JStr countries_likely_visited);
       ("url", JStr url);
       ("images_url", JStr images_url);
       ("thumbnail_url", JStr thumbnail_url) ].

(** [csv.DictWriter.writerow] raises [ValueError] on a key outside the
    field names; the rows before it are in the file by then. *)
Fixpoint write_rows (records written : list row) : M state unit :=
  match records with
  | [] => set_output_file written
  | r :: rest =>
      if forallb (fun k => bool_decide (k ∈ OUTPUT_FIELDS)) (r.*1)
      then write_rows rest (written ++ [r])
      else set_output_file written ;; raise ValueError
  end.

Definition write_csv (records : list row) : M state unit :=
  write_rows records [].

(** *** The crawl *)

(** [l.pop()]: the last element, and the list without it. *)
Fixpoint pop {A} (l : list A) : option (A * list A) :=
  match l with
  | [] => None
  | x :: l' =>
      match pop l' with
      | None => Some (x, [])
      | Some (y, r) => Some (y, x :: r)
      end
  end.

(** The [for notice in raw_notices] loop of [collect_notices]. *)
Fixpoint hydrate (raw_notices : list json) (seen_ids : gset string)
    (aggregated : list row) : M state (gset string * list row) :=
  match raw_notices with
  | [] => ret (seen_ids, aggregated)
  | notice :: rest =>
      let* e := lift_result (Py.get notice "entity_id" (JStr "")) in
      let entity_id := Py.str e in
      if String.eqb entity_id "" || bool_decide (entity_id ∈ seen_ids)
      then hydrate rest seen_ids aggregated
      else
        let* details := on_wire (fetch_details entity_id) in
        let* record := lift_result (merge_notice notice details) in
        hydrate rest ({[ entity_id ]} ∪ seen_ids) (aggregated ++ [record])
  end.

(** The [while pending] loop of [collect_notices]; [None] when [fuel]
    tests of the loop condition were not enough. *)
Fixpoint collect_loop (fuel : nat) (tracker : ProgressTracker)
    (pending : list Segment) (seen_ids : gset string)
    (aggregated : list row) : M state (option (list row)) :=
  match fuel with
  | O => ret None
  | S fuel' =>
      match pop pending with
      | None => ret (Some aggregated)
      | Some (segment, pending) =>
          if is_done tracker segment
          then collect_loop fuel' tracker pending seen_ids aggregated
          else
            let* total := on_wire (query_total segment) in
            if total =? 0 then
              let* tracker := mark_done tracker segment in
              collect_loop fuel' tracker pending seen_ids aggregated
            else if SEGMENT_THRESHOLD <? total then
              let* parts := lift_result (split segment) in
              collect_loop fuel' tracker (pending ++ parts) seen_ids aggregated
            else
              log_fetch segment total ;;
              let* raw_notices := on_wire (fetch_segment segment total) in
              let* sa := hydrate raw_notices seen_ids aggregated in
              let* tracker := mark_done tracker segment in
              (if Z.of_nat (length (snd sa)) mod 200 =? 0
               then write_csv (snd sa) else ret tt) ;;
              collect_loop fuel' tracker pending (fst sa) (snd sa)
      end
  end.

(** An upper bound on the number of segments the crawl can ever visit
    below [s], [s] included. *)
Definition budget (s : Segment) : nat :=
  let width := Z.to_nat (Z.max 1 (age_max s - age_min s + 1)) in
  match sex s with
  | None => 5 * width - 1
  | Some _ => 2 * width - 1
  end%nat.

Definition initial : Segment := {| age_min := 0; age_max := 120; sex := None |}.

Definition collect_notices : M state (option (list row)) :=
  let* tracker := new_tracker in
  collect_loop (S (budget initial)) tracker [initial] ∅ [].

(** [PROGRESS_FILE.unlink()], an [OSError] passed over. *)
Definition unlink_progress_file : M state unit :=
  modify (fun s =>
    {| wire := wire s; progress_file := None;
       output_file := output_file s; fetched := fetched s |}).

(** [run]; [None] when the fuel of [collect_notices] was not enough. *)
Definition run : M state (option unit) :=
  let* records := collect_notices in
  match records with
  | None => ret None
  | Some records =>
      write_csv records ;;
      unlink_progress_file ;;
      ret (Some tt)
  end.

End Run.

End ScrapeYellowNotices.

(** ** yellow_scraper.py *)

Module YellowScraper.

Definition API_URL : string :=
  "https://ws-public.interpol.int/notices/v1/yellow".
Definition RESULTS_PER_PAGE : Z := 160.

(** The field names [run] hands to [csv.DictWriter]. *)
Definition fieldnames : list string :=
  [ "name"; "forename"; "birth_name"; "date_of_birth"; "place_of_birth";
    "country_of_birth"; "nationality"; "nationalities"; "sex"; "height";
    "weight"; "eyes_colors"; "hairs"; "distinguishing_marks"; "date_of_event";
    "place"; "country"; "languages"; "father_forename"; "mother_forename";
    "mother_name"; "age_min"; "age_max"; "entity_id"; "url"; "images_url";
    "thumbnail_url" ].

(** The search filters that [fetch_page_with_filters] and its callers
    pass along. *)
Record filters := {
  nationality : option string;
  age_min : option Z;
  age_max : option Z;
  sex_id : option string;
  forename : option string;
  country_of_birth : option string;
}.

Definition by_nationality (country : string) : filters :=
  {| nationality := Some country; age_min := None; age_max := None;
     sex_id := None; forename := None; country_of_birth := None |}.

(** A line of yellow_missing_report.csv, as [verify_scraping] writes it
    and [pandas.read_csv] reads it back. *)
Record report_row := {
  country : string;
  total_api : Z;
  local_count : Z;
  missing : Z;
  coverage : float; (* the column coverage_% *)
}.

Record state `{Remote} := {
  wire : io;
  seen_ids : list json;                 (* the set shared by the fetches *)
  rows_total : list row;                (* of rattrapage_par_pays_naissance *)
  report_file : option (list report_row); (* yellow_missing_report.csv *)
  rattrapage_file : option (list row);  (* interpol_yellow_rattrapage.csv *)
  birth_file : option (list row);       (* interpol_yellow_rattrapage_birth.csv *)
  calls : list filters; (* the calls of fetch_all_pages_for_filters, oldest first *)
}.

Section Run.
Context `{Builtins} `{Remote}.

Definition on_wire {A} (m : M io A) : M state A :=
  fun s =>
    let (r, w) := m (wire s) in
    (r, {| wire := w; seen_ids := seen_ids s; rows_total := rows_total s;
           report_file := report_file s;
           rattrapage_file := rattrapage_file s;
           birth_file := birth_file s; calls := calls s |}).

Definition set_seen_ids (seen : list json) : M state unit :=
  modify (fun s =>
    {| wire := wire s; seen_ids := seen; rows_total := rows_total s;
       report_file := report_file s;
       rattrapage_file := rattrapage_file s;
       birth_file := birth_file s; calls := calls s |}).

Definition set_rows_total (rows : list row) : M state unit :=
  modify (fun s =>
    {| wire := wire s; seen_ids := seen_ids s; rows_total := rows;
       report_file := report_file s;
       rattrapage_file := rattrapage_file s;
       birth_file := birth_file s; calls := calls s |}).

Definition set_rattrapage_file (rows : list row) : M state unit :=
  modify (fun s =>
    {| wire := wire s; seen_ids := seen_ids s; rows_total := rows_total s;
       report_file := report_file s;
       rattrapage_file := Some rows;
       birth_file := birth_file s; calls := calls s |}).

Definition set_birth_file (rows : list row) : M state unit :=
  modify (fun s =>
    {| wire := wire s; seen_ids := seen_ids s; rows_total := rows_total s;
       report_file := report_file s;
       rattrapage_file := rattrapage_file s;
       birth_file := Some rows; calls := calls s |}).

Definition log_call (f : filters) : M state unit :=
  modify (fun s =>
    {| wire := wire s; seen_ids := seen_ids s; rows_total := rows_total s;
       report_file := report_file s;
       rattrapage_file := rattrapage_file s;
       birth_file := birth_file s; calls := calls s ++ [f] |}).

(** [try: m except Exception: pass] *)
Definition try_except {S A} (m : M S A) : M S (option A) :=
  fun s =>
    match m s with
    | (Ok a, s') => (Ok (Some a), s')
    | (Raise _, s') => (Ok None, s')
    end.

(** One attempt; every failure comes back as [{}]. *)
Definition http_get_json (url : string) (params : list (string * string))
  : M io json :=
  let* o := send {| url := url; params := params |} in
  match o with
  | Body j => ret j
  | _ => ret (JObj [])
  end.

(** [list(iter_notices(data))] *)
Definition iter_notices (data : json) : result (list json) :=
  let? emb := Py.get data "_embedded" (JObj []) in
  let arr :=
    match emb with
    | JObj d => default (JList []) (Py.lookup d "notices")
    | _ => JList []
    end in
  let? items := Py.iter arr in
  Ok (List.filter Py.is_dict items).

(** [[(k, v)]] when the optional string [o] is truthy *)
Definition param (k : string) (o : option string) : list (string * string) :=
  match o with
  | Some s => if String.eqb s "" then [] else [ (k, s) ]
  | None => []
  end.

Definition int_param (k : string) (o : option Z) : list (string * string) :=
  match o with
  | Some n => [ (k, pretty n) ]
  | None => []
  end.

(** The [params] dict of [fetch_page_with_filters]. *)
Definition page_params (page : Z) (f : filters) : list (string * string) :=
  [ ("page", pretty page); ("resultPerPage", pretty RESULTS_PER_PAGE) ]
  ++ param "nationality" (nationality f)
  ++ int_param "ageMin" (age_min f)
  ++ int_param "ageMax" (age_max f)
  ++ param "sexId" (sex_id f)
  ++ param "forename" (forename f)
  ++ param "country_of_birth_id" (country_of_birth f).

Definition fetch_page_with_filters (page : Z) (f : filters) : M io json :=
  http_get_json API_URL (page_params page f).

Definition get_total_with_filters (f : filters) : M io Z :=
  let* data := fetch_page_with_filters 1 f in
  let* t := lift_result (Py.get data "total" (JInt 0)) in
  let* total := lift_result (Py.int t) in
  if total <=? 0 then
    let* items := lift_result (iter_notices data) in
    ret (Z.of_nat (length items))
  else ret total.

(** [str(o)] for an optional string or integer *)
Definition str_opt (o : option string) : string := default "None" o.
Definition str_opt_int (o : option Z) : string :=
  match o with Some n => pretty n | None => "None" end.

(** [o or ""], [o or v] for an optional string *)
Definition opt_truthy (o : option string) : option string :=
  match o with
  | Some s => if String.eqb s "" then None else Some s
  | None => None
  end.

(** [item.get("_links", {}).get(rel, {}).get("href", "")] *)
Definition href (item : json) (rel : string) : result json :=
  let? links := Py.get item "_links" (JObj []) in
  let? target := Py.get links rel (JObj []) in
  Py.get target "href" (JStr "").

(** [str(item.get("entity_id") or item.get("id") or "").strip()] *)
Definition entity_id_of (item : json) : result string :=
  let? a := Py.get item "entity_id" JNull in
  let? b := Py.get item "id" JNull in
  Ok (Py.strip (Py.str (Py.or (Py.or a b) (JStr "")))).

(** The dict that [fetch_all_pages_for_filters] appends for [item]. *)
Definition make_row (f : filters) (item : json) (eid : string) (nurl : json)
  : result row :=
  let field (k : string) := Py.get item k (JStr "") in
  let joined (k : string) :=
    let? v := Py.get item k (JList []) in
    let? s := Py.join ";" v in Ok (JStr s) in
  let? name := field "name" in
  let? forename := field "forename" in
  let? birth_name := field "birth_name" in
  let? date_of_birth := field "date_of_birth" in
  let? place_of_birth := field "place_of_birth" in
  let? country_of_birth := field "country_of_birth_id" in
  let? nationalities := joined "nationalities" in
  let? sex :=
    match opt_truthy (sex_id f) with
    | Some s => Ok (JStr s)
    | None => field "sex_id"
    end in
  let? height := field "height" in
  let? weight := field "weight" in
  let? eyes_colors := joined "eyes_colors_id" in
  let? hairs := joined "hairs_id" in
  let? distinguishing_marks := field "distinguishing_marks" in
  let? date_of_event := field "date_of_event" in
  let? place := field "place" in
  let? country := field "country" in
  let? languages := joined "languages_spoken_ids" in
  let? father_forename := field "father_forename" in
  let? mother_forename := field "mother_forename" in
  let? mother_name := field "mother_name" in
  let? images_url := href item "images" in
  let? thumbnail_url := href item "thumbnail" in
  Ok [ ("name", name);
       ("forename", forename);
       ("birth_name", birth_name);
       ("date_of_birth", date_of_birth);
       ("place_of_birth", place_of_birth);
       ("country_of_birth", country_of_birth);
       ("nationality", JStr (default "" (opt_truthy (nationality f))));
       ("nationalities", nationalities);
       ("sex", sex);
       ("height", height);
       ("weight", weight);
       ("eyes_colors", eyes_colors);
       ("hairs", hairs);
       ("distinguishing_marks", distinguishing_marks);
       ("date_of_event", date_of_event);
       ("place", place);
       ("country", country);
       ("languages", languages);
       ("father_forename", father_forename);
       ("mother_forename", mother_forename);
       ("mother_name", mother_name);
       ("age_min", match age_min f with Some n => JInt n | None => JStr "" end);
       ("age_max", match age_max f with Some n => JInt n | None => JStr "" end);
       ("entity_id", JStr eid);
       ("url", nurl);
       ("images_url", images_url);
       ("thumbnail_url", thumbnail_url) ].

(** [eid or nurl or f"{nationality}|{sex_id}|{age_min}|{page}|{name}"] *)
Definition identity_key (f : filters) (page : Z) (item : json)
    (eid : string) (nurl : json) : result json :=
  if negb (String.eqb eid "") then Ok (JStr eid)
  else if Py.truthy nurl then Ok nurl
  else
    let? name := Py.get item "name" (JStr "") in
    Ok (JStr (str_opt (nationality f) +:+ "|" +:+ str_opt (sex_id f)
              +:+ "|" +:+ str_opt_int (age_min f) +:+ "|" +:+ pretty page
              +:+ "|" +:+ Py.str name)).

(** The [for item in iter_notices(data)] loop of
    [fetch_all_pages_for_filters]. The key enters the shared set before
    the row is built. *)
Fixpoint items_loop (f : filters) (page : Z) (items : list json)
    (rows : list row) : M state (list row) :=
  match items with
  | [] => ret rows
  | item :: rest =>
      let* eid := lift_result (entity_id_of item) in
      let* nurl := lift_result (href item "self") in
      let* key := lift_result (identity_key f page item eid nurl) in
      let* s := get_state in
      let* present := lift_result (Py.set_mem key (seen_ids s)) in
      if present then items_loop f page rest rows
      else
        set_seen_ids (seen_ids s ++ [key]) ;;
        let* r := lift_result (make_row f item eid nurl) in
        items_loop f page rest (rows ++ [r])
  end.

(** The [for page in range(page, page + left)] loop. *)
Fixpoint pages_loop (f : filters) (delay : float) (page num_pages : Z)
    (left : nat) (rows : list row) : M state (list row) :=
  match left with
  | O => ret rows
  | S left' =>
      let* data := on_wire (fetch_page_with_filters page f) in
      let* items := lift_result (iter_notices data) in
      let* rows := items_loop f page items rows in
      (if page <? num_pages then on_wire (sleep delay) else ret tt) ;;
      pages_loop f delay (page + 1) num_pages left' rows
  end.

Definition fetch_all_pages_for_filters (f : filters) (delay : float)
  : M state (list row) :=
  log_call f ;;
  let* total := on_wire (get_total_with_filters f) in
  if total =? 0 then ret []
  else
    let num_pages := Py.ceil_div total RESULTS_PER_PAGE in
    pages_loop f delay 1 num_pages (Z.to_nat num_pages) [].

(** *** The retry on the coverage report *)

Definition default_threshold : float := 100%float.

(** [df[df["coverage_%"] < threshold]["country"].tolist()] *)
Definition below (threshold : float) (df : list report_row) : list string :=
  country <$> List.filter (fun r => PrimFloat.ltb (coverage r) threshold) df.

(** The [for country in missing_countries] loop of [auto_rattrapage]. *)
Fixpoint retry_loop (missing_countries : list string)
    (completed_rows : list row) : M state (list row) :=
  match missing_countries with
  | [] => ret completed_rows
  | country :: rest =>
      let* rows :=
        try_except
          (fetch_all_pages_for_filters (by_nationality country) 1.5%float) in
      retry_loop rest (completed_rows ++ default [] rows)
  end.

(** Up to interpol_yellow_rattrapage.csv; the merge into the corrected
    file is pandas' work on the CSV files. *)
Definition auto_rattrapage (threshold : float) : M state unit :=
  let* s := get_state in
  match report_file s with
  | None => ret tt
  | Some df =>
      match below threshold df with
      | [] => ret tt
      | missing_countries =>
          set_seen_ids [] ;;
          let* completed_rows := retry_loop missing_countries [] in
          match completed_rows with
          | [] => ret tt
          | _ => set_rattrapage_file completed_rows
          end
      end
  end.

(** *** The retry by country of birth *)

(** The [for item in notices] loop; [rows_total] grows in place. *)
Fixpoint birth_items (country : string) (items : list json) : M state unit :=
  match items with
  | [] => ret tt
  | item :: rest =>
      let* eid := lift_result (entity_id_of item) in
      let* nurl := lift_result (href item "self") in
      let key := if negb (String.eqb eid "") then JStr eid else nurl in
      let* s := get_state in
      let* skip :=
        if negb (Py.truthy key) then ret true
        else lift_result (Py.set_mem key (seen_ids s)) in
      if skip : bool then birth_items country rest
      else
        set_seen_ids (seen_ids s ++ [key]) ;;
        let* r := lift_result (
          let field (k : string) := Py.get item k (JStr "") in
          let? name := field "name" in
          let? forename := field "forename" in
          let? birth_name := field "birth_name" in
          let? date_of_birth := field "date_of_birth" in
          let? place_of_birth := field "place_of_birth" in
          Ok [ ("name", name);
               ("forename", forename);
               ("birth_name", birth_name);
               ("date_of_birth", date_of_birth);
               ("place_of_birth", place_of_birth);
               ("country_of_birth", JStr country);
               ("nationality", JStr "UNK");
               ("entity_id", JStr eid);
               ("url", nurl) ]) in
        let* s := get_state in
        set_rows_total (rows_total s ++ [r]) ;;
        birth_items country rest
  end.

Definition birth_params (country : string) (page : string)
  : list (string * string) :=
  [ ("country_of_birth_id", country);
    ("resultPerPage", pretty RESULTS_PER_PAGE);
    ("page", page) ].

Fixpoint birth_pages (country : string) (page : Z) (left : nat)
  : M state unit :=
  match left with
  | O => ret tt
  | S left' =>
      let* data :=
        on_wire (http_get_json API_URL (birth_params country (pretty page))) in
      let* notices := lift_result (iter_notices data) in
      birth_items country notices ;;
      on_wire (sleep 0.5%float) ;;
      birth_pages country (page + 1) left'
  end.

(** The body of the [try] for one country. *)
Definition birth_country (country : string) : M state unit :=
  let* data := on_wire (http_get_json API_URL (birth_params country "1")) in
  let* t := lift_result (Py.get data "total" (JInt 0)) in
  let* total := lift_result (Py.int t) in
  if total =? 0 then ret tt
  else birth_pages country 1 (Z.to_nat (Py.ceil_div total RESULTS_PER_PAGE)).

Fixpoint birth_loop (countries_to_retry : list string) : M state unit :=
  match countries_to_retry with
  | [] => ret tt
  | country :: rest =>
      try_except (birth_country country) ;;
      birth_loop rest
  end.

(** Up to interpol_yellow_rattrapage_birth.csv; the merge into the final
    file is pandas' work on the CSV files. *)
Definition rattrapage_par_pays_naissance (threshold : float) : M state unit :=
  let* s := get_state in
  match report_file s with
  | None => ret tt
  | Some df =>
      match below threshold df with
      | [] => ret tt
      | countries_to_retry =>
          set_seen_ids [] ;;
          set_rows_total [] ;;
          birth_loop countries_to_retry ;;
          let* s := get_state in
          match rows_total s with
          | [] => ret tt
          | rows => set_birth_file rows
          end
      end
  end.

(** *** Country by country *)

Definition DELAY : float := 1%float.

Definition by_sex (country sex : string) : filters :=
  {| nationality := Some country; age_min := None; age_max := None;
     sex_id := Some sex; forename := None; country_of_birth := None |}.

(** The slice [age_min, age_min + 1] of a country and sex. *)
Definition by_age (country sex : string) (age : Z) : filters :=
  {| nationality := Some country; age_min := Some age; age_max := Some (age + 1);
     sex_id := Some sex; forename := None; country_of_birth := None |}.

Definition by_birth (country : string) : filters :=
  {| nationality := None; age_min := None; age_max := None;
     sex_id := None; forename := None; country_of_birth := Some country |}.

(** The [for age_min in range(0, 120)] loop of [smart_fetch_country]. *)
Fixpoint ages_loop (country sex : string) (delay : float) (ages : list Z)
    (all_rows : list row) : M state (list row) :=
  match ages with
  | [] => ret all_rows
  | age :: rest =>
      let* total_age := on_wire (get_total_with_filters (by_age country sex age)) in
      if 0 <? total_age then
        let* rows := fetch_all_pages_for_filters (by_age country sex age) delay in
        ages_loop country sex delay rest (all_rows ++ rows)
      else ages_loop country sex delay rest all_rows
  end.

(** [range(0, 120)] *)
Definition all_ages : list Z := Z.of_nat <$> seq 0 120.

(** The [for sex_id in ["M", "F", "U"]] loop. *)
Fixpoint sexes_loop (country : string) (delay : float) (sexes : list string)
    (all_rows : list row) : M state (list row) :=
  match sexes with
  | [] => ret all_rows
  | sex :: rest =>
      let* total_sex := on_wire (get_total_with_filters (by_sex country sex)) in
      if total_sex =? 0 then sexes_loop country delay rest all_rows
      else if total_sex <=? 160 then
        let* rows := fetch_all_pages_for_filters (by_sex country sex) delay in
        sexes_loop country delay rest (all_rows ++ rows)
      else
        let* all_rows := ages_loop country sex delay all_ages all_rows in
        sexes_loop country delay rest all_rows
  end.

Definition smart_fetch_country (country : string) (delay : float)
  : M state (list row) :=
  let* total_country := on_wire (get_total_with_filters (by_nationality country)) in
  let* all_rows :=
    if total_country <=? 160
    then fetch_all_pages_for_filters (by_nationality country) delay
    else sexes_loop country delay [ "M"; "F"; "U" ] [] in
  let* total_birth_country := on_wire (get_total_with_filters (by_birth country)) in
  if (0 <? total_birth_country) && (total_birth_country <=? 160) then
    let* rows := fetch_all_pages_for_filters (by_birth country) delay in
    ret (all_rows ++ rows)
  else ret all_rows.

(** [string.ascii_uppercase], letter by letter *)
Definition ascii_uppercase : list string :=
  [ "A"; "B"; "C"; "D"; "E"; "F"; "G"; "H"; "I"; "J"; "K"; "L"; "M";
    "N"; "O"; "P"; "Q"; "R"; "S"; "T"; "U"; "V"; "W"; "X"; "Y"; "Z" ].

(** [[a + b for a, b in product(string.ascii_uppercase, repeat=2)]] *)
Definition countries : list string :=
  a ← ascii_uppercase; (fun b => a +:+ b) <$> ascii_uppercase.

(** The state of [run]: that of the fetches, and
    interpol_yellow_smart_all.csv. *)
Record crawl := {
  fetches : state;
  all_file : option (list row);
}.

Definition on_fetches {A} (m : M state A) : M crawl A :=
  fun c =>
    let (r, s) := m (fetches c) in
    (r, {| fetches := s; all_file := all_file c |}).

Definition set_all_file (rows : list row) : M crawl unit :=
  modify (fun c => {| fetches := fetches c; all_file := Some rows |}).

(** [csv.DictWriter(f, fieldnames=fieldnames)], [writeheader] and
    [writerows]: a key outside the field names raises [ValueError], the
    rows before it written. *)
Fixpoint write_all (all_rows written : list row) : M crawl unit :=
  match all_rows with
  | [] => set_all_file written
  | r :: rest =>
      if forallb (fun k => bool_decide (k ∈ fieldnames)) (r.*1)
      then write_all rest (written ++ [r])
      else set_all_file written ;; raise ValueError
  end.

(** The [for i, country in enumerate(countries, 1)] loop of [run], from
    [i] on. *)
Fixpoint run_loop (i : Z) (todo : list string) (all_rows : list row)
  : M crawl (list row) :=
  match todo with
  | [] => ret all_rows
  | country :: rest =>
      let* rows := on_fetches (try_except (smart_fetch_country country DELAY)) in
      let all_rows := all_rows ++ default [] rows in
      on_fetches (on_wire (sleep (DELAY * 2)%float)) ;;
      (if i mod 5 =? 0 then write_all all_rows [] else ret tt) ;;
      run_loop (i + 1) rest all_rows
  end.

Definition run : M crawl unit :=
  on_fetches (set_seen_ids []) ;;
  let* all_rows := run_loop 1 countries [] in
  write_all all_rows [].

End Run.

End YellowScraper.

(** ** main.py *)

Module Main.

Section Run.
Context `{Builtins}.

Definition safe_join (data : json) : string :=
  match data with
  | JList items => String.concat ", " (Py.str <$> items)
  | _ => if Py.truthy data then Py.str data else "N/A"
  end.

Definition extract_notice_info (notice : json) : result row :=
  let field (k : string) := Py.get notice k (JStr "N/A") in
  let joined (k : string) :=
    let? v := Py.get notice k JNull in Ok (JStr (safe_join v)) in
  let? entity_id := field "entity_id" in
  let? name := field "name" in
  let? forename := field "forename" in
  let? date_of_birth := field "date_of_birth" in
  let? nationalities := joined "nationalities" in
  let? place_of_birth := field "place_of_birth" in
  let? country_of_birth := field "country_of_birth_id" in
  let? sex := field "sex_id" in
  let? weight := field "weight" in
  let? height := field "height" in
  let? eyes_colors := joined "eyes_colors_id" in
  let? hairs_colors := joined "hairs_id" in
  Ok [ ("entity_id", entity_id);
       ("name", name);
       ("forename", forename);
       ("date_of_birth", date_of_birth);
       ("nationalities", nationalities);
       ("place_of_birth", place_of_birth);
       ("country_of_birth", country_of_birth);
       ("sex", sex);
       ("weight", weight);
       ("height", height);
       ("eyes_colors", eyes_colors);
       ("hairs_colors", hairs_colors) ].

(** The keys of the dict literal of [extract_notice_info]. *)
Definition notice_fields : list string :=
  [ "entity_id"; "name"; "forename"; "date_of_birth"; "nationalities";
    "place_of_birth"; "country_of_birth"; "sex"; "weight"; "height";
    "eyes_colors"; "hairs_colors" ].

End Run.

(** *** The crawl of the red notices *)

Definition base_url : string :=
  "https://ws-public.interpol.int/notices/v1/red".

(** What [response.json()] does with a body that is no JSON depends on the
    installed requests: since 2.27 it raises
    [requests.exceptions.JSONDecodeError], a [RequestException]; before, a
    [ValueError] that is none. *)
Class Requests := {
  json_error_is_request_exception : bool;
}.

(** [key in c], for a str [key]: a key of a dict, an element of a list, a
    part of a str. *)
Fixpoint is_substring (needle s : string) : bool :=
  String.prefix needle s
  || match s with
     | String _ rest => is_substring needle rest
     | EmptyString => false
     end.

Definition contains (key : string) (c : json) : result bool :=
  match c with
  | JObj d => Ok (bool_decide (is_Some (Py.lookup d key)))
  | JList l => Ok (existsb (Py.eqb (JStr key)) l)
  | JStr s => Ok (is_substring key s)
  | _ => Raise TypeError
  end.

(** [c[key]], for a str [key] *)
Definition getitem (c : json) (key : string) : result json :=
  match c with
  | JObj d =>
      match Py.lookup d key with
      | Some v => Ok v
      | None => Raise (OtherError "KeyError")
      end
  | _ => Raise TypeError
  end.

(** [n >= f] for an int and a float, compared exactly. *)
Definition int_ge_float (n : Z) (f : float) : bool :=
  match Prim2SF f with
  | S754_zero _ => 0 <=? n
  | S754_infinity s => s
  | S754_nan => false
  | S754_finite s m e =>
      let signed := if s then - Z.pos m else Z.pos m in
      if 0 <=? e then signed * 2 ^ e <=? n
      else signed <=? n * 2 ^ (- e)
  end.

(** [n >= v] for an int [n] *)
Definition int_ge (n : Z) (v : json) : result bool :=
  match v with
  | JInt t => Ok (t <=? n)
  | JBool b => Ok ((if b then 1 else 0) <=? n)
  | JFloat f => Ok (int_ge_float n f)
  | _ => Raise TypeError
  end.

Record state `{Remote} := {
  wire : io;
  json_file : option (list row); (* interpol_red_notices_ALL.json *)
  csv_file : option (list row);  (* interpol_red_notices_ALL.csv *)
}.

Section Scrape.
Context `{Builtins} `{Remote} `{Requests}.

Definition on_wire {A} (m : M io A) : M state A :=
  fun s =>
    let (r, w) := m (wire s) in
    (r, {| wire := w; json_file := json_file s; csv_file := csv_file s |}).

Definition set_json_file (rows : list row) : M state unit :=
  modify (fun s =>
    {| wire := wire s; json_file := Some rows; csv_file := csv_file s |}).

Definition set_csv_file (rows : list row) : M state unit :=
  modify (fun s =>
    {| wire := wire s; json_file := json_file s; csv_file := Some rows |}).

(** [requests.get], [raise_for_status] and [response.json()] inside
    [try ... except RequestException: return None]. Of the outcomes,
    [URLError] stands for the exceptions of requests, [Failure] for any
    other. *)
Definition get_json (req : request) : M io json :=
  let* o := send req in
  match o with
  | Body j => ret j
  | URLError => ret JNull
  | BadBody =>
      if json_error_is_request_exception then ret JNull else raise ValueError
  | Failure what => raise (OtherError what)
  end.

Definition get_notices (page : Z) : M io json :=
  get_json {| url := base_url;
              params := [ ("page", pretty page); ("resultPerPage", "20") ] |}.

Definition get_notice_detail (entity_id : json) : M io json :=
  get_json {| url := base_url +:+ "/" +:+ Py.str entity_id; params := [] |}.

(** [data and '_embedded' in data and 'notices' in data['_embedded']] *)
Definition has_notices (data : json) : result bool :=
  if Py.truthy data then
    let? listed := contains "_embedded" data in
    if listed : bool then
      let? embedded := getitem data "_embedded" in
      contains "notices" embedded
    else Ok false
  else Ok false.

(** The [for idx, notice in enumerate(notices, 1)] loop. *)
Fixpoint notices_loop (get_full_details : bool) (notices : list json)
    (all_notices : list row) : M state (list row) :=
  match notices with
  | [] => ret all_notices
  | notice :: rest =>
      let* entity_id := lift_result (Py.get notice "entity_id" (JStr "N/A")) in
      let* notice_info :=
        if get_full_details && negb (Py.eqb entity_id (JStr "N/A")) then
          let* detailed_notice := on_wire (get_notice_detail entity_id) in
          let* notice_info :=
            lift_result
              (if Py.truthy detailed_notice
               then extract_notice_info detailed_notice
               else extract_notice_info notice) in
          on_wire (sleep 0x1.3333333333333p-2%float) ;;
          ret notice_info
        else lift_result (extract_notice_info notice) in
      notices_loop get_full_details rest (all_notices ++ [notice_info])
  end.

(** The [while True] loop; [None] when [fuel] pages were not enough. *)
Fixpoint pages_loop (fuel : nat) (get_full_details : bool) (page : Z)
    (all_notices : list row) : M state (option (list row)) :=
  match fuel with
  | O => ret None
  | S fuel' =>
      let* data := on_wire (get_notices page) in
      let* usable := lift_result (has_notices data) in
      if usable : bool then
        let* embedded := lift_result (getitem data "_embedded") in
        let* notices := lift_result (getitem embedded "notices") in
        if negb (Py.truthy notices) then ret (Some all_notices)
        else
          let* _ := lift_result (Py.len notices) in
          let* items := lift_result (Py.iter notices) in
          let* all_notices := notices_loop get_full_details items all_notices in
          let* total := lift_result (Py.get data "total" (JInt 0)) in
          let* complete :=
            lift_result (int_ge (Z.of_nat (length all_notices)) total) in
          if complete : bool then ret (Some all_notices)
          else
            on_wire (sleep 1%float) ;;
            pages_loop fuel' get_full_details (page + 1) all_notices
      else ret (Some all_notices)
  end.

(** [csv.DictWriter(f, fieldnames=all_notices[0].keys())], [writeheader]
    and [writerows]. *)
Fixpoint write_rows (fieldnames : list string) (rows written : list row)
  : M state unit :=
  match rows with
  | [] => set_csv_file written
  | r :: rest =>
      if forallb (fun k => bool_decide (k ∈ fieldnames)) (r.*1)
      then write_rows fieldnames rest (written ++ [r])
      else set_csv_file written ;; raise ValueError
  end.

Definition scrape_all_notices (fuel : nat)
    (save_to_json save_to_csv get_full_details : bool)
  : M state (option (list row)) :=
  let* all_notices := pages_loop fuel get_full_details 1 [] in
  match all_notices with
  | None => ret None
  | Some all_notices =>
      (match all_notices with
       | first :: _ =>
           (if save_to_json then set_json_file all_notices else ret tt) ;;
           (if save_to_csv then write_rows (first.*1) all_notices []
            else ret tt)
       | [] => ret tt
       end) ;;
      ret (Some all_notices)
  end.

End Scrape.

End Main.

(** ** Vocabulary of the properties *)

Module SYN := ScrapeYellowNotices.
Module YS := YellowScraper.

(** The (age, sex) points a segment stands for; an open sex stands for the
    three values of [SEX_SEGMENTS]. *)
Definition covers (s : SYN.Segment) (age : Z) (x : string) : bool :=
  (SYN.age_min s <=? age) && (age <=? SYN.age_max s)
  && match SYN.sex s with
     | None => bool_decide (x ∈ SYN.SEX_SEGMENTS)
     | Some y => String.eqb x y
     end.

(** How many of [parts] a point falls in. *)
Definition hits (parts : list SYN.Segment) (age : Z) (x : string) : nat :=
  length (List.filter (fun p => covers p age x) parts).

(** [p] is one of the segments [split] makes of [s]. *)
Definition child (p s : SYN.Segment) : Prop :=
  exists parts, SYN.split s = Ok parts /\ p ∈ parts.

(** What decreases along [child]: the width of the age range, then the open
    sex. *)
Definition rank (s : SYN.Segment) : nat :=
  2 * Z.to_nat (SYN.age_max s - SYN.age_min s)
  + match SYN.sex s with None => 1 | Some _ => 0 end.

(** The entity_id a record carries. *)
Definition row_eid (r : row) : string :=
  match Py.lookup r "entity_id" with
  | Some (JStr s) => s
  | _ => ""
  end.

Definition distinct_ids (rows : list row) : bool :=
  bool_decide (NoDup (row_eid <$> rows)).

(** The record has the keys [fields], no more and no less. *)
Definition same_keys (fields : list string) (r : row) : bool :=
  forallb (fun k => bool_decide (k ∈ fields)) (r.*1)
  && forallb (fun k => bool_decide (k ∈ r.*1)) fields.

Definition all_str (r : row) : bool := forallb Py.is_str (r.*2).

(** The entity_ids that are not empty. *)
Definition named (rows : list row) : list string :=
  List.filter (fun e => negb (String.eqb e "")) (row_eid <$> rows).

(** The records of [rows] that carry an entity_id carry different ones, and
    each such id is in [seen]. *)
Definition consistent (seen : list json) (rows : list row) : Prop :=
  NoDup (named rows)
  /\ forall e, e ∈ row_eid <$> rows -> e <> "" -> JStr e ∈ seen.

(** The keys of the dict the birth-country pass appends. *)
Definition birth_fields : list string :=
  [ "name"; "forename"; "birth_name"; "date_of_birth"; "place_of_birth";
    "country_of_birth"; "nationality"; "entity_id"; "url" ].

(** The fields [merge_notice] takes from the detail payload, else from the
    list entry, with the payload key of each. *)
Definition shared_fields : list (string * string) :=
  [ ("name", "name"); ("forename", "forename");
    ("date_of_birth", "date_of_birth"); ("nationalities", "nationalities");
    ("sex", "sex_id") ].

(** The fields [merge_notice] takes from the detail payload alone. *)
Definition detail_fields : list (string * string) :=
  [ ("birth_name", "birth_name"); ("place_of_birth", "place_of_birth");
    ("country_of_birth", "country_of_birth_id"); ("height", "height");
    ("weight", "weight"); ("eyes_colors", "eyes_colors_id");
    ("hairs", "hairs_id"); ("distinguishing_marks", "distinguishing_marks");
    ("father_forename", "father_forename"); ("father_name", "father_name");
    ("mother_forename", "mother_forename"); ("mother_name", "mother_name");
    ("date_of_event", "date_of_event"); ("place", "place");
    ("country", "country"); ("languages", "languages_spoken_ids");
    ("issuing_country", "issuing_country");
    ("countries_likely_visited", "countries_likely_to_be_visited") ].

(** The outcomes of [n] successive requests [req] from the world [w]. *)
Fixpoint outcomes `{Remote} (req : request) (n : nat) (w : World) : list outcome :=
  match n with
  | O => []
  | S k => let (o, w') := urlopen req w in o :: outcomes req k w'
  end.

(** The number of transport failures before anything else happens. *)
Fixpoint failures (os : list outcome) : nat :=
  match os with
  | URLError :: rest => S (failures rest)
  | _ => 0
  end.

(** What [RETRY_LIMIT] attempts come to, by their outcomes. *)
Fixpoint verdict (os : list outcome) : result json :=
  match os with
  | [] => Raise RequestError
  | Body j :: _ => Ok j
  | BadBody :: _ => Raise RequestError
  | Failure what :: _ => Raise (OtherError what)
  | URLError :: rest => verdict rest
  end.

(** The budget of the pending segments together. *)
Definition budgets (pending : list SYN.Segment) : nat :=
  sum_list (SYN.budget <$> pending).

(** The computation leaves the log of [fetch_segment] calls as it is. *)
Definition keeps `{Remote} {A} (m : M SYN.state A) : Prop :=
  forall s, SYN.fetched (snd (m s)) = SYN.fetched s.

(** What a call of [fetch_segment] may be logged with. *)
Definition small (call : SYN.Segment * Z) : Prop :=
  snd call <= SYN.SEGMENT_THRESHOLD /\ snd call <> 0.

(** The log of [fetch_segment] calls has grown by small calls only. *)
Definition grows `{Remote} (s s' : SYN.state) : Prop :=
  exists new, SYN.fetched s' = SYN.fetched s ++ new /\ Forall small new.

(** The world after [n] successive requests [req]. *)
Fixpoint advance `{Remote} (req : request) (n : nat) (w : World) : World :=
  match n with
  | O => w
  | S k => advance req k (snd (urlopen req w))
  end.

(** The fields [extract_notice_info] copies from the payload, with the
    payload key of each, and the fields it joins into a string. *)
Definition red_plain : list (string * string) :=
  [ ("entity_id", "entity_id"); ("name", "name"); ("forename", "forename");
    ("date_of_birth", "date_of_birth"); ("place_of_birth", "place_of_birth");
    ("country_of_birth", "country_of_birth_id"); ("sex", "sex_id");
    ("weight", "weight"); ("height", "height") ].

Definition red_joined : list string :=
  [ "nationalities"; "eyes_colors"; "hairs_colors" ].

(** The same for the rows of [fetch_all_pages_for_filters]. *)
Definition yellow_plain : list (string * string) :=
  [ ("name", "name"); ("forename", "forename"); ("birth_name", "birth_name");
    ("date_of_birth", "date_of_birth"); ("place_of_birth", "place_of_birth");
    ("country_of_birth", "country_of_birth_id"); ("height", "height");
    ("weight", "weight"); ("distinguishing_marks", "distinguishing_marks");
    ("date_of_event", "date_of_event"); ("place", "place");
    ("country", "country"); ("father_forename", "father_forename");
    ("mother_forename", "mother_forename"); ("mother_name", "mother_name") ].

Definition yellow_strings : list string :=
  [ "nationality"; "nationalities"; "eyes_colors"; "hairs"; "languages";
    "entity_id" ].

(** The value a record holds under [field] is a string. *)
Definition str_at (r : row) (field : string) : bool :=
  match Py.lookup r field with
  | Some v => Py.is_str v
  | None => false
  end.

(** The [_links] of a detail payload, if any, point to dicts. *)
Definition links_ok (details : list (string * json)) : bool :=
  match Py.lookup details "_links" with
  | Some (JObj links) =>
      forallb
        (fun rel =>
           match Py.lookup links rel with
           | Some target => Py.is_dict target
           | None => true
           end)
        [ "self"; "images"; "thumbnail" ]
  | _ => true
  end.

(** [m] keeps [P] true of the state of yellow_scraper.py, however it ends. *)
Definition preserves `{Remote} {A} (P : YS.state -> Prop) (m : M YS.state A)
  : Prop :=
  forall s, P s -> P (snd (m s)).

(** [P] does not look at the network, nor at the shared set. *)
Definition blind `{Remote} (P : YS.state -> Prop) : Prop :=
  forall s w seen,
    P s ->
    P {| YS.wire := w; YS.seen_ids := seen; YS.rows_total := YS.rows_total s;
         YS.report_file := YS.report_file s;
         YS.rattrapage_file := YS.rattrapage_file s;
         YS.birth_file := YS.birth_file s; YS.calls := YS.calls s |}.

Definition birth_shaped (rows : list row) : Prop :=
  Forall (fun r => r.*1 = birth_fields) rows.

(** The rows of the birth-country pass keep their shape, and the file keeps
    its content, until the file is written. *)
Definition birth_inv `{Remote} (b : option (list row)) (s : YS.state) : Prop :=
  YS.birth_file s = b /\ birth_shaped (YS.rows_total s).


(** The records aggregated so far carry different entity_ids, none of them
    empty, all of them in [seen]. *)
Definition tidy (seen : gset string) (aggregated : list row) : Prop :=
  NoDup (row_eid <$> aggregated)
  /\ forall r, r ∈ aggregated -> row_eid r <> "" /\ row_eid r ∈ seen.

(** The same of the records a crawl returns, if it returns any. *)
Definition tidy_output (r : result (option (list row))) : Prop :=
  match r with
  | Ok (Some rows) =>
      NoDup (row_eid <$> rows) /\ Forall (fun r => row_eid r <> "") rows
  | _ => True
  end.

(** What a fetch over the shared set leaves: the set has only grown, and the
    rows fetched, added to the rows [acc] of the fetches before, are
    consistent with it; [acc] alone if the fetch raised. *)
Definition after_fetch `{Remote} (seen0 : list json) (acc : list row)
    (res : result (list row) * YS.state) : Prop :=
  (forall x, x ∈ seen0 -> x ∈ YS.seen_ids (snd res))
  /\ match fst res with
     | Ok rows => consistent (YS.seen_ids (snd res)) (acc ++ rows)
     | Raise _ => consistent (YS.seen_ids (snd res)) acc
     end.

(** The request by which [fetch_all_pages_for_filters] asks for the total. *)
Definition total_query (f : YS.filters) : request :=
  {| url := YS.API_URL; params := YS.page_params 1 f |}.


(** [m] only adds to the requests sent. *)
Definition only_sends `{Remote} {A} (m : M io A) : Prop :=
  forall s, requests s `prefix_of` requests (snd (m s)).

(** [P] is kept by what the fetches do to the network and to the shared
    set. *)
Definition steady `{Remote} (P : YS.state -> Prop) : Prop :=
  (forall seen, preserves P (YS.set_seen_ids seen))
  /\ (forall A (m : M io A), only_sends m -> preserves P (YS.on_wire m)).


(** The labels the progress file holds, as a tracker would load them. *)
Definition stored `{Remote} (s : SYN.state) : gset string :=
  match SYN._load (SYN.progress_file s) with
  | Ok t => SYN.processed_segments t
  | Raise _ => ∅
  end.

(** The tracker holds what the progress file held at first, [base], and the
    file has not lost any of it. *)
Definition remembers `{Remote} (base : gset string)
    (tracker : SYN.ProgressTracker) (s : SYN.state) : Prop :=
  base ⊆ SYN.processed_segments tracker /\ base ⊆ stored s.

(** The bytes of a string. *)
Definition letters (s : string) : list ascii := String.list_ascii_of_string s.

#[global] Instance Segment_eq_dec : EqDecision SYN.Segment.
Proof. solve_decision. Defined.

(** The parts of every segment of [l] are in [l]. *)
Definition closed_under_split (l : list SYN.Segment) : bool :=
  forallb
    (fun s =>
       match SYN.split s with
       | Ok parts => forallb (fun p => bool_decide (p ∈ l)) parts
       | Raise _ => true
       end)
    l.

(** The segments below [s], [s] first, down to [depth] splits. *)
Fixpoint descendants (depth : nat) (s : SYN.Segment) : list SYN.Segment :=
  s :: match depth with
       | O => []
       | S d =>
           match SYN.split s with
           | Ok parts => parts ≫= descendants d
           | Raise _ => []
           end
       end.

(** The segments of the crawl: [initial] and what splitting makes of it. *)
Definition crawl_segments : list SYN.Segment := descendants 9 SYN.initial.

(** [s] comes from [initial] by splitting, any number of times. *)
Definition reachable (s : SYN.Segment) : Prop :=
  rtc (fun a b => child b a) SYN.initial s.

(** The records have the keys of [OUTPUT_FIELDS]. *)
Definition shaped (rows : list row) : Prop :=
  Forall (fun r => r.*1 = SYN.OUTPUT_FIELDS) rows.

(** The same of the records a crawl returns, if it returns any. *)
Definition shaped_output (r : result (option (list row))) : Prop :=
  match r with
  | Ok (Some rows) => shaped rows
  | _ => True
  end.

(** The request of [fetch_segment] for a page of a segment. *)
Definition segment_page (segment : SYN.Segment) (page : Z) : request :=
  {| url := SYN.API_SEARCH_URL;
     params := SYN.to_query segment
               ++ [ ("page", pretty page);
                    ("resultPerPage", pretty SYN.MAX_RESULTS_PER_PAGE) ] |}.

(** The request of [fetch_page_with_filters]. *)
Definition page_query (f : YS.filters) (page : Z) : request :=
  {| url := YS.API_URL; params := YS.page_params page f |}.

(** The pages [page], [page + 1], ..., [n] of them. *)
Fixpoint pages_from (page : Z) (n : nat) : list Z :=
  match n with
  | O => []
  | S k => page :: pages_from (page + 1) k
  end.

(** The rows have the field names of yellow_scraper.py. *)
Definition fielded (rows : list row) : Prop :=
  Forall (fun r => r.*1 = YS.fieldnames) rows.

(** What [m] returns, when it returns, has the property [Q]. *)
Definition yields {S A} (Q : A -> Prop) (m : M S A) : Prop :=
  forall s,
    match fst (m s) with
    | Ok a => Q a
    | Raise _ => True
    end.

(** The answer to a request is no JSON payload. *)
Definition failed (o : outcome) : bool :=
  match o with
  | Body _ => false
  | _ => true
  end.

(** The URL a record carries. *)
Definition row_url (r : row) : json := default JNull (Py.lookup r "url").

(** A record of the birth-country pass has an entity_id or a URL. *)
Definition keyed (r : row) : Prop :=
  row_eid r <> "" \/ Py.truthy (row_url r) = true.

(** The rows of the birth-country pass are consistent with the shared set,
    and each has an entity_id or a URL. *)
Definition birth_known `{Remote} (s : YS.state) : Prop :=
  consistent (YS.seen_ids s) (YS.rows_total s)
  /\ Forall keyed (YS.rows_total s).

(** The retry file is [b]. *)
Definition retry_file_is `{Remote} (b : option (list row)) (s : YS.state)
  : Prop :=
  YS.rattrapage_file s = b.

(** What the countries [todo] give, one after the other, from the state [s]
    of the fetches on: the rows each call of [smart_fetch_country]
    returns, in that order, and none for a call that raises, with the
    state after the last country; [run] sleeps twice [DELAY] after each. *)
Fixpoint harvest `{Builtins} `{Remote} (todo : list string) (s : YS.state)
  : list row * YS.state :=
  match todo with
  | [] => ([], s)
  | country :: rest =>
      let (r, s1) := YS.smart_fetch_country country YS.DELAY s in
      let s2 := snd (YS.on_wire (sleep (YS.DELAY * 2)%float) s1) in
      let (more, s') := harvest rest s2 in
      (match r with Ok rows => rows | Raise _ => [] end ++ more, s')
  end.

(** The checkpoint file is as it was, or holds the first of [rows]. *)
Definition checkpointed `{Remote} (before : option (list row))
    (rows : list row) (c : YS.crawl) : Prop :=
  YS.all_file c = before
  \/ exists written, YS.all_file c = Some written /\ written `prefix_of` rows.

(** The records have the keys of [extract_notice_info]. *)
Definition listed (rows : list row) : Prop :=
  Forall (fun r => r.*1 = Main.notice_fields) rows.

(** The same of what the loop over the pages returns, if it ends. *)
Definition listed_output (o : option (list row)) : Prop :=
  match o with
  | Some rows => listed rows
  | None => True
  end.

(** The request of [get_notices] for a page. *)
Definition red_page (page : Z) : request :=
  {| url := Main.base_url;
     params := [ ("page", pretty page); ("resultPerPage", "20") ] |}.

(** Of the requests, those for a page of the list. *)
Definition list_pages (reqs : list request) : list request :=
  List.filter (fun r => String.eqb (url r) Main.base_url) reqs.

(** The loop did not stop for want of fuel. *)
Definition ended {A} (r : result (option A)) : bool :=
  match r with
  | Ok None => false
  | _ => true
  end.

(** The world after the requests [reqs]. *)
Fixpoint after `{Remote} (reqs : list request) (w : World) : World :=
  match reqs with
  | [] => w
  | r :: rest => after rest (snd (urlopen r w))
  end.

(** From [w] on, no answer reports a total above [limit]. *)
Definition modest `{Remote} (limit : Z) (w : World) : Prop :=
  forall reqs req j t,
    fst (urlopen req (after reqs w)) = Body j ->
    Py.get j "total" (JInt 0) = Ok t ->
    Main.int_ge limit t <> Ok false.

(** The files of main.py are those of [s]. *)
Definition same_files `{Remote} (s s' : Main.state) : Prop :=
  Main.json_file s' = Main.json_file s /\ Main.csv_file s' = Main.csv_file s.

(** The network of [s'] is that of [s] some requests later. *)
Definition later `{Remote} (s s' : Main.state) : Prop :=
  exists reqs,
    net (Main.wire s') = after reqs (net (Main.wire s)).

(** The entity_ids of the list entries, as [collect_notices] reads them,
    the empty ones left out. *)
Definition notice_ids `{Builtins} (raw_notices : list json) : list string :=
  omap (fun notice =>
          match Py.get notice "entity_id" (JStr "") with
          | Ok e => if String.eqb (Py.str e) "" then None else Some (Py.str e)
          | Raise _ => None
          end)
       raw_notices.

(** A request for the total of a segment. *)
Definition is_total_query (r : request) : bool :=
  bool_decide (("resultPerPage", "1") ∈ params r).

(** The number of requests for a total sent so far. *)
Definition asked `{Remote} (s : SYN.state) : nat :=
  length (List.filter is_total_query (requests (SYN.wire s))).

(** ** A scripted world, to run the model *)

(** The server answers the requests from a script, whatever they ask; the
    script over, every request fails. *)
Definition scripted : Remote :=
  {| World := list outcome;
     urlopen := fun _ w =>
       match w with
       | o :: w' => (o, w')
       | [] => (URLError, [])
       end;
     utcnow := fun _ => "2024-01-01T00:00:00" |}.

(** The examples hold strings, integers and [None] only: [str] and [int]
    reach neither of the two functions. *)
Definition unused : Builtins :=
  {| py_repr := fun _ => "?"; int_of_str := fun _ => None |}.

Definition online (script : list outcome) : @io scripted :=
  {| net := script : @World scripted; requests := []; slept := [] |}.

Definition syn_start (script : list outcome) : @SYN.state scripted :=
  {| SYN.wire := online script; SYN.progress_file := None;
     SYN.output_file := None; SYN.fetched := [] |}.

Definition ys_start (script : list outcome)
    (report : option (list YS.report_row)) : @YS.state scripted :=
  {| YS.wire := online script; YS.seen_ids := []; YS.rows_total := [];
     YS.report_file := report; YS.rattrapage_file := None;
     YS.birth_file := None; YS.calls := [] |}.

Definition page_of (total : Z) (notices : list json) : outcome :=
  Body (JObj [ ("total", JInt total);
               ("_embedded", JObj [ ("notices", JList notices) ]) ]).

Definition notice_of (entity_id name : string) : json :=
  JObj [ ("entity_id", JStr entity_id); ("name", JStr name) ].

(** A list entry without entity_id, known by its URL alone. *)
Definition anonymous (href : string) : json :=
  JObj [ ("_links", JObj [ ("self", JObj [ ("href", JStr href) ]) ]) ].

(** The crawl of one segment: its total, its page, where a notice stands
    twice, and the detail payloads of the two notices. *)
Definition one_segment : list outcome :=
  [ page_of 3 [];
    page_of 3 [ notice_of "a" "A"; notice_of "a" "A"; notice_of "b" "B" ];
    Body (JObj [ ("name", JStr "AA") ]);
    Body (JObj []) ].

(** The total, then the page, of a search that lists one notice twice. *)
Definition doubled_page : list outcome :=
  [ page_of 2 [ notice_of "a" "A"; notice_of "a" "A" ];
    page_of 2 [ notice_of "a" "A"; notice_of "a" "A" ] ].

(** The same of a search that lists two notices without entity_id. *)
Definition anonymous_page : list outcome :=
  [ page_of 2 [ anonymous "a"; anonymous "b" ];
    page_of 2 [ anonymous "a"; anonymous "b" ] ].

Definition main_start (script : list outcome) : @Main.state scripted :=
  {| Main.wire := online script; Main.json_file := None;
     Main.csv_file := None |}.

(** The only page of a list of one red notice. *)
Definition one_red_page : list outcome :=
  [ page_of 1 [ notice_of "a" "A" ] ].

(** requests 2.27 or later *)
Definition recent : Main.Requests :=
  {| Main.json_error_is_request_exception := true |}.

(** A country whose search by nationality lists z, a and b, and whose
    search by country of birth lists b and c: the total of the country,
    the total and the page of its fetch, then the same three by country
    of birth. *)
Definition overlapping_searches : list outcome :=
  let by_nationality :=
    page_of 3 [ notice_of "z" "Z"; notice_of "a" "A"; notice_of "b" "B" ] in
  let by_birth := page_of 2 [ notice_of "b" "B"; notice_of "c" "C" ] in
  [ by_nationality; by_nationality; by_nationality;
    by_birth; by_birth; by_birth ].

(** The record of z, collected from an earlier country, and a state whose
    shared set has its key. *)
Definition collected : list row := [ [ ("entity_id", JStr "z") ] ].

Definition ys_resumed (script : list outcome) : @YS.state scripted :=
  {| YS.wire := online script; YS.seen_ids := [ JStr "z" ];
     YS.rows_total := []; YS.report_file := None;
     YS.rattrapage_file := None; YS.birth_file := None; YS.calls := [] |}.

(** The first country has one notice: its total, then the total and the
    page of its fetch; no other country has any. *)
Definition one_country : list outcome :=
  [ page_of 1 [ notice_of "a" "A" ]; page_of 1 [ notice_of "a" "A" ];
    page_of 1 [ notice_of "a" "A" ] ].

Definition crawl_start (script : list outcome) : @YS.crawl scripted :=
  {| YS.fetches := ys_start script None; YS.all_file := None |}.

Definition incomplete (c : string) : YS.report_row :=
  {| YS.country := c; YS.total_api := 2; YS.local_count := 1;
     YS.missing := 1; YS.coverage := 50%float |}.

Definition complete (c : string) : YS.report_row :=
  {| YS.country := c; YS.total_api := 2; YS.local_count := 2;
     YS.missing := 0; YS.coverage := 100%float |}.

(** ** Splitting a segment *)

Section Splitting.
Import SYN.

Lemma mid_between (a b : Z) : a < b -> a <= (a + b) / 2 < b.
Proof.
  intros Hab. split.
  - apply Z.div_le_lower_bound; lia.
  - apply Z.div_lt_upper_bound; lia.
Qed.

Lemma split_cases (s : Segment) :
  (age_min s < age_max s
   /\ split s =
        Ok [ {| age_min := age_min s; age_max := (age_min s + age_max s) / 2;
                sex := sex s |};
             {| age_min := (age_min s + age_max s) / 2 + 1;
                age_max := age_max s; sex := sex s |} ])
  \/ (age_max s <= age_min s /\ sex s = None
      /\ split s =
           Ok ((fun x => {| age_min := age_min s; age_max := age_max s;
                            sex := Some x |}) <$> SEX_SEGMENTS))
  \/ (age_max s <= age_min s /\ sex s <> None /\ split s = Raise RequestError).
Proof.
  unfold split. destruct (Z.ltb_spec (age_min s) (age_max s)) as [Hlt | Hge].
  - left. split; [exact Hlt | reflexivity].
  - right. destruct (sex s) as [x |] eqn:Hsex.
    + right. repeat split; [exact Hge | discriminate].
    + left. repeat split; exact Hge.
Qed.

Lemma hits_halves (s : Segment) (age : Z) (x : string) :
  age_min s < age_max s ->
  hits [ {| age_min := age_min s; age_max := (age_min s + age_max s) / 2;
            sex := sex s |};
         {| age_min := (age_min s + age_max s) / 2 + 1;
            age_max := age_max s; sex := sex s |} ] age x
  = if covers s age x then 1%nat else 0%nat.
Proof.
  intros Hlt. pose proof (mid_between _ _ Hlt) as Hmid.
  unfold hits, covers. cbn [List.filter age_min age_max sex].
  set (m := (age_min s + age_max s) / 2) in *.
  set (inside := match sex s with
                 | Some y => String.eqb x y
                 | None => bool_decide (x ∈ SEX_SEGMENTS)
                 end).
  destruct inside;
    destruct (Z.leb_spec (age_min s) age), (Z.leb_spec age (age_max s)),
             (Z.leb_spec age m), (Z.leb_spec (m + 1) age);
    cbn; try reflexivity; lia.
Qed.

Lemma hits_sexes (s : Segment) (age : Z) (x : string) :
  sex s = None ->
  hits ((fun y => {| age_min := age_min s; age_max := age_max s;
                     sex := Some y |}) <$> SEX_SEGMENTS) age x
  = if covers s age x then 1%nat else 0%nat.
Proof.
  intros Hsex. unfold hits, covers. rewrite Hsex.
  cbn [fmap list_fmap SEX_SEGMENTS List.filter age_min age_max sex].
  destruct ((age_min s <=? age) && (age <=? age_max s)); cbn [andb].
  - destruct (String.eqb_spec x "M") as [-> | HM]; [reflexivity |].
    destruct (String.eqb_spec x "F") as [-> | HF]; [reflexivity |].
    destruct (String.eqb_spec x "U") as [-> | HU]; [reflexivity |].
    rewrite bool_decide_eq_false_2; [reflexivity |].
    unfold SEX_SEGMENTS. rewrite !elem_of_cons, elem_of_nil. tauto.
  - reflexivity.
Qed.

(** C4: [split] of a segment with [age_min < age_max] gives the two halves
    [age_min, mid] and [mid+1, age_max] with the same sex, [mid] inside the
    range; of a single-age segment with an open sex, one segment per value
    of [SEX_SEGMENTS]; and every (age, sex) point of the segment lies in
    exactly one of the parts, every other point in none. *)
Theorem split_partitions (s : Segment) :
  (age_min s < age_max s ->
     let mid := (age_min s + age_max s) / 2 in
     split s = Ok [ {| age_min := age_min s; age_max := mid; sex := sex s |};
                    {| age_min := mid + 1; age_max := age_max s; sex := sex s |} ]
     /\ age_min s <= mid < age_max s)
  /\ (age_min s = age_max s -> sex s = None ->
        split s = Ok [ {| age_min := age_min s; age_max := age_max s; sex := Some "M" |};
                       {| age_min := age_min s; age_max := age_max s; sex := Some "F" |};
                       {| age_min := age_min s; age_max := age_max s; sex := Some "U" |} ])
  /\ (forall parts, split s = Ok parts ->
        forall age x, hits parts age x = if covers s age x then 1%nat else 0%nat).
Proof.
  destruct (split_cases s) as [[Hlt Hs] | [[Hge [Hsex Hs]] | [Hge [Hsex Hs]]]].
  - split; [| split].
    + intros _. split; [exact Hs | apply mid_between; exact Hlt].
    + intros Heq. lia.
    + intros parts Hp age x. rewrite Hs in Hp. injection Hp as <-.
      apply hits_halves; exact Hlt.
  - split; [| split].
    + intros Hlt. lia.
    + intros _ _. exact Hs.
    + intros parts Hp age x. rewrite Hs in Hp. injection Hp as <-.
      apply hits_sexes; exact Hsex.
  - split; [| split].
    + intros Hlt. lia.
    + intros _ Hnone. contradiction.
    + intros parts Hp. rewrite Hs in Hp. discriminate.
Qed.

Lemma split_partitions_witness :
  split initial
  = Ok [ {| age_min := 0; age_max := 60; sex := None |};
         {| age_min := 61; age_max := 120; sex := None |} ]
  /\ split {| age_min := 7; age_max := 7; sex := None |}
     = Ok [ {| age_min := 7; age_max := 7; sex := Some "M" |};
            {| age_min := 7; age_max := 7; sex := Some "F" |};
            {| age_min := 7; age_max := 7; sex := Some "U" |} ]
  /\ hits [ {| age_min := 0; age_max := 60; sex := None |};
            {| age_min := 61; age_max := 120; sex := None |} ] 60 "F" = 1%nat.
Proof.
  split; [| split].
  - apply (proj1 (split_partitions initial)). reflexivity.
  - apply (proj1 (proj2 (split_partitions
             {| age_min := 7; age_max := 7; sex := None |}))); reflexivity.
  - apply (proj2 (proj2 (split_partitions initial))). reflexivity.
Defined.

End Splitting.

(** ** Reasoning on computations *)

Lemma bind_unfold {S A B} (m : M S A) (k : A -> M S B) (s : S) :
  bind m k s =
  match m s with
  | (Ok a, s') => k a s'
  | (Raise e, s') => (Raise e, s')
  end.
Proof. reflexivity. Qed.

Lemma res_bind_ok {A B} (r : result A) (k : A -> result B) (b : B) :
  res_bind r k = Ok b -> exists a, r = Ok a /\ k a = Ok b.
Proof. destruct r as [a | e]; cbn; [eauto | discriminate]. Qed.

Lemma pair_of_fst {A B} (p : A * B) (a : A) : fst p = a -> p = (a, snd p).
Proof. intros <-. destruct p. reflexivity. Qed.

(** Runs the first computation of a sequence and splits on its result. *)
Ltac step :=
  match goal with
  | |- context [bind ?m ?k ?s] =>
      rewrite (bind_unfold m k s);
      let a := fresh "a" in
      let e := fresh "e" in
      let s' := fresh "s" in
      let E := fresh "E" in
      destruct (m s) as [[a | e] s'] eqn:E
  end.

(** ** The crawl comes to an end *)

Section Termination.
Import SYN.

Lemma rank_decreases (s p : Segment) (parts : list Segment) :
  split s = Ok parts -> p ∈ parts ->
  (rank p < rank s)%nat
  /\ ((age_min s <= age_min p /\ age_min p <= age_max p /\ age_max p <= age_max s
       /\ age_max p - age_min p < age_max s - age_min s /\ sex p = sex s)
      \/ (age_min p = age_min s /\ age_max p = age_max s
          /\ age_max s <= age_min s /\ sex s = None /\ sex p <> None)).
Proof.
  intros Hs Hp.
  destruct (split_cases s) as [[Hlt Hs'] | [[Hge [Hsex Hs']] | [Hge [Hsex Hs']]]];
    rewrite Hs' in Hs; [| | discriminate]; injection Hs as <-.
  - pose proof (mid_between _ _ Hlt) as Hmid.
    rewrite !elem_of_cons, elem_of_nil in Hp.
    destruct Hp as [-> | [-> | []]]; unfold rank; cbn [age_min age_max sex];
      (split; [destruct (sex s); lia | left; repeat split; lia]).
  - cbn in Hp. rewrite !elem_of_cons, elem_of_nil in Hp.
    destruct Hp as [-> | [-> | [-> | []]]]; unfold rank; rewrite Hsex;
      cbn [age_min age_max sex];
      (split; [lia | right; repeat split; [exact Hge | discriminate]]).
Qed.

Lemma child_wf : well_founded child.
Proof.
  apply (well_founded_lt_compat _ rank). intros p s [parts [Hs Hp]].
  apply (rank_decreases s p parts Hs Hp).
Qed.

Lemma budgets_app (l k : list Segment) :
  budgets (l ++ k) = (budgets l + budgets k)%nat.
Proof.
  unfold budgets. induction l as [| x l IH]; cbn; [reflexivity |].
  rewrite IH. lia.
Qed.

Lemma budget_pos (s : Segment) : (1 <= budget s)%nat.
Proof. unfold budget. destruct (sex s); lia. Qed.

Lemma budget_split (s : Segment) (parts : list Segment) :
  split s = Ok parts -> (budgets parts + 1 <= budget s)%nat.
Proof.
  intros Hs.
  destruct (split_cases s) as [[Hlt Hs'] | [[Hge [Hsex Hs']] | [Hge [Hsex Hs']]]];
    rewrite Hs' in Hs; [| | discriminate]; injection Hs as <-.
  - pose proof (mid_between _ _ Hlt) as Hmid.
    unfold budgets, budget. cbn [fmap list_fmap sum_list sum_list_with age_min age_max sex].
    unfold id. destruct (sex s); lia.
  - unfold budgets, budget. rewrite Hsex.
    cbn [fmap list_fmap SEX_SEGMENTS sum_list sum_list_with age_min age_max sex].
    unfold id. lia.
Qed.

Lemma pop_app {A} (l : list A) (x : A) : pop (l ++ [x]) = Some (x, l).
Proof.
  induction l as [| y l IH]; cbn; [reflexivity |]. rewrite IH. reflexivity.
Qed.

Lemma pop_Some {A} (l r : list A) (x : A) : pop l = Some (x, r) -> l = r ++ [x].
Proof.
  revert r x. induction l as [| y l IH]; cbn; intros r x Hp; [discriminate |].
  destruct (pop l) as [[z q] |] eqn:Hl.
  - injection Hp as <- <-. rewrite (IH q z eq_refl). reflexivity.
  - injection Hp as <- <-. destruct l as [| z l]; [reflexivity |].
    cbn in Hl. destruct (pop l) as [[? ?] |]; discriminate.
Qed.

Context `{Builtins} `{Remote}.

(** With more fuel than the pending segments have budget, the loop comes
    to its end: it returns the records or raises. *)
Lemma collect_loop_ends (fuel : nat) :
  forall tracker pending seen_ids aggregated st,
    (budgets pending < fuel)%nat ->
    fst (collect_loop fuel tracker pending seen_ids aggregated st) <> Ok None.
Proof.
  induction fuel as [| fuel IH]; intros tracker pending seen aggregated st Hfuel;
    [lia |].
  cbn [collect_loop]. destruct (pop pending) as [[segment rest] |] eqn:Hpop;
    [| cbn; discriminate].
  apply pop_Some in Hpop. subst pending. rewrite budgets_app in Hfuel.
  unfold budgets at 2 in Hfuel. cbn in Hfuel.
  pose proof (budget_pos segment) as Hpos.
  destruct (is_done tracker segment); [apply IH; lia |].
  step; [| cbn; discriminate].
  destruct (a =? 0).
  { step; [apply IH; lia | cbn; discriminate]. }
  destruct (SEGMENT_THRESHOLD <? a).
  { step; [| cbn; discriminate].
    apply IH. rewrite budgets_app.
    assert (split segment = Ok a0) as Hsplit.
    { unfold lift_result in E0. destruct (split segment); congruence. }
    pose proof (budget_split _ _ Hsplit). lia. }
  repeat (step; [| cbn; discriminate]).
  apply IH. lia.
Qed.

(** C3: [split] either raises [RequestError] or gives parts each of which
    is smaller: its age range lies within the parent's and is strictly
    narrower, or it has the parent's range, not splittable by age any more,
    and a sex where the parent had none. So no chain of splits is infinite,
    from the initial segment or any other, and the loop of
    [collect_notices] comes to its end within the fuel the model runs it
    with. *)
Theorem splitting_is_bounded :
  (forall s e, split s = Raise e -> e = RequestError)
  /\ (forall s parts p, split s = Ok parts -> p ∈ parts ->
        (rank p < rank s)%nat
        /\ ((age_min s <= age_min p /\ age_min p <= age_max p
             /\ age_max p <= age_max s
             /\ age_max p - age_min p < age_max s - age_min s
             /\ sex p = sex s)
            \/ (age_min p = age_min s /\ age_max p = age_max s
                /\ age_max s <= age_min s /\ sex s = None /\ sex p <> None)))
  /\ well_founded child
  /\ (forall st, fst (collect_notices st) <> Ok None).
Proof.
  split; [| split; [| split]].
  - intros s e Hs.
    destruct (split_cases s) as [[_ Hs'] | [[_ [_ Hs']] | [_ [_ Hs']]]];
      rewrite Hs' in Hs; congruence.
  - intros s parts p. apply rank_decreases.
  - exact child_wf.
  - intros st. unfold collect_notices. step; [| cbn; discriminate].
    apply collect_loop_ends. unfold budgets. cbn. lia.
Qed.

End Termination.

Lemma splitting_is_bounded_witness :
  (rank {| SYN.age_min := 61; SYN.age_max := 120; SYN.sex := None |}
   < rank SYN.initial)%nat
  /\ (rank {| SYN.age_min := 7; SYN.age_max := 7; SYN.sex := Some "F" |}
      < rank {| SYN.age_min := 7; SYN.age_max := 7; SYN.sex := None |})%nat
  /\ SYN.split {| SYN.age_min := 7; SYN.age_max := 7; SYN.sex := Some "F" |}
     = Raise RequestError.
Proof.
  destruct (@splitting_is_bounded unused scripted) as [Hraise [Hrank _]].
  split; [| split].
  - apply (Hrank SYN.initial
             [ {| SYN.age_min := 0; SYN.age_max := 60; SYN.sex := None |};
               {| SYN.age_min := 61; SYN.age_max := 120; SYN.sex := None |} ]);
      [reflexivity | repeat constructor].
  - apply (Hrank {| SYN.age_min := 7; SYN.age_max := 7; SYN.sex := None |}
             [ {| SYN.age_min := 7; SYN.age_max := 7; SYN.sex := Some "M" |};
               {| SYN.age_min := 7; SYN.age_max := 7; SYN.sex := Some "F" |};
               {| SYN.age_min := 7; SYN.age_max := 7; SYN.sex := Some "U" |} ]);
      [reflexivity | repeat constructor].
  - destruct (SYN.split {| SYN.age_min := 7; SYN.age_max := 7;
                           SYN.sex := Some "F" |}) as [parts | e] eqn:E;
      [discriminate E |].
    rewrite (Hraise _ _ E). reflexivity.
Defined.

(** ** Only small segments are paginated *)

Section Threshold.
Import SYN.
Context `{Builtins} `{Remote}.

Lemma keeps_ret {A} (a : A) : keeps (ret a).
Proof. intros s. reflexivity. Qed.

Lemma keeps_raise {A} (e : exn) : keeps (@raise state A e).
Proof. intros s. reflexivity. Qed.

Lemma keeps_lift {A} (r : result A) : keeps (lift_result r).
Proof. intros s. reflexivity. Qed.

Lemma keeps_get_state : keeps (@get_state state).
Proof. intros s. reflexivity. Qed.

Lemma keeps_on_wire {A} (m : M io A) : keeps (on_wire m).
Proof. intros s. unfold on_wire. destruct (m (wire s)). reflexivity. Qed.

Lemma keeps_bind {A B} (m : M state A) (k : A -> M state B) :
  keeps m -> (forall a, keeps (k a)) -> keeps (bind m k).
Proof.
  intros Hm Hk s. rewrite bind_unfold. specialize (Hm s).
  destruct (m s) as [[a | e] s']; cbn in *; [| exact Hm].
  rewrite Hk. exact Hm.
Qed.

Lemma keeps_set_progress_file (f : pfile) : keeps (set_progress_file f).
Proof. intros s. reflexivity. Qed.

Lemma keeps_set_output_file (rows : list row) : keeps (set_output_file rows).
Proof. intros s. reflexivity. Qed.

Lemma keeps_mark_done (t : ProgressTracker) (segment : Segment) :
  keeps (mark_done t segment).
Proof.
  unfold mark_done, _flush. apply keeps_bind; [| intros; apply keeps_ret].
  destruct (foreign _); [apply keeps_raise |].
  apply keeps_bind; [apply keeps_get_state | intros; apply keeps_set_progress_file].
Qed.

Lemma keeps_write_rows (records written : list row) :
  keeps (write_rows records written).
Proof.
  revert written. induction records as [| r rest IH]; intros written; cbn.
  - apply keeps_set_output_file.
  - destruct (forallb _ _); [apply IH |].
    apply keeps_bind; [apply keeps_set_output_file | intros; apply keeps_raise].
Qed.

Lemma keeps_hydrate (raw : list json) :
  forall seen aggregated, keeps (hydrate raw seen aggregated).
Proof.
  induction raw as [| notice rest IH]; intros seen aggregated; cbn.
  - apply keeps_ret.
  - apply keeps_bind; [apply keeps_lift | intros e].
    destruct (_ || _); [apply IH |].
    apply keeps_bind; [apply keeps_on_wire | intros details].
    apply keeps_bind; [apply keeps_lift | intros record]. apply IH.
Qed.

Lemma grows_refl (s s' : state) : fetched s' = fetched s -> grows s s'.
Proof. intros Hs. exists []. rewrite app_nil_r. split; [exact Hs | constructor]. Qed.

Lemma grows_trans (s1 s2 s3 : state) : grows s1 s2 -> grows s2 s3 -> grows s1 s3.
Proof.
  intros [n1 [H1 F1]] [n2 [H2 F2]]. exists (n1 ++ n2). split.
  - rewrite H2, H1, app_assoc. reflexivity.
  - apply Forall_app. split; assumption.
Qed.

Lemma kept {A} (m : M state A) (s s' : state) (r : result A) :
  keeps m -> m s = (r, s') -> grows s s'.
Proof. intros Hm E. apply grows_refl. specialize (Hm s). rewrite E in Hm. exact Hm. Qed.

Lemma collect_loop_small (fuel : nat) :
  forall tracker pending seen_ids aggregated st,
    grows st (snd (collect_loop fuel tracker pending seen_ids aggregated st)).
Proof.
  induction fuel as [| fuel IH]; intros tracker pending seen aggregated st;
    [apply grows_refl; reflexivity |].
  cbn [collect_loop]. destruct (pop pending) as [[segment rest] |];
    [| apply grows_refl; reflexivity].
  destruct (is_done tracker segment); [apply IH |].
  step; pose proof (kept _ _ _ _ (keeps_on_wire _) E) as G1; [| exact G1].
  destruct (Z.eqb_spec a 0) as [Hz | Hnz].
  { step; pose proof (kept _ _ _ _ (keeps_mark_done _ _) E0) as G2;
      [| exact (grows_trans _ _ _ G1 G2)].
    eapply grows_trans; [exact (grows_trans _ _ _ G1 G2) | apply IH]. }
  destruct (Z.ltb_spec SEGMENT_THRESHOLD a) as [Hbig | Hsmall].
  { step; pose proof (kept _ _ _ _ (keeps_lift _) E0) as G2;
      [| exact (grows_trans _ _ _ G1 G2)].
    eapply grows_trans; [exact (grows_trans _ _ _ G1 G2) | apply IH]. }
  step.
  2: { unfold log_fetch, modify in E0. discriminate. }
  assert (grows s s0) as G2.
  { unfold log_fetch, modify in E0. injection E0 as _ <-.
    exists [(segment, a)]. split; [reflexivity |].
    constructor; [split; assumption | constructor]. }
  step; pose proof (kept _ _ _ _ (keeps_on_wire _) E1) as G3;
    [| exact (grows_trans _ _ _ G1 (grows_trans _ _ _ G2 G3))].
  step; pose proof (kept _ _ _ _ (keeps_hydrate _ _ _) E2) as G4;
    [| exact (grows_trans _ _ _ G1 (grows_trans _ _ _ G2 (grows_trans _ _ _ G3 G4)))].
  step; pose proof (kept _ _ _ _ (keeps_mark_done _ _) E3) as G5;
    [| exact (grows_trans _ _ _ G1 (grows_trans _ _ _ G2
               (grows_trans _ _ _ G3 (grows_trans _ _ _ G4 G5))))].
  assert (keeps (if Z.of_nat (length (snd a2)) mod 200 =? 0
                 then write_csv (snd a2) else ret tt)) as Kw.
  { destruct (_ =? 0); [apply keeps_write_rows | apply keeps_ret]. }
  step; pose proof (kept _ _ _ _ Kw E4) as G6;
    pose proof (grows_trans _ _ _ G1 (grows_trans _ _ _ G2
               (grows_trans _ _ _ G3 (grows_trans _ _ _ G4
               (grows_trans _ _ _ G5 G6))))) as G; [| exact G].
  eapply grows_trans; [exact G | apply IH].
Qed.

(** C2: whatever the server answers, every call of [fetch_segment] that a
    run of [collect_notices] makes is for a segment whose queried total is
    at most [SEGMENT_THRESHOLD] (and not 0): the log of these calls only
    grows by such entries. A pending segment whose total is above the
    threshold is not fetched: the loop goes on with its parts appended to
    the pending segments, or ends on the [RequestError] of [split]. *)
Theorem fetch_segment_only_below_threshold :
  (forall st,
      exists new,
        fetched (snd (collect_notices st)) = fetched st ++ new
        /\ Forall (fun call => snd call <= 320 /\ snd call <> 0) new)
  /\ (forall fuel tracker pending segment seen_ids aggregated st total s1,
        is_done tracker segment = false ->
        on_wire (query_total segment) st = (Ok total, s1) ->
        SEGMENT_THRESHOLD < total ->
        collect_loop (S fuel) tracker (pending ++ [segment]) seen_ids aggregated st
        = match split segment with
          | Ok parts =>
              collect_loop fuel tracker (pending ++ parts) seen_ids aggregated s1
          | Raise e => (Raise e, s1)
          end).
Proof.
  split.
  - intros st. change (grows st (snd (collect_notices st))).
    assert (keeps new_tracker) as Kn.
    { unfold new_tracker.
      apply keeps_bind; [apply keeps_get_state | intros; apply keeps_lift]. }
    unfold collect_notices. step; pose proof (kept _ _ _ _ Kn E) as G; [| exact G].
    eapply grows_trans; [exact G | apply collect_loop_small].
  - intros fuel tracker pending segment seen aggregated st total s1 Hdone Hq Hbig.
    cbn [collect_loop]. rewrite pop_app, Hdone, bind_unfold, Hq.
    assert ((total =? 0) = false) as -> by (unfold SEGMENT_THRESHOLD in Hbig; lia).
    assert ((SEGMENT_THRESHOLD <? total) = true) as -> by lia.
    rewrite bind_unfold. unfold lift_result. destruct (split segment); reflexivity.
Qed.

End Threshold.

Lemma fetch_segment_only_below_threshold_witness :
  @SYN.collect_loop unused scripted 1
    {| SYN.processed_segments := ∅; SYN.foreign := false |}
    [ SYN.initial ] ∅ [] (syn_start [ page_of 500 [] ])
  = @SYN.collect_loop unused scripted 0
      {| SYN.processed_segments := ∅; SYN.foreign := false |}
      [ {| SYN.age_min := 0; SYN.age_max := 60; SYN.sex := None |};
        {| SYN.age_min := 61; SYN.age_max := 120; SYN.sex := None |} ]
      ∅ []
      (snd (SYN.on_wire (@SYN.query_total unused scripted SYN.initial)
              (syn_start [ page_of 500 [] ]))).
Proof.
  apply (proj2 (@fetch_segment_only_below_threshold unused scripted) 0%nat
           {| SYN.processed_segments := ∅; SYN.foreign := false |}
           [] SYN.initial ∅ [] (syn_start [ page_of 500 [] ]) 500).
  - reflexivity.
  - apply pair_of_fst. reflexivity.
  - reflexivity.
Defined.

(** ** Progress survives a restart *)

Section Progress.
Import SYN.
Context `{Builtins} `{Remote}.

Lemma elem_of_sorted (x : string) (labels : gset string) :
  x ∈ sorted labels <-> x ∈ labels.
Proof.
  unfold sorted. rewrite (merge_sort_Permutation str_le (elements labels)).
  apply elem_of_elements.
Qed.

Lemma set_of_strings (l : list string) :
  set_of (JStr <$> l)
  = Ok {| processed_segments := list_to_set l; foreign := false |}.
Proof.
  induction l as [| x l IH]; cbn; [reflexivity |]. rewrite IH. reflexivity.
Qed.

Lemma label_same (s s' : Segment) :
  age_min s' = age_min s -> age_max s' = age_max s -> sex s' = sex s ->
  label s' = label s.
Proof. intros Ha Hb Hc. unfold label. rewrite Ha, Hb, Hc. reflexivity. Qed.

(** What [mark_done] leaves behind when it returns. *)
Lemma mark_done_ok (tracker tracker' : ProgressTracker) (s : Segment)
    (st st' : state) :
  mark_done tracker s st = (Ok tracker', st') ->
  processed_segments tracker' = {[ label s ]} ∪ processed_segments tracker
  /\ progress_file st' =
       Some (Content (JObj
         [ ("timestamp", JStr (utcnow (net (wire st))));
           ("processed_segments",
            JList (JStr <$> sorted (processed_segments tracker'))) ])).
Proof.
  unfold mark_done, _flush. cbn [foreign processed_segments].
  destruct (foreign tracker); [cbn; discriminate |].
  cbn. intros Hm. injection Hm as <- <-. split; reflexivity.
Qed.

(** C9: once [mark_done(s)] has returned, [is_done] holds of every segment
    with the age range and sex of [s], on the tracker itself and on any
    tracker built afterwards from the progress file as [mark_done] left
    it; and [collect_notices] passes over a pending segment for which
    [is_done] holds, going on to the next one without a request, a fetch
    or any other change of state. *)
Theorem progress_is_resumable :
  (forall tracker s st tracker' st',
      mark_done tracker s st = (Ok tracker', st') ->
      forall s',
        age_min s' = age_min s -> age_max s' = age_max s -> sex s' = sex s ->
        is_done tracker' s' = true
        /\ forall later,
             progress_file later = progress_file st' ->
             exists fresh,
               new_tracker later = (Ok fresh, later)
               /\ is_done fresh s' = true)
  /\ (forall fuel tracker pending segment seen_ids aggregated st,
        is_done tracker segment = true ->
        collect_loop (S fuel) tracker (pending ++ [segment]) seen_ids aggregated st
        = collect_loop fuel tracker pending seen_ids aggregated st).
Proof.
  split.
  - intros tracker s st tracker' st' Hm s' Ha Hb Hc.
    apply mark_done_ok in Hm. destruct Hm as [Hset Hfile].
    assert (label s ∈ processed_segments tracker') as Hin.
    { rewrite Hset. apply elem_of_union_l, elem_of_singleton. reflexivity. }
    split.
    + unfold is_done. rewrite (label_same s s' Ha Hb Hc).
      apply bool_decide_eq_true_2. exact Hin.
    + intros later Hlater.
      exists {| processed_segments := list_to_set (sorted (processed_segments tracker'));
                foreign := false |}.
      split.
      * unfold new_tracker, get_state, lift_result. rewrite bind_unfold.
        rewrite Hlater, Hfile. cbn. rewrite set_of_strings. reflexivity.
      * unfold is_done. cbn [processed_segments].
        rewrite (label_same s s' Ha Hb Hc).
        apply bool_decide_eq_true_2. apply elem_of_list_to_set, elem_of_sorted.
        exact Hin.
  - intros fuel tracker pending segment seen aggregated st Hdone.
    cbn [collect_loop]. rewrite pop_app, Hdone. reflexivity.
Qed.

End Progress.

Lemma progress_is_resumable_witness :
  exists tracker' st',
    @SYN.mark_done scripted
      {| SYN.processed_segments := ∅; SYN.foreign := false |}
      SYN.initial (syn_start []) = (Ok tracker', st')
    /\ SYN.is_done tracker' SYN.initial = true
    /\ (exists fresh,
          @SYN.new_tracker scripted st' = (Ok fresh, st')
          /\ SYN.is_done fresh SYN.initial = true)
    /\ @SYN.collect_loop unused scripted 1 tracker' [SYN.initial] ∅ [] st'
       = @SYN.collect_loop unused scripted 0 tracker' [] ∅ [] st'.
Proof.
  eexists. eexists. split; [reflexivity |].
  pose proof (proj1 (@progress_is_resumable unused scripted)
                {| SYN.processed_segments := ∅; SYN.foreign := false |}
                SYN.initial (syn_start []) _ _ eq_refl
                SYN.initial eq_refl eq_refl eq_refl) as [Hdone Hfresh].
  split; [exact Hdone |]. split; [apply Hfresh; reflexivity |].
  apply (proj2 (@progress_is_resumable unused scripted) 0%nat _ [] SYN.initial).
  exact Hdone.
Defined.

(** ** The HTTP client of scrape_yellow_notices.py *)

Section Http.
Import SYN.
Context `{Remote}.

Lemma made_pos (left : nat) (os : list outcome) :
  (1 <= left)%nat -> (1 <= Nat.min left (S (failures os)))%nat.
Proof. lia. Qed.

Lemma attempts_run (req : request) (left : nat) :
  forall attempt st,
    (1 <= left)%nat -> (attempt + left = S RETRY_LIMIT)%nat ->
    attempts req attempt left st
    = (verdict (outcomes req left (net st)),
       {| net := advance req (Nat.min left (S (failures (outcomes req left (net st)))))
                   (net st);
          requests :=
            requests st
            ++ replicate (Nat.min left (S (failures (outcomes req left (net st))))) req;
          slept :=
            slept st
            ++ (fpow BACKOFF_FACTOR
                  <$> seq attempt
                        (Nat.min left (S (failures (outcomes req left (net st)))) - 1)) |}).
Proof.
  induction left as [| left IH]; intros attempt st Hleft Hsum; [lia |].
  cbn [attempts outcomes]. rewrite bind_unfold. unfold send.
  destruct (urlopen req (net st)) as [o w] eqn:E.
  destruct o as [j | | | what].
  - cbn. rewrite E, Nat.min_0_r. cbn. rewrite app_nil_r. reflexivity.
  - cbn. rewrite E, Nat.min_0_r. cbn. rewrite app_nil_r. reflexivity.
  - destruct (Nat.eqb_spec attempt RETRY_LIMIT) as [Hlast | Hmore].
    + assert (left = 0%nat) as -> by lia. cbn. rewrite E. cbn.
      rewrite app_nil_r. reflexivity.
    + rewrite bind_unfold. cbn [sleep modify].
      rewrite IH by lia. cbn [net requests slept verdict failures].
      set (os := outcomes req left w).
      assert (Nat.min (S left) (S (S (failures os)))
              = S (Nat.min left (S (failures os)))) as -> by lia.
      pose proof (made_pos left os ltac:(lia)) as Hpos.
      destruct (Nat.min left (S (failures os))) as [| made]; [lia |].
      cbn [advance replicate]. rewrite E. cbn [snd].
      replace (S (S made) - 1)%nat with (S made) by lia.
      replace (S made - 1)%nat with made by lia.
      cbn [seq fmap list_fmap]. rewrite <- !app_assoc. reflexivity.
  - cbn. rewrite E, Nat.min_0_r. cbn. rewrite app_nil_r. reflexivity.
Qed.

Lemma outcomes_length (req : request) (n : nat) :
  forall w, length (outcomes req n w) = n.
Proof.
  induction n as [| n IH]; intros w; cbn; [reflexivity |].
  destruct (urlopen req w) as [o w']. cbn. rewrite IH. reflexivity.
Qed.

Lemma verdict_ok (os : list outcome) (v : json) :
  verdict os = Ok v <-> os !! failures os = Some (Body v).
Proof.
  induction os as [| o os IH]; cbn; [split; discriminate |].
  destruct o as [j | | | what]; cbn; try exact IH;
    split; intros Hv; try discriminate; congruence.
Qed.

Lemma verdict_request_error (os : list outcome) :
  verdict os = Raise RequestError
  <-> failures os = length os \/ os !! failures os = Some BadBody.
Proof.
  induction os as [| o os IH]; cbn; [split; [left; reflexivity | reflexivity] |].
  destruct o as [j | | | what]; cbn.
  - split; [discriminate | intros [Hf | Hf]; discriminate].
  - split; [right; reflexivity | reflexivity].
  - rewrite IH. split; (intros [Hf | Hf]; [left; lia | right; exact Hf]).
  - split; [discriminate | intros [Hf | Hf]; discriminate].
Qed.

(** C10: [http_get_json] sends the request until an attempt does not fail
    with an HTTP or URL error, [RETRY_LIMIT] times at most, sleeping
    [BACKOFF_FACTOR ** attempt] (1.5, 2.25, 3.375, 5.0625 seconds) after each
    failure but the last. A value it returns is the parsed body of the
    attempt that got through: [None] only if that body is the JSON [null].
    It raises [RequestError] exactly when all [RETRY_LIMIT] attempts failed
    or the attempt that got through had a body that is not JSON, which it
    does not retry. *)
Theorem http_get_json_outcome (url : string) (params : list (string * string))
    (st : io) :
  let req := {| url := url; params := params |} in
  let os := outcomes req RETRY_LIMIT (net st) in
  let made := Nat.min RETRY_LIMIT (S (failures os)) in
  let r := fst (http_get_json url params st) in
  let st' := snd (http_get_json url params st) in
  r = verdict os
  /\ requests st' = requests st ++ replicate made req
  /\ slept st' = slept st ++ (fpow BACKOFF_FACTOR <$> seq 1 (made - 1))
  /\ (forall v, r = Ok v <->
        (failures os < RETRY_LIMIT)%nat /\ os !! failures os = Some (Body v))
  /\ (r = Raise RequestError <->
        failures os = RETRY_LIMIT \/ os !! failures os = Some BadBody)
  /\ fpow BACKOFF_FACTOR <$> seq 1 (RETRY_LIMIT - 1)
     = [1.5%float; 2.25%float; 3.375%float; 5.0625%float].
Proof.
  intros req os made r st'. subst r st' made os req. unfold http_get_json.
  rewrite attempts_run by (unfold RETRY_LIMIT; lia).
  cbn [fst snd net requests slept].
  set (req := {| url := url; params := params |}).
  set (os := outcomes req RETRY_LIMIT (net st)).
  pose proof (outcomes_length req RETRY_LIMIT (net st)) as Hlen. fold os in Hlen.
  split; [reflexivity |]. split; [reflexivity |]. split; [reflexivity |].
  split; [| split].
  - intros v. rewrite verdict_ok. split.
    + intros Hv. split; [| exact Hv].
      apply lookup_lt_Some in Hv. rewrite Hlen in Hv. exact Hv.
    + intros [_ Hv]. exact Hv.
  - rewrite verdict_request_error, Hlen. reflexivity.
  - reflexivity.
Qed.

End Http.

(** A server that answers [null] makes [http_get_json] return [None]. *)
Lemma http_get_json_returns_none :
  fst (@SYN.http_get_json scripted SYN.API_SEARCH_URL [] (online [Body JNull]))
  = Ok JNull.
Proof. reflexivity. Qed.

(** ** Flattened records *)

(** Takes a chain of [let?] that came to [Ok] apart, step by step. *)
Ltac unchain H :=
  repeat (apply res_bind_ok in H;
          let v := fresh "v" in
          let E := fresh "E" in
          destruct H as [v [E H]]).

(** Splits a membership in a list written out into its cases. *)
Ltac cases_of Hin :=
  rewrite ?elem_of_cons, elem_of_nil in Hin;
  repeat (destruct Hin as [Hin | Hin]); [.. | contradiction].

Section Flattening.
Context `{Builtins}.

Lemma safe_get_absent (payload : list (string * json)) (key : string) :
  Py.lookup payload key = None \/ Py.lookup payload key = Some JNull ->
  SYN.safe_get (JObj payload) key = Ok "".
Proof.
  intros [Hl | Hl]; unfold SYN.safe_get, Py.get; cbn; rewrite Hl; reflexivity.
Qed.

Lemma safe_get_str (payload : list (string * json)) (key s : string) :
  Py.lookup payload key = Some (JStr s) ->
  SYN.safe_get (JObj payload) key = Ok s.
Proof. intros Hl. unfold SYN.safe_get, Py.get. cbn. rewrite Hl. reflexivity. Qed.

Lemma safe_get_list (payload : list (string * json)) (key : string)
    (items : list json) :
  Py.lookup payload key = Some (JList items) ->
  SYN.safe_get (JObj payload) key
  = Ok (String.concat ";"
          (Py.str <$> List.filter (fun item => negb (SYN.is_none item)) items)).
Proof. intros Hl. unfold SYN.safe_get, Py.get. cbn. rewrite Hl. reflexivity. Qed.

Lemma safe_get_other (payload : list (string * json)) (key : string) (v : json) :
  Py.lookup payload key = Some v ->
  v <> JNull -> Py.is_list v = false ->
  SYN.safe_get (JObj payload) key = Ok (Py.str v).
Proof.
  intros Hl Hn Hv. unfold SYN.safe_get, Py.get. cbn. rewrite Hl. cbn.
  destruct v; try reflexivity; [contradiction | discriminate].
Qed.

Lemma safe_get_no_dict (container : json) (key : string) :
  Py.is_dict container = false ->
  SYN.safe_get container key = Raise AttributeError.
Proof. destruct container; cbn; intros Hc; try reflexivity. discriminate. Qed.

Lemma safe_get_or_ok (details notice : json) (key v : string) :
  SYN.safe_get_or details notice key = Ok v ->
  exists d,
    SYN.safe_get details key = Ok d
    /\ (d <> "" -> v = d)
    /\ (d = "" -> SYN.safe_get notice key = Ok v).
Proof.
  unfold SYN.safe_get_or. intros Hv. apply res_bind_ok in Hv.
  destruct Hv as [d [Hd Hv]]. exists d. split; [exact Hd |].
  destruct (String.eqb_spec d "") as [-> | Hne].
  - split; [intros Hc; contradiction | intros _; exact Hv].
  - split; [intros _; congruence | intros Hc; contradiction].
Qed.

(** C5: in the record [merge_notice] returns, each of name, forename,
    date_of_birth, nationalities and sex is what [safe_get] reads in the
    detail payload if that is not empty, else what it reads in the list
    entry; each field of the detail shape alone is what [safe_get] reads in
    the detail payload. What [safe_get] reads is not always the value of
    the payload: it is the empty string where the key is missing or null,
    a string value as it is, a list as its items other than [None], each
    through [str], joined with a semicolon (the empty string when no item
    is left), and any other value through [str]; of a payload that is no
    dict it reads nothing and raises. *)
Theorem merge_notice_prefers_details (notice details : json) (r : row) :
  SYN.merge_notice notice details = Ok r ->
  (forall field key, (field, key) ∈ shared_fields ->
     exists d,
       SYN.safe_get details key = Ok d
       /\ (d <> "" -> Py.lookup r field = Some (JStr d))
       /\ (d = "" ->
           exists n, SYN.safe_get notice key = Ok n
                     /\ Py.lookup r field = Some (JStr n)))
  /\ (forall field key, (field, key) ∈ detail_fields ->
        exists d,
          SYN.safe_get details key = Ok d /\ Py.lookup r field = Some (JStr d))
  /\ (forall payload key,
        Py.lookup payload key = None \/ Py.lookup payload key = Some JNull ->
        SYN.safe_get (JObj payload) key = Ok "")
  /\ (forall payload key s,
        Py.lookup payload key = Some (JStr s) ->
        SYN.safe_get (JObj payload) key = Ok s)
  /\ (forall payload key items,
        Py.lookup payload key = Some (JList items) ->
        SYN.safe_get (JObj payload) key
        = Ok (String.concat ";"
                (Py.str <$> List.filter (fun item => negb (SYN.is_none item))
                              items)))
  /\ (forall payload key v,
        Py.lookup payload key = Some v ->
        v <> JNull -> Py.is_list v = false ->
        SYN.safe_get (JObj payload) key = Ok (Py.str v))
  /\ (forall container key,
        Py.is_dict container = false ->
        SYN.safe_get container key = Raise AttributeError).
Proof.
  intros Hm. unfold SYN.merge_notice in Hm. unchain Hm. injection Hm as <-.
  split; [| split; [| split; [| split; [| split; [| split]]]]].
  - intros field key Hin. unfold shared_fields in Hin. cases_of Hin;
      injection Hin as -> ->;
      match goal with
      | E : SYN.safe_get_or details notice ?k = Ok ?v
        |- context [SYN.safe_get details ?k] =>
          destruct (safe_get_or_ok _ _ _ _ E) as [d [Hd [Hne He]]];
          exists d; split; [exact Hd |]; split;
          [ intros Hd'; rewrite <- (Hne Hd'); reflexivity
          | intros Hd'; exists v; split; [exact (He Hd') | reflexivity] ]
      end.
  - intros field key Hin. unfold detail_fields in Hin. cases_of Hin;
      injection Hin as -> ->;
      match goal with
      | E : SYN.safe_get details ?k = Ok ?v
        |- context [SYN.safe_get details ?k] =>
          exists v; split; [exact E | reflexivity]
      end.
  - apply safe_get_absent.
  - apply safe_get_str.
  - apply safe_get_list.
  - apply safe_get_other.
  - apply safe_get_no_dict.
Qed.

End Flattening.

Lemma merge_notice_prefers_details_witness :
  exists r,
    @SYN.merge_notice unused
      (JObj [ ("entity_id", JStr "2020/1"); ("name", JStr "DOE");
              ("forename", JStr "JANE") ])
      (JObj [ ("name", JStr "DOE SMITH"); ("height", JInt 170);
              ("nationalities", JList [ JStr "FR"; JNull; JStr "DE" ]) ]) = Ok r
    /\ Py.lookup r "name" = Some (JStr "DOE SMITH")
    /\ Py.lookup r "forename" = Some (JStr "JANE")
    /\ Py.lookup r "height" = Some (JStr "170")
    /\ Py.lookup r "nationalities" = Some (JStr "FR;DE").
Proof.
  eexists. split; [reflexivity |].
  destruct (@merge_notice_prefers_details unused
              (JObj [ ("entity_id", JStr "2020/1"); ("name", JStr "DOE");
                      ("forename", JStr "JANE") ])
              (JObj [ ("name", JStr "DOE SMITH"); ("height", JInt 170);
                      ("nationalities", JList [ JStr "FR"; JNull; JStr "DE" ]) ])
              _ eq_refl) as [Hshared [Hdetail [_ [_ [Hlist _]]]]].
  split; [| split; [| split]].
  - destruct (Hshared "name" "name" ltac:(repeat constructor))
      as [d [Hd [Hfull _]]].
    injection Hd as <-. apply Hfull. discriminate.
  - destruct (Hshared "forename" "forename" ltac:(repeat constructor))
      as [d [Hd [_ Hempty]]].
    injection Hd as <-. destruct (Hempty eq_refl) as [n [Hn Hr]].
    injection Hn as <-. exact Hr.
  - destruct (Hdetail "height" "height" ltac:(repeat constructor))
      as [d [Hd Hr]].
    injection Hd as <-. exact Hr.
  - destruct (Hshared "nationalities" "nationalities" ltac:(repeat constructor))
      as [d [Hd [Hfull _]]].
    rewrite (Hlist [ ("name", JStr "DOE SMITH"); ("height", JInt 170);
                     ("nationalities", JList [ JStr "FR"; JNull; JStr "DE" ]) ]
               "nationalities" [ JStr "FR"; JNull; JStr "DE" ] eq_refl) in Hd.
    injection Hd as <-. apply Hfull. discriminate.
Defined.

(** A list in the detail payload comes out joined, not as it is; a list of
    [None] alone, present and not empty, counts for nothing, and the list
    entry is read instead; a number comes out as its decimal string. *)
Lemma merge_notice_rewrites_values :
  match @SYN.merge_notice unused
          (JObj [ ("entity_id", JStr "2020/1"); ("sex_id", JStr "F") ])
          (JObj [ ("nationalities", JList [ JStr "FR"; JStr "DE" ]);
                  ("sex_id", JList [ JNull ]);
                  ("height", JInt 170) ]) with
  | Ok r =>
      [ Py.lookup r "nationalities"; Py.lookup r "sex"; Py.lookup r "height" ]
  | Raise _ => []
  end
  = [ Some (JStr "FR;DE"); Some (JStr "F"); Some (JStr "170") ].
Proof. vm_compute. reflexivity. Qed.

(** ** The fields of a record *)

Section Preserving.
Context `{Remote}.

Lemma preserves_ret {A} P (a : A) : preserves P (ret a).
Proof. intros s Hs. exact Hs. Qed.

Lemma preserves_raise {A} P (e : exn) : preserves P (@raise YS.state A e).
Proof. intros s Hs. exact Hs. Qed.

Lemma preserves_lift {A} P (r : result A) : preserves P (lift_result r).
Proof. intros s Hs. exact Hs. Qed.

Lemma preserves_get_state P : preserves P (@get_state YS.state).
Proof. intros s Hs. exact Hs. Qed.

Lemma preserves_bind {A B} P (m : M YS.state A) (k : A -> M YS.state B) :
  preserves P m -> (forall a, preserves P (k a)) -> preserves P (bind m k).
Proof.
  intros Hm Hk s Hs. rewrite bind_unfold. specialize (Hm s Hs).
  destruct (m s) as [[a | e] s']; cbn in *; [apply Hk; exact Hm | exact Hm].
Qed.

Lemma preserves_try {A} P (m : M YS.state A) :
  preserves P m -> preserves P (YS.try_except m).
Proof.
  intros Hm s Hs. unfold YS.try_except. specialize (Hm s Hs).
  destruct (m s) as [[a | e] s']; exact Hm.
Qed.

Lemma preserves_on_wire {A} P (m : M io A) :
  blind P -> preserves P (YS.on_wire m).
Proof.
  intros HP s Hs. unfold YS.on_wire. destruct (m (YS.wire s)) as [r w]. cbn.
  exact (HP s w (YS.seen_ids s) Hs).
Qed.

Lemma preserves_set_seen_ids P (seen : list json) :
  blind P -> preserves P (YS.set_seen_ids seen).
Proof. intros HP s Hs. exact (HP s (YS.wire s) seen Hs). Qed.

Lemma preserves_bind_lift {A B} P (r : result A) (k : A -> M YS.state B) :
  (forall a, r = Ok a -> preserves P (k a)) -> preserves P (bind (lift_result r) k).
Proof.
  intros Hk s Hs. rewrite bind_unfold. unfold lift_result.
  destruct r as [a | e]; [apply (Hk a eq_refl); exact Hs | exact Hs].
Qed.

Lemma preserves_bind_get {B} P (k : YS.state -> M YS.state B) :
  (forall s, P s -> P (snd (k s s))) -> preserves P (bind get_state k).
Proof. intros Hk s Hs. rewrite bind_unfold. cbn. apply Hk. exact Hs. Qed.

End Preserving.

Section Fields.
Context `{Builtins} `{Remote}.

Lemma safe_get_dict (d : list (string * json)) (key : string) :
  exists v, SYN.safe_get (JObj d) key = Ok v.
Proof. unfold SYN.safe_get. cbn. eexists. reflexivity. Qed.

Lemma safe_get_or_dicts (d n : list (string * json)) (key : string) :
  exists v, SYN.safe_get_or (JObj d) (JObj n) key = Ok v.
Proof.
  unfold SYN.safe_get_or. destruct (safe_get_dict d key) as [v ->]. cbn.
  destruct (String.eqb v ""); [apply safe_get_dict | eexists; reflexivity].
Qed.

Lemma link_ok (links : json) (rel : string) :
  match links with
  | JObj l =>
      match Py.lookup l rel with
      | Some target => Py.is_dict target
      | None => true
      end
  | _ => true
  end = true ->
  exists v, SYN.link links rel = Ok v.
Proof.
  unfold SYN.link. destruct links as [| | | | | | l]; intros Hl;
    try apply safe_get_dict.
  destruct (Py.lookup l rel) as [target |]; cbn [default];
    [| apply safe_get_dict].
  destruct target; try discriminate. apply safe_get_dict.
Qed.

Lemma is_ok_bind {A B} (r : result A) (k : A -> result B) :
  (exists a, r = Ok a) -> (forall a, is_ok (k a) = true) ->
  is_ok (res_bind r k) = true.
Proof. intros [a ->] Hk. apply Hk. Qed.

Lemma merge_notice_returns (n d : list (string * json)) :
  links_ok d = true -> is_ok (SYN.merge_notice (JObj n) (JObj d)) = true.
Proof.
  intros Hl.
  assert (forall rel, rel ∈ [ "self"; "images"; "thumbnail" ] ->
            exists v,
              SYN.link (default (JObj []) (Py.lookup d "_links")) rel = Ok v)
    as Hrel.
  { intros rel Hin. apply link_ok. unfold links_ok in Hl.
    destruct (Py.lookup d "_links") as [l |]; cbn [default]; [| reflexivity].
    destruct l; try reflexivity.
    rewrite forallb_forall in Hl. apply Hl. apply list_elem_of_In. exact Hin. }
  unfold SYN.merge_notice. cbv zeta.
  repeat (apply is_ok_bind;
          [ first [ apply safe_get_or_dicts
                  | apply safe_get_dict
                  | apply Hrel; repeat constructor
                  | eexists; reflexivity ]
          | intros ?; cbv beta ]).
  reflexivity.
Qed.

Lemma birth_inv_blind (b : option (list row)) : blind (birth_inv b).
Proof. intros s w seen Hs. exact Hs. Qed.

Lemma birth_items_shaped (b : option (list row)) (country : string)
    (items : list json) :
  preserves (birth_inv b) (YS.birth_items country items).
Proof.
  induction items as [| item rest IH]; cbn [YS.birth_items];
    [apply preserves_ret |].
  apply preserves_bind; [apply preserves_lift | intros eid].
  apply preserves_bind; [apply preserves_lift | intros nurl].
  apply preserves_bind; [apply preserves_get_state | intros s0].
  apply preserves_bind.
  { destruct (negb _); [apply preserves_ret | apply preserves_lift]. }
  intros [|]; [exact IH |].
  apply preserves_bind;
    [apply preserves_set_seen_ids, birth_inv_blind | intros _].
  apply preserves_bind_lift. intros r Hr. unchain Hr. injection Hr as <-.
  apply preserves_bind_get. intros s [Hb Hrows].
  rewrite bind_unfold. cbn [YS.set_rows_total modify]. apply IH.
  split; [exact Hb |]. cbn [YS.rows_total].
  apply Forall_app. split; [exact Hrows |].
  constructor; [reflexivity | constructor].
Qed.

Lemma birth_pages_shaped (b : option (list row)) (country : string)
    (left : nat) :
  forall page, preserves (birth_inv b) (YS.birth_pages country page left).
Proof.
  induction left as [| left IH]; intros page; cbn [YS.birth_pages];
    [apply preserves_ret |].
  apply preserves_bind;
    [apply preserves_on_wire, birth_inv_blind | intros data].
  apply preserves_bind; [apply preserves_lift | intros notices].
  apply preserves_bind; [apply birth_items_shaped | intros _].
  apply preserves_bind;
    [apply preserves_on_wire, birth_inv_blind | intros _]. apply IH.
Qed.

Lemma birth_loop_shaped (b : option (list row)) (countries : list string) :
  preserves (birth_inv b) (YS.birth_loop countries).
Proof.
  induction countries as [| country rest IH]; cbn [YS.birth_loop];
    [apply preserves_ret |].
  apply preserves_bind; [| intros _; exact IH].
  apply preserves_try. unfold YS.birth_country.
  apply preserves_bind;
    [apply preserves_on_wire, birth_inv_blind | intros data].
  apply preserves_bind; [apply preserves_lift | intros t].
  apply preserves_bind; [apply preserves_lift | intros total].
  destruct (total =? 0); [apply preserves_ret | apply birth_pages_shaped].
Qed.

Lemma birth_file_shaped (threshold : float) (st : YS.state) :
  YS.birth_file (snd (YS.rattrapage_par_pays_naissance threshold st))
  = YS.birth_file st
  \/ exists rows,
       YS.birth_file (snd (YS.rattrapage_par_pays_naissance threshold st))
       = Some rows
       /\ Forall (fun r => r.*1 = birth_fields) rows.
Proof.
  unfold YS.rattrapage_par_pays_naissance. rewrite bind_unfold.
  cbn [get_state]. destruct (YS.report_file st) as [df |]; [| left; reflexivity].
  destruct (YS.below threshold df) as [| c cs]; [left; reflexivity |].
  rewrite bind_unfold. cbn [YS.set_seen_ids modify].
  rewrite bind_unfold. cbn [YS.set_rows_total modify].
  set (s1 := {| YS.wire := _ |}).
  assert (birth_inv (YS.birth_file st) s1) as H1.
  { split; [reflexivity | constructor]. }
  pose proof (birth_loop_shaped _ (c :: cs) s1 H1) as [Hb Hrows].
  rewrite bind_unfold.
  destruct (YS.birth_loop (c :: cs) s1) as [[[] | e] s2]; cbn [snd] in *;
    [| left; exact Hb].
  rewrite bind_unfold. cbn [get_state].
  destruct (YS.rows_total s2) as [| r rows] eqn:Hr; [left; exact Hb |].
  right. exists (r :: rows). split; [reflexivity | exact Hrows].
Qed.

(** C7: a record [merge_notice] returns has the 27 keys of [OUTPUT_FIELDS],
    in that order, and [merge_notice] does return for dict payloads whose
    links point to dicts; a dict [extract_notice_info] returns has its 12
    keys, and it returns for every dict; a row of
    [fetch_all_pages_for_filters] has the 27 field names of
    yellow_scraper.py. The rows the birth-country pass writes have 9 of these
    field names each, and only those. *)
Theorem records_have_their_fields :
  (forall notice details r,
      SYN.merge_notice notice details = Ok r -> r.*1 = SYN.OUTPUT_FIELDS)
  /\ (forall n d,
        links_ok d = true -> is_ok (SYN.merge_notice (JObj n) (JObj d)) = true)
  /\ (forall notice r,
        Main.extract_notice_info notice = Ok r -> r.*1 = Main.notice_fields)
  /\ (forall d, is_ok (Main.extract_notice_info (JObj d)) = true)
  /\ (forall f item eid nurl r,
        YS.make_row f item eid nurl = Ok r -> r.*1 = YS.fieldnames)
  /\ (forall threshold st,
        YS.birth_file (snd (YS.rattrapage_par_pays_naissance threshold st))
        = YS.birth_file st
        \/ exists rows,
             YS.birth_file (snd (YS.rattrapage_par_pays_naissance threshold st))
             = Some rows
             /\ Forall (fun r => r.*1 = birth_fields) rows)
  /\ (length SYN.OUTPUT_FIELDS = 27 /\ length Main.notice_fields = 12
      /\ length YS.fieldnames = 27 /\ length birth_fields = 9)%nat
  /\ birth_fields ⊆ YS.fieldnames.
Proof.
  split; [| split; [| split; [| split; [| split; [| split; [| split]]]]]].
  - intros notice details r Hm. unfold SYN.merge_notice in Hm. unchain Hm.
    injection Hm as <-. reflexivity.
  - apply merge_notice_returns.
  - intros notice r Hm. unfold Main.extract_notice_info in Hm. unchain Hm.
    injection Hm as <-. reflexivity.
  - intros d. reflexivity.
  - intros f item eid nurl r Hm. unfold YS.make_row in Hm. unchain Hm.
    injection Hm as <-. reflexivity.
  - apply birth_file_shaped.
  - repeat split; reflexivity.
  - intros k Hk. unfold birth_fields in Hk. unfold YS.fieldnames.
    cases_of Hk; subst k; repeat constructor.
Qed.

End Fields.

Lemma records_have_their_fields_witness :
  exists r,
    @SYN.merge_notice unused (notice_of "2020/1" "DOE") (JObj []) = Ok r
    /\ r.*1 = SYN.OUTPUT_FIELDS
    /\ is_ok (@SYN.merge_notice unused (JObj []) (JObj [])) = true.
Proof.
  eexists. split; [reflexivity |].
  destruct (@records_have_their_fields unused scripted) as [Hkeys [Hret _]].
  split.
  - apply (Hkeys (notice_of "2020/1" "DOE") (JObj [])). reflexivity.
  - apply Hret. reflexivity.
Defined.

(** A row that the birth-country pass writes lacks 18 of the 27 fields. *)
Lemma birth_rows_lack_fields :
  (forallb (same_keys YS.fieldnames)
     <$> YS.birth_file
           (snd (@YS.rattrapage_par_pays_naissance unused scripted
                   YS.default_threshold
                   (ys_start [ page_of 1 [ notice_of "2020/1" "DOE" ];
                               page_of 1 [ notice_of "2020/1" "DOE" ] ]
                             (Some [ incomplete "FR" ])))))
  = Some false.
Proof. vm_compute. reflexivity. Qed.

(** ** The type of the values *)

Section Values.
Context `{Builtins}.

(** Reads the payload lookups off the steps of a chain taken apart. *)
Ltac read_gets :=
  repeat match goal with
         | E : Py.get (JObj _) _ _ = Ok _ |- _ =>
             cbn [Py.get] in E; injection E as <-
         end.

Lemma merge_notice_strings (notice details : json) (r : row) :
  SYN.merge_notice notice details = Ok r -> all_str r = true.
Proof.
  intros Hm. unfold SYN.merge_notice in Hm. unchain Hm. injection Hm as <-.
  reflexivity.
Qed.

Lemma extract_notice_info_values (d : list (string * json)) (r : row) :
  Main.extract_notice_info (JObj d) = Ok r ->
  (forall field, field ∈ red_joined -> str_at r field = true)
  /\ (forall field key, (field, key) ∈ red_plain ->
        Py.lookup r field = Some (default (JStr "N/A") (Py.lookup d key))).
Proof.
  intros Hm. unfold Main.extract_notice_info in Hm. cbv beta zeta in Hm.
  unchain Hm. injection Hm as <-. read_gets.
  repeat match goal with
         | E : res_bind _ _ = Ok _ |- _ => unchain E; injection E as <-
         end.
  split.
  - intros field Hin. unfold red_joined in Hin. cases_of Hin; subst field;
      reflexivity.
  - intros field key Hin. unfold red_plain in Hin. cases_of Hin;
      injection Hin as -> ->; reflexivity.
Qed.

Lemma make_row_values (f : YS.filters) (d : list (string * json))
    (eid : string) (nurl : json) (r : row) :
  YS.make_row f (JObj d) eid nurl = Ok r ->
  (forall field, field ∈ yellow_strings -> str_at r field = true)
  /\ (forall field key, (field, key) ∈ yellow_plain ->
        Py.lookup r field = Some (default (JStr "") (Py.lookup d key)))
  /\ Py.lookup r "sex"
     = Some match YS.opt_truthy (YS.sex_id f) with
            | Some s => JStr s
            | None => default (JStr "") (Py.lookup d "sex_id")
            end
  /\ Py.lookup r "age_min"
     = Some match YS.age_min f with Some n => JInt n | None => JStr "" end
  /\ Py.lookup r "age_max"
     = Some match YS.age_max f with Some n => JInt n | None => JStr "" end
  /\ Py.lookup r "url" = Some nurl
  /\ (exists v, YS.href (JObj d) "images" = Ok v
                /\ Py.lookup r "images_url" = Some v)
  /\ (exists v, YS.href (JObj d) "thumbnail" = Ok v
                /\ Py.lookup r "thumbnail_url" = Some v).
Proof.
  intros Hm. unfold YS.make_row in Hm. cbv beta zeta in Hm.
  unchain Hm. injection Hm as <-. read_gets.
  repeat match goal with
         | E : res_bind _ _ = Ok _ |- _ => unchain E; injection E as <-
         end.
  match goal with
  | E : match YS.opt_truthy (YS.sex_id f) with _ => _ end = Ok ?v |- _ =>
      assert (v = match YS.opt_truthy (YS.sex_id f) with
                  | Some s => JStr s
                  | None => default (JStr "") (Py.lookup d "sex_id")
                  end) as ->
        by (destruct (YS.opt_truthy (YS.sex_id f)); cbn [Py.get] in E;
            congruence)
  end.
  split; [| split; [| repeat split ]].
  - intros field Hin. unfold yellow_strings in Hin. cases_of Hin; subst field;
      reflexivity.
  - intros field key Hin. unfold yellow_plain in Hin. cases_of Hin;
      injection Hin as -> ->; reflexivity.
  - eexists. split; [eassumption | reflexivity].
  - eexists. split; [eassumption | reflexivity].
Qed.

(** C8: every value of the record [merge_notice] returns is a string. In the
    dict of [extract_notice_info] the three joined fields are strings, and
    each other field is the payload's own value, whatever its type, or
    "N/A" where the key is missing. In a row of
    [fetch_all_pages_for_filters] nationality, entity_id and the four joined
    fields are strings, age_min and age_max are the integer filters (or the
    empty string), and each other field is a value of the payload, whatever
    its type, or the empty string where the key is missing. *)
Theorem values_are_strings_where_built :
  (forall notice details r,
      SYN.merge_notice notice details = Ok r -> all_str r = true)
  /\ (forall d r,
        Main.extract_notice_info (JObj d) = Ok r ->
        (forall field, field ∈ red_joined -> str_at r field = true)
        /\ (forall field key, (field, key) ∈ red_plain ->
              Py.lookup r field = Some (default (JStr "N/A") (Py.lookup d key))))
  /\ (forall f d eid nurl r,
        YS.make_row f (JObj d) eid nurl = Ok r ->
        (forall field, field ∈ yellow_strings -> str_at r field = true)
        /\ (forall field key, (field, key) ∈ yellow_plain ->
              Py.lookup r field = Some (default (JStr "") (Py.lookup d key)))
        /\ Py.lookup r "sex"
           = Some match YS.opt_truthy (YS.sex_id f) with
                  | Some s => JStr s
                  | None => default (JStr "") (Py.lookup d "sex_id")
                  end
        /\ Py.lookup r "age_min"
           = Some match YS.age_min f with Some n => JInt n | None => JStr "" end
        /\ Py.lookup r "age_max"
           = Some match YS.age_max f with Some n => JInt n | None => JStr "" end
        /\ Py.lookup r "url" = Some nurl
        /\ (exists v, YS.href (JObj d) "images" = Ok v
                      /\ Py.lookup r "images_url" = Some v)
        /\ (exists v, YS.href (JObj d) "thumbnail" = Ok v
                      /\ Py.lookup r "thumbnail_url" = Some v)).
Proof.
  split; [| split].
  - apply merge_notice_strings.
  - apply extract_notice_info_values.
  - apply make_row_values.
Qed.

End Values.

Lemma values_are_strings_where_built_witness :
  exists r,
    @SYN.merge_notice unused (notice_of "2020/1" "DOE")
      (JObj [ ("height", JInt 170) ]) = Ok r
    /\ all_str r = true
    /\ exists q,
         @Main.extract_notice_info unused (JObj [ ("weight", JInt 70) ]) = Ok q
         /\ Py.lookup q "weight" = Some (JInt 70)
         /\ Py.lookup q "height" = Some (JStr "N/A")
         /\ str_at q "nationalities" = true.
Proof.
  eexists. split; [reflexivity |].
  destruct (@values_are_strings_where_built unused) as [Hmerge [Hred _]].
  split.
  - apply (Hmerge (notice_of "2020/1" "DOE") (JObj [ ("height", JInt 170) ])).
    reflexivity.
  - eexists. split; [reflexivity |].
    destruct (Hred [ ("weight", JInt 70) ] _ eq_refl) as [Hjoined Hplain].
    split; [| split].
    + apply (Hplain "weight" "weight"). repeat constructor.
    + apply (Hplain "height" "height"). repeat constructor.
    + apply Hjoined. repeat constructor.
Defined.

(** [extract_notice_info] hands the weight on as the number it is. *)
Lemma extract_notice_info_keeps_numbers :
  match @Main.extract_notice_info unused
          (JObj [ ("entity_id", JStr "2020/1"); ("weight", JInt 70) ]) with
  | Ok r => all_str r
  | Raise _ => true
  end = false.
Proof. reflexivity. Qed.

(** ** The retry on the coverage report *)

Section Retry.
Context `{Builtins} `{Remote}.

Lemma only_sends_ret {A} (a : A) : only_sends (ret a).
Proof. intros s. reflexivity. Qed.

Lemma only_sends_lift {A} (r : result A) : only_sends (lift_result r).
Proof. intros s. reflexivity. Qed.

Lemma only_sends_bind {A B} (m : M io A) (k : A -> M io B) :
  only_sends m -> (forall a, only_sends (k a)) -> only_sends (bind m k).
Proof.
  intros Hm Hk s. rewrite bind_unfold. specialize (Hm s).
  destruct (m s) as [[a | e] s']; cbn in *; [| exact Hm].
  etransitivity; [exact Hm | apply Hk].
Qed.

Lemma only_sends_send (r : request) : only_sends (send r).
Proof.
  intros s. unfold send. destruct (urlopen r (net s)) as [o w]. cbn.
  apply prefix_app_r. reflexivity.
Qed.

Lemma only_sends_sleep (d : float) : only_sends (sleep d).
Proof. intros s. reflexivity. Qed.

Lemma only_sends_http_get_json (u : string) (ps : list (string * string)) :
  only_sends (YS.http_get_json u ps).
Proof.
  unfold YS.http_get_json. apply only_sends_bind; [apply only_sends_send |].
  intros o. destruct o; apply only_sends_ret.
Qed.

Lemma only_sends_get_total (f : YS.filters) :
  only_sends (YS.get_total_with_filters f).
Proof.
  unfold YS.get_total_with_filters, YS.fetch_page_with_filters.
  apply only_sends_bind; [apply only_sends_http_get_json | intros data].
  apply only_sends_bind; [apply only_sends_lift | intros t].
  apply only_sends_bind; [apply only_sends_lift | intros total].
  destruct (total <=? 0); [| apply only_sends_ret].
  apply only_sends_bind; [apply only_sends_lift | intros; apply only_sends_ret].
Qed.




Lemma items_loop_steady P (f : YS.filters) (page : Z) (items : list json) :
  steady P -> forall rows, preserves P (YS.items_loop f page items rows).
Proof.
  intros [Hseen Hwire].
  induction items as [| item rest IH]; intros rows; cbn [YS.items_loop];
    [apply preserves_ret |].
  apply preserves_bind; [apply preserves_lift | intros eid].
  apply preserves_bind; [apply preserves_lift | intros nurl].
  apply preserves_bind; [apply preserves_lift | intros key].
  apply preserves_bind; [apply preserves_get_state | intros s0].
  apply preserves_bind; [apply preserves_lift | intros present].
  destruct present; [apply IH |].
  apply preserves_bind; [apply Hseen | intros _].
  apply preserves_bind; [apply preserves_lift | intros r]. apply IH.
Qed.

Lemma pages_loop_steady P (f : YS.filters) (delay : float) (num_pages : Z)
    (left : nat) :
  steady P ->
  forall page rows,
    preserves P (YS.pages_loop f delay page num_pages left rows).
Proof.
  intros HP. pose proof HP as [Hseen Hwire].
  induction left as [| left IH]; intros page rows; cbn [YS.pages_loop];
    [apply preserves_ret |].
  apply preserves_bind;
    [apply Hwire, only_sends_http_get_json | intros data].
  apply preserves_bind; [apply preserves_lift | intros items].
  apply preserves_bind; [apply items_loop_steady, HP | intros rows'].
  apply preserves_bind; [| intros _; apply IH].
  destruct (page <? num_pages);
    [apply Hwire, only_sends_sleep | apply preserves_ret].
Qed.

(** What follows the logging of the call in [fetch_all_pages_for_filters]. *)
Lemma fetch_all_steady P (f : YS.filters) (delay : float) :
  steady P ->
  preserves P
    (let* total := YS.on_wire (YS.get_total_with_filters f) in
     if total =? 0 then ret []
     else YS.pages_loop f delay 1 (Py.ceil_div total YS.RESULTS_PER_PAGE)
            (Z.to_nat (Py.ceil_div total YS.RESULTS_PER_PAGE)) []).
Proof.
  intros HP. pose proof HP as [Hseen Hwire].
  apply preserves_bind; [apply Hwire, only_sends_get_total | intros total].
  destruct (total =? 0); [apply preserves_ret | apply pages_loop_steady, HP].
Qed.





End Retry.


(** ** One record per entity_id *)

Section Dedup.
Context `{Builtins} `{Remote}.

Lemma merge_notice_eid (notice details e : json) (r : row) :
  SYN.merge_notice notice details = Ok r ->
  Py.get notice "entity_id" (JStr "") = Ok e ->
  row_eid r = Py.str e.
Proof.
  intros Hm He. unfold SYN.merge_notice in Hm. unchain Hm. injection Hm as <-.
  match goal with
  | E : Py.get notice "entity_id" (JStr "") = Ok ?v |- _ =>
      rewrite He in E; injection E as <-
  end.
  reflexivity.
Qed.

Lemma hydrate_tidy (raw : list json) :
  forall seen aggregated st,
    tidy seen aggregated ->
    match fst (SYN.hydrate raw seen aggregated st) with
    | Ok sa => tidy (fst sa) (snd sa)
    | Raise _ => True
    end.
Proof.
  induction raw as [| notice rest IH]; intros seen aggregated st Ht;
    cbn [SYN.hydrate]; [exact Ht |].
  step; [| exact I].
  unfold lift_result in E. injection E as E <-.
  destruct (String.eqb_spec (Py.str a) "") as [Hempty | Hfull];
    cbn [orb]; [apply IH; exact Ht |].
  destruct (bool_decide_reflect (Py.str a ∈ seen)) as [Hseen | Hnew];
    [apply IH; exact Ht |].
  step; [| exact I]. step; [| exact I].
  unfold lift_result in E1. injection E1 as E1 <-.
  apply IH. destruct Ht as [Hnd Hin].
  pose proof (merge_notice_eid _ _ _ _ E1 E) as Hid.
  split.
  - rewrite fmap_app. cbn [fmap list_fmap]. rewrite Hid.
    apply NoDup_app. split; [exact Hnd |]. split; [| apply NoDup_singleton].
    intros x Hx Hx'. apply list_elem_of_singleton in Hx'. subst x.
    apply list_elem_of_fmap in Hx. destruct Hx as [r [Hr Hrin]].
    destruct (Hin r Hrin) as [_ Hs]. rewrite <- Hr in Hs. contradiction.
  - intros r Hr. apply elem_of_app in Hr. destruct Hr as [Hr | Hr].
    + destruct (Hin r Hr) as [Hne Hs]. split; [exact Hne |].
      apply elem_of_union_r. exact Hs.
    + apply list_elem_of_singleton in Hr. subst r. rewrite Hid.
      split; [exact Hfull |]. apply elem_of_union_l, elem_of_singleton.
      reflexivity.
Qed.

Lemma collect_loop_tidy (fuel : nat) :
  forall tracker pending seen aggregated st,
    tidy seen aggregated ->
    tidy_output (fst (SYN.collect_loop fuel tracker pending seen aggregated st)).
Proof.
  induction fuel as [| fuel IH]; intros tracker pending seen aggregated st Ht;
    [exact I |].
  cbn [SYN.collect_loop]. destruct (SYN.pop pending) as [[segment rest] |].
  2: { cbn. destruct Ht as [Hnd Hin]. split; [exact Hnd |].
       apply Forall_forall. intros r Hr. apply (Hin r Hr). }
  destruct (SYN.is_done tracker segment); [apply IH; exact Ht |].
  step; [| exact I].
  destruct (a =? 0). { step; [apply IH; exact Ht | exact I]. }
  destruct (SYN.SEGMENT_THRESHOLD <? a).
  { step; [apply IH; exact Ht | exact I]. }
  step; [| exact I]. step; [| exact I].
  pose proof (hydrate_tidy a1 seen aggregated s1 Ht) as Hh.
  step; [| exact I]. cbn [fst] in Hh.
  step; [| exact I]. step; [| exact I].
  apply IH. exact Hh.
Qed.

Lemma tidy_empty : tidy ∅ [].
Proof. split; [constructor | intros r Hr; inversion Hr]. Qed.

Lemma collect_notices_tidy (st : SYN.state) :
  tidy_output (fst (SYN.collect_notices st)).
Proof.
  unfold SYN.collect_notices. step; [| exact I].
  apply collect_loop_tidy, tidy_empty.
Qed.

Lemma set_mem_str_false (e : string) (seen : list json) :
  Py.set_mem (JStr e) seen = Ok false -> JStr e ∉ seen.
Proof.
  unfold Py.set_mem. cbn [Py.hashable]. intros Hm Hin. injection Hm as Hm.
  assert (existsb (Py.eqb (JStr e)) seen = true) as Ht; [| congruence].
  apply existsb_exists. exists (JStr e). split.
  - apply list_elem_of_In. exact Hin.
  - cbn. apply String.eqb_refl.
Qed.

Lemma make_row_eid (f : YS.filters) (item : json) (eid : string) (nurl : json)
    (r : row) :
  YS.make_row f item eid nurl = Ok r -> row_eid r = eid.
Proof.
  intros Hm. unfold YS.make_row in Hm. unchain Hm. injection Hm as <-.
  reflexivity.
Qed.

Lemma identity_key_named (f : YS.filters) (page : Z) (item : json)
    (eid : string) (nurl key : json) :
  YS.identity_key f page item eid nurl = Ok key -> eid <> "" -> key = JStr eid.
Proof.
  unfold YS.identity_key. intros Hk Hne.
  destruct (String.eqb_spec eid ""); [contradiction |]. cbn in Hk. congruence.
Qed.

Lemma named_app (l k : list row) : named (l ++ k) = named l ++ named k.
Proof. unfold named. rewrite fmap_app. apply List.filter_app. Qed.

Lemma elem_of_named (e : string) (rows : list row) :
  e ∈ named rows <-> e ∈ row_eid <$> rows /\ e <> "".
Proof.
  unfold named. rewrite !list_elem_of_In, filter_In.
  destruct (String.eqb_spec e ""); cbn; intuition congruence.
Qed.

Lemma consistent_mono (seen seen' : list json) (rows : list row) :
  (forall x, x ∈ seen -> x ∈ seen') -> consistent seen rows ->
  consistent seen' rows.
Proof.
  intros Hsub [Hnd Hin]. split; [exact Hnd |].
  intros e He Hne. apply Hsub, Hin; assumption.
Qed.

Lemma consistent_prefix (seen : list json) (acc rows : list row) :
  consistent seen (acc ++ rows) -> consistent seen acc.
Proof.
  intros [Hnd Hin]. split.
  - rewrite named_app in Hnd. apply NoDup_app in Hnd. apply Hnd.
  - intros e He Hne. apply Hin; [| exact Hne].
    rewrite fmap_app. apply elem_of_app. left. exact He.
Qed.

Lemma consistent_snoc (seen : list json) (rows : list row) (r : row)
    (key : json) :
  consistent seen rows ->
  (row_eid r <> "" -> key = JStr (row_eid r) /\ JStr (row_eid r) ∉ seen) ->
  consistent (seen ++ [key]) (rows ++ [r]).
Proof.
  intros [Hnd Hin] Hkey. split.
  - rewrite named_app. unfold named at 2. cbn [fmap list_fmap List.filter].
    destruct (String.eqb_spec (row_eid r) "") as [Hempty | Hfull]; cbn [negb].
    + rewrite app_nil_r. exact Hnd.
    + apply NoDup_app. split; [exact Hnd |]. split; [| apply NoDup_singleton].
      intros x Hx Hx'. apply list_elem_of_singleton in Hx'. subst x.
      apply elem_of_named in Hx. destruct Hx as [Hx _].
      destruct (Hkey Hfull) as [_ Hnew]. apply Hnew, Hin; assumption.
  - intros e He Hne. rewrite fmap_app in He. apply elem_of_app in He.
    apply elem_of_app. destruct He as [He | He].
    + left. apply Hin; assumption.
    + right. cbn in He. apply list_elem_of_singleton in He. subst e.
      destruct (Hkey Hne) as [-> _]. apply list_elem_of_singleton. reflexivity.
Qed.

Lemma after_fetch_weaken (seen0 seen1 : list json) (acc : list row)
    (res : result (list row) * YS.state) :
  (forall x, x ∈ seen0 -> x ∈ seen1) -> after_fetch seen1 acc res ->
  after_fetch seen0 acc res.
Proof.
  intros Hsub [Hgrow Hres]. split; [| exact Hres].
  intros x Hx. apply Hgrow, Hsub, Hx.
Qed.

Lemma after_fetch_raise (acc rows : list row) (e : exn) (st : YS.state) :
  consistent (YS.seen_ids st) (acc ++ rows) ->
  after_fetch (YS.seen_ids st) acc (Raise e, st).
Proof.
  intros Hc. split; [intros x Hx; exact Hx |]. cbn.
  apply (consistent_prefix _ _ rows), Hc.
Qed.

Lemma items_loop_consistent (f : YS.filters) (page : Z) (acc : list row)
    (items : list json) :
  forall rows st,
    consistent (YS.seen_ids st) (acc ++ rows) ->
    after_fetch (YS.seen_ids st) acc (YS.items_loop f page items rows st).
Proof.
  induction items as [| item rest IH]; intros rows st Hc; cbn [YS.items_loop].
  { split; [intros x Hx; exact Hx | exact Hc]. }
  step; unfold lift_result in E; injection E as E <-;
    [| apply (after_fetch_raise _ rows), Hc].
  step; unfold lift_result in E0; injection E0 as E0 <-;
    [| apply (after_fetch_raise _ rows), Hc].
  step; unfold lift_result in E1; injection E1 as E1 <-;
    [| apply (after_fetch_raise _ rows), Hc].
  rewrite bind_unfold. cbn [get_state].
  step; unfold lift_result in E2; injection E2 as E2 <-;
    [| apply (after_fetch_raise _ rows), Hc].
  destruct a2; [apply IH, Hc |].
  rewrite bind_unfold. cbn [YS.set_seen_ids modify].
  set (s1 := {| YS.wire := _ |}).
  assert (forall x, x ∈ YS.seen_ids st -> x ∈ YS.seen_ids s1) as Hsub.
  { intros x Hx. cbn. apply elem_of_app. left. exact Hx. }
  step; unfold lift_result in E3; injection E3 as E3 <-.
  - apply (after_fetch_weaken _ (YS.seen_ids s1)); [exact Hsub |].
    apply IH. rewrite app_assoc. cbn [s1 YS.seen_ids].
    apply consistent_snoc; [exact Hc |].
    rewrite (make_row_eid _ _ _ _ _ E3). intros Hne.
    pose proof (identity_key_named _ _ _ _ _ _ E1 Hne) as ->.
    split; [reflexivity | apply set_mem_str_false; exact E2].
  - apply (after_fetch_weaken _ (YS.seen_ids s1)); [exact Hsub |].
    apply (after_fetch_raise _ rows).
    apply (consistent_mono (YS.seen_ids st)); [exact Hsub | exact Hc].
Qed.

Lemma on_wire_seen {A} (m : M io A) (st : YS.state) :
  YS.seen_ids (snd (YS.on_wire m st)) = YS.seen_ids st.
Proof. unfold YS.on_wire. destruct (m (YS.wire st)). reflexivity. Qed.

Lemma pages_loop_consistent (f : YS.filters) (delay : float) (num_pages : Z)
    (acc : list row) (left : nat) :
  forall page rows st,
    consistent (YS.seen_ids st) (acc ++ rows) ->
    after_fetch (YS.seen_ids st) acc
      (YS.pages_loop f delay page num_pages left rows st).
Proof.
  induction left as [| left IH]; intros page rows st Hc; cbn [YS.pages_loop].
  { split; [intros x Hx; exact Hx | exact Hc]. }
  pose proof (on_wire_seen (YS.fetch_page_with_filters page f) st) as Hw.
  step; cbn [snd] in Hw; rewrite <- Hw in *;
    [| apply (after_fetch_raise _ rows), Hc].
  step; unfold lift_result in E0; injection E0 as E0 <-;
    [| apply (after_fetch_raise _ rows), Hc].
  pose proof (items_loop_consistent f page acc a0 rows s Hc) as [Hgrow Hrows].
  step; cbn [fst snd] in Hgrow, Hrows; [| split; assumption].
  apply (after_fetch_weaken _ (YS.seen_ids s0)); [exact Hgrow |].
  destruct (page <? num_pages).
  - pose proof (on_wire_seen (sleep delay) s0) as Hz.
    step; cbn [snd] in Hz; rewrite <- Hz in *.
    + apply IH. exact Hrows.
    + apply (after_fetch_raise _ a1), Hrows.
  - rewrite bind_unfold. cbn [ret]. apply IH. exact Hrows.
Qed.

Lemma fetch_all_consistent (f : YS.filters) (delay : float) (acc : list row)
    (st : YS.state) :
  consistent (YS.seen_ids st) acc ->
  after_fetch (YS.seen_ids st) acc (YS.fetch_all_pages_for_filters f delay st).
Proof.
  intros Hc. unfold YS.fetch_all_pages_for_filters.
  rewrite bind_unfold. cbn [YS.log_call modify].
  set (s1 := {| YS.wire := _ |}).
  change (YS.seen_ids st) with (YS.seen_ids s1) in Hc |- *.
  assert (consistent (YS.seen_ids s1) (acc ++ [])) as Hc'
    by (rewrite app_nil_r; exact Hc).
  pose proof (on_wire_seen (YS.get_total_with_filters f) s1) as Hw.
  step; cbn [snd] in Hw; rewrite <- Hw in *;
    [| apply (after_fetch_raise _ []), Hc'].
  destruct (a =? 0).
  - split; [intros x Hx; exact Hx | exact Hc'].
  - apply pages_loop_consistent. exact Hc'.
Qed.

(** C1: the records [collect_notices] returns carry different entity_ids,
    none of them empty. [fetch_all_pages_for_filters] passes over an item
    whose identity key (its entity_id, else its URL, else a key made of the
    filters, the page and the name) is in the shared set; so, over fetches
    that share the set, the records that carry an entity_id carry different
    ones. *)
Theorem records_are_deduplicated :
  (forall st rows st',
      SYN.collect_notices st = (Ok (Some rows), st') ->
      NoDup (row_eid <$> rows) /\ Forall (fun r => row_eid r <> "") rows)
  /\ (forall f page item rest rows st eid nurl key,
        YS.entity_id_of item = Ok eid ->
        YS.href item "self" = Ok nurl ->
        YS.identity_key f page item eid nurl = Ok key ->
        Py.set_mem key (YS.seen_ids st) = Ok true ->
        YS.items_loop f page (item :: rest) rows st
        = YS.items_loop f page rest rows st)
  /\ (forall f delay acc st,
        consistent (YS.seen_ids st) acc ->
        (forall x, x ∈ YS.seen_ids st ->
           x ∈ YS.seen_ids (snd (YS.fetch_all_pages_for_filters f delay st)))
        /\ match fst (YS.fetch_all_pages_for_filters f delay st) with
           | Ok rows =>
               consistent
                 (YS.seen_ids (snd (YS.fetch_all_pages_for_filters f delay st)))
                 (acc ++ rows)
           | Raise _ =>
               consistent
                 (YS.seen_ids (snd (YS.fetch_all_pages_for_filters f delay st)))
                 acc
           end)
  /\ (forall seen rows,
        consistent seen rows ->
        NoDup (List.filter (fun e => negb (String.eqb e "")) (row_eid <$> rows)))
  /\ consistent [] [].
Proof.
  split; [| split; [| split; [| split]]].
  - intros st rows st' Hrun. pose proof (collect_notices_tidy st) as Ht.
    rewrite Hrun in Ht. exact Ht.
  - intros f page item rest rows st eid nurl key He Hu Hk Hm.
    cbn [YS.items_loop]. unfold lift_result.
    rewrite bind_unfold, He. cbv beta iota.
    rewrite bind_unfold, Hu. cbv beta iota.
    rewrite bind_unfold, Hk. cbv beta iota.
    rewrite bind_unfold. cbn [get_state].
    rewrite bind_unfold, Hm. reflexivity.
  - intros f delay acc st Hc. apply fetch_all_consistent. exact Hc.
  - intros seen rows [Hnd _]. exact Hnd.
  - split; [constructor | intros e He; inversion He].
Qed.

End Dedup.

Lemma records_are_deduplicated_witness :
  (exists rows,
     fst (@SYN.collect_notices unused scripted (syn_start one_segment))
     = Ok (Some rows)
     /\ length rows = 2%nat
     /\ NoDup (row_eid <$> rows))
  /\ match fst (@YS.fetch_all_pages_for_filters unused scripted
                  (YS.by_nationality "FR") 1.5%float
                  (ys_start doubled_page None)) with
     | Ok rows => length rows = 1%nat /\ NoDup (named rows)
     | Raise _ => False
     end.
Proof.
  destruct (@records_are_deduplicated unused scripted)
    as [Hcollect [_ [Hfetch [Hnamed Hempty]]]].
  split.
  - eexists. split; [vm_compute; reflexivity |]. split; [reflexivity |].
    apply (Hcollect (syn_start one_segment) _
             (snd (@SYN.collect_notices unused scripted (syn_start one_segment)))).
    apply pair_of_fst. vm_compute. reflexivity.
  - pose proof (Hfetch (YS.by_nationality "FR") 1.5%float []
                  (ys_start doubled_page None) Hempty) as [_ Hrows].
    destruct (fst (@YS.fetch_all_pages_for_filters unused scripted
                     (YS.by_nationality "FR") 1.5%float
                     (ys_start doubled_page None)))
      as [rows | e] eqn:E; vm_compute in E; [| discriminate E].
    injection E as <-. split; [reflexivity |]. apply (Hnamed _ _ Hrows).
Defined.

(** Two items without entity_id, told apart by their URLs, give two records
    with the same, empty, entity_id. *)
Lemma fetch_all_repeats_empty_id :
  match fst (@YS.fetch_all_pages_for_filters unused scripted
               (YS.by_nationality "FR") 1.5%float
               (ys_start anonymous_page None)) with
  | Ok rows => distinct_ids rows
  | Raise _ => true
  end = false.
Proof. vm_compute. reflexivity. Qed.

(** ** The progress file *)

Section Tracker.
Import SYN.
Context `{Builtins} `{Remote}.

Lemma str_le_total : Total str_le.
Proof. intros s t. apply String.leb_total. Qed.

Lemma sorted_nodup (labels : gset string) : NoDup (sorted labels).
Proof.
  unfold sorted. rewrite (merge_sort_Permutation str_le (elements labels)).
  apply NoDup_elements.
Qed.

Lemma list_to_set_sorted (labels : gset string) :
  list_to_set (sorted labels) = labels.
Proof.
  apply set_eq. intros x. rewrite elem_of_list_to_set. apply elem_of_sorted.
Qed.

Lemma mark_done_clean (tracker tracker' : ProgressTracker) (s : Segment)
    (st st' : state) :
  mark_done tracker s st = (Ok tracker', st') ->
  foreign tracker' = false /\ wire st' = wire st
  /\ output_file st' = output_file st /\ fetched st' = fetched st.
Proof.
  unfold mark_done, _flush. cbn [foreign processed_segments].
  destruct (foreign tracker) eqn:Hf; [cbn; discriminate |].
  cbn. intros Hm. injection Hm as <- <-. cbn. repeat split.
Qed.

(** X1: what [mark_done] writes is what a new tracker reads: built from the
    progress file right after [mark_done] returned, the tracker is the very
    one [mark_done] left, no label more and none less; and the list in the
    file is sorted, without a repeat, and holds the labels of the tracker. *)
Theorem progress_file_round_trip (tracker tracker' : ProgressTracker)
    (s : Segment) (st st' : state) :
  mark_done tracker s st = (Ok tracker', st') ->
  new_tracker st' = (Ok tracker', st')
  /\ exists labels,
       progress_file st' =
         Some (Content (JObj [ ("timestamp", JStr (utcnow (net (wire st))));
                               ("processed_segments", JList (JStr <$> labels)) ]))
       /\ Sorted str_le labels /\ NoDup labels
       /\ forall x, x ∈ labels <-> x = label s \/ x ∈ processed_segments tracker.
Proof.
  intros Hm. destruct (mark_done_clean _ _ _ _ _ Hm) as [Hf _].
  destruct (mark_done_ok _ _ _ _ _ Hm) as [Hset Hfile]. split.
  - unfold new_tracker, get_state, lift_result. rewrite bind_unfold, Hfile.
    cbn. rewrite set_of_strings, list_to_set_sorted.
    destruct tracker' as [labels f]. cbn in Hf. subst f. reflexivity.
  - exists (sorted (processed_segments tracker')). split; [exact Hfile |].
    split; [apply Sorted_merge_sort, str_le_total |]. split; [apply sorted_nodup |].
    intros x. rewrite elem_of_sorted, Hset, elem_of_union, elem_of_singleton.
    reflexivity.
Qed.

Lemma stored_after_mark_done (tracker tracker' : ProgressTracker) (s : Segment)
    (st st' : state) :
  mark_done tracker s st = (Ok tracker', st') ->
  stored st' = {[ label s ]} ∪ processed_segments tracker.
Proof.
  intros Hm. destruct (mark_done_ok _ _ _ _ _ Hm) as [Hset Hfile].
  unfold stored. rewrite Hfile. cbn. rewrite set_of_strings. cbn.
  rewrite list_to_set_sorted. exact Hset.
Qed.

Lemma mark_done_raise (tracker : ProgressTracker) (s : Segment) (st st' : state)
    (e : exn) :
  mark_done tracker s st = (Raise e, st') -> st' = st.
Proof.
  unfold mark_done, _flush. cbn [foreign processed_segments].
  destruct (foreign tracker); cbn; intros Hm; [congruence | discriminate].
Qed.

Lemma remembers_mark_done (base : gset string) (tracker : ProgressTracker)
    (s : Segment) (st : state) :
  remembers base tracker st ->
  match mark_done tracker s st with
  | (Ok tracker', st') => remembers base tracker' st'
  | (Raise _, st') => base ⊆ stored st'
  end.
Proof.
  intros [Ht Hs]. destruct (mark_done tracker s st) as [[tracker' | e] st'] eqn:Hm.
  - pose proof (stored_after_mark_done _ _ _ _ _ Hm) as Hst.
    destruct (mark_done_ok _ _ _ _ _ Hm) as [Hset _].
    unfold remembers. rewrite Hset, Hst.
    split; (etrans; [exact Ht | apply union_subseteq_r]).
  - rewrite (mark_done_raise _ _ _ _ _ Hm). exact Hs.
Qed.

(** The computation leaves the progress file as it is. *)
Lemma stored_on_wire {A} (m : M io A) (st : state) :
  stored (snd (on_wire m st)) = stored st.
Proof. unfold on_wire. destruct (m (wire st)). reflexivity. Qed.

Lemma stored_write_rows (records : list row) :
  forall written st, stored (snd (write_rows records written st)) = stored st.
Proof.
  induction records as [| r rest IH]; intros written st; cbn [write_rows];
    [reflexivity |].
  destruct (forallb _ _); [apply IH | reflexivity].
Qed.

Lemma stored_hydrate (raw : list json) :
  forall seen aggregated st,
    stored (snd (hydrate raw seen aggregated st)) = stored st.
Proof.
  induction raw as [| notice rest IH]; intros seen aggregated st;
    cbn [hydrate]; [reflexivity |].
  step; unfold lift_result in E; injection E as E <-; [| reflexivity].
  destruct (_ || _); [apply IH |].
  pose proof (stored_on_wire (fetch_details (Py.str a)) st) as Hw.
  step; cbn [snd] in Hw |- *; [| exact Hw].
  step; unfold lift_result in E1; injection E1 as E1 <-; [| exact Hw].
  rewrite IH. exact Hw.
Qed.

Lemma collect_loop_remembers (base : gset string) (fuel : nat) :
  forall tracker pending seen aggregated st,
    remembers base tracker st ->
    base ⊆ stored (snd (collect_loop fuel tracker pending seen aggregated st)).
Proof.
  induction fuel as [| fuel IH]; intros tracker pending seen aggregated st Hr;
    [apply Hr |].
  cbn [collect_loop]. destruct (pop pending) as [[segment rest] |]; [| apply Hr].
  destruct (is_done tracker segment); [apply IH, Hr |].
  pose proof (stored_on_wire (query_total segment) st) as Hw.
  step; cbn [snd] in Hw |- *; [| rewrite Hw; apply Hr].
  assert (remembers base tracker s) as Hr1.
  { destruct Hr as [Ht Hs]. split; [exact Ht | rewrite Hw; exact Hs]. }
  destruct (a =? 0).
  { pose proof (remembers_mark_done base tracker segment s Hr1) as Hm.
    step; [apply IH, Hm | exact Hm]. }
  destruct (SEGMENT_THRESHOLD <? a).
  { step; unfold lift_result in E0; injection E0 as E0 <-;
      [apply IH, Hr1 | apply Hr1]. }
  step; unfold log_fetch, modify in E0; [| discriminate].
  injection E0 as _ <-.
  match goal with
  | |- context [bind _ _ ?s1] =>
      assert (remembers base tracker s1) as Hr2 by exact Hr1;
      pose proof (stored_on_wire (fetch_segment segment a) s1) as Hw2
  end.
  step; cbn [snd] in Hw2 |- *; [| rewrite Hw2; apply Hr2].
  pose proof (stored_hydrate a1 seen aggregated s0) as Hh.
  step; cbn [snd] in Hh |- *; [| rewrite Hh, Hw2; apply Hr2].
  assert (remembers base tracker s1) as Hr3.
  { destruct Hr2 as [Ht Hs]. split; [exact Ht | rewrite Hh, Hw2; exact Hs]. }
  pose proof (remembers_mark_done base tracker segment s1 Hr3) as Hm.
  step; [| exact Hm].
  assert (stored (snd ((if Z.of_nat (length (snd a2)) mod 200 =? 0
                        then write_csv (snd a2) else ret tt) s2)) = stored s2)
    as Hc.
  { destruct (_ =? 0); [apply stored_write_rows | reflexivity]. }
  step; cbn [snd] in Hc |- *.
  - apply IH. destruct Hm as [Ht Hs]. split; [exact Ht | rewrite Hc; exact Hs].
  - rewrite Hc. apply Hm.
Qed.

(** X2: a run of [collect_notices] never takes a label out of the progress
    file: whatever the server answers, and whether the run returns or
    raises, every label the file held when the run began is in the file
    when it ends. *)
Theorem progress_file_only_grows (st : state) :
  stored st ⊆ stored (snd (collect_notices st)).
Proof.
  unfold collect_notices. rewrite bind_unfold. unfold new_tracker.
  rewrite bind_unfold. cbn [get_state]. unfold lift_result.
  destruct (_load (progress_file st)) as [tracker | e] eqn:Hl; [| reflexivity].
  apply collect_loop_remembers. unfold remembers, stored. rewrite Hl.
  split; reflexivity.
Qed.

End Tracker.

Lemma progress_file_round_trip_witness :
  exists tracker' st',
    @SYN.mark_done scripted
      {| SYN.processed_segments := ∅; SYN.foreign := false |}
      SYN.initial (syn_start []) = (Ok tracker', st')
    /\ @SYN.new_tracker scripted st' = (Ok tracker', st').
Proof.
  eexists. eexists. split; [reflexivity |].
  apply (proj1 (@progress_file_round_trip scripted
                  {| SYN.processed_segments := ∅; SYN.foreign := false |}
                  _ SYN.initial (syn_start []) _ eq_refl)).
Defined.

(** ** The labels of the crawl *)

Section Labels.
Import SYN.
Context `{Remote}.

Lemma crawl_segments_closed : closed_under_split crawl_segments = true.
Proof. vm_compute. reflexivity. Qed.

Lemma crawl_labels_distinct : NoDup (label <$> crawl_segments).
Proof.
  apply (bool_decide_unpack (NoDup (label <$> crawl_segments))).
  vm_compute. reflexivity.
Qed.

Lemma reachable_in_crawl (s : Segment) : reachable s -> s ∈ crawl_segments.
Proof.
  revert s. apply rtc_ind_r.
  - apply list_elem_of_here.
  - intros a b Hab Hc IH. destruct Hc as (parts & Hs & Hin).
    pose proof crawl_segments_closed as Hcl. unfold closed_under_split in Hcl.
    rewrite forallb_forall in Hcl. apply list_elem_of_In, Hcl in IH.
    rewrite Hs, forallb_forall in IH. apply list_elem_of_In, IH in Hin.
    apply bool_decide_eq_true in Hin. exact Hin.
Qed.

Lemma fmap_injective_on {A B} (f : A -> B) (l : list A) :
  NoDup (f <$> l) ->
  forall x y, x ∈ l -> y ∈ l -> f x = f y -> x = y.
Proof.
  induction l as [| a l IH]; intros Hnd x y Hx Hy Hf.
  - inversion Hx.
  - rewrite fmap_cons in Hnd. apply NoDup_cons in Hnd as [Ha Hnd].
    apply elem_of_cons in Hx as [-> | Hx]; apply elem_of_cons in Hy as [-> | Hy].
    + reflexivity.
    + exfalso. apply Ha. rewrite Hf. apply list_elem_of_fmap.
      exists y. split; [reflexivity | exact Hy].
    + exfalso. apply Ha. rewrite <- Hf. apply list_elem_of_fmap.
      exists x. split; [reflexivity | exact Hx].
    + apply IH; assumption.
Qed.

Lemma crawl_labels_injective (s s' : Segment) :
  reachable s -> reachable s' -> label s = label s' -> s = s'.
Proof.
  intros Hs Hs'. apply (fmap_injective_on label crawl_segments).
  - apply crawl_labels_distinct.
  - apply reachable_in_crawl, Hs.
  - apply reachable_in_crawl, Hs'.
Qed.

(** X3: the label names the segment, among the segments of the crawl (the
    whole range of ages with any sex, and what splitting makes of it): two
    of them with the same label are the same segment. So [mark_done] of one
    segment of the crawl leaves [is_done] as it was for every other one: a
    resumed crawl skips the segments that were finished, and only them. *)
Theorem labels_name_the_crawl_segments (s s' : Segment) :
  reachable s -> reachable s' ->
  (label s = label s' -> s = s')
  /\ forall tracker tracker' st st',
       mark_done tracker s st = (Ok tracker', st') ->
       s' <> s -> is_done tracker' s' = is_done tracker s'.
Proof.
  intros Hs Hs'. split; [apply crawl_labels_injective; assumption |].
  intros tracker tracker' st st' Hm Hne.
  destruct (mark_done_ok _ _ _ _ _ Hm) as [Hset _].
  unfold is_done. rewrite Hset. apply bool_decide_ext.
  rewrite elem_of_union, elem_of_singleton. split; [| tauto].
  intros [Hl | Hin]; [| exact Hin].
  exfalso. apply Hne. apply crawl_labels_injective; assumption.
Qed.

End Labels.

Lemma labels_name_the_crawl_segments_witness :
  SYN.is_done {| SYN.processed_segments := {[ SYN.label SYN.initial ]} ∪ ∅;
                 SYN.foreign := false |}
    {| SYN.age_min := 0; SYN.age_max := 60; SYN.sex := None |}
  = SYN.is_done {| SYN.processed_segments := ∅; SYN.foreign := false |}
      {| SYN.age_min := 0; SYN.age_max := 60; SYN.sex := None |}.
Proof.
  refine (proj2 (@labels_name_the_crawl_segments scripted SYN.initial
                   {| SYN.age_min := 0; SYN.age_max := 60; SYN.sex := None |}
                   _ _)
            {| SYN.processed_segments := ∅; SYN.foreign := false |} _
            (syn_start []) _ eq_refl _).
  - apply rtc_refl.
  - apply rtc_once. eexists. split; [reflexivity |]. apply list_elem_of_here.
  - discriminate.
Defined.

(** ** The requests of a segment *)

Section Pages.
Import SYN.
Context `{Builtins} `{Remote}.

Lemma http_get_json_requests (u : string) (ps : list (string * string))
    (st : io) :
  exists n, (1 <= n <= RETRY_LIMIT)%nat
    /\ requests (snd (http_get_json u ps st))
       = requests st ++ replicate n {| url := u; params := ps |}.
Proof.
  unfold http_get_json. rewrite attempts_run by (cbv; lia).
  exists (Nat.min RETRY_LIMIT
            (S (failures (outcomes {| url := u; params := ps |} RETRY_LIMIT
                            (net st))))).
  split; [unfold RETRY_LIMIT; lia | reflexivity].
Qed.

Lemma pages_requests (segment : Segment) (left : nat) :
  forall page notices st,
    exists new,
      requests (snd (pages segment page left notices st)) = requests st ++ new
      /\ (length new <= RETRY_LIMIT * left)%nat
      /\ Forall (fun r => exists p, page <= p < page + Z.of_nat left
                                   /\ r = segment_page segment p) new.
Proof.
  induction left as [| left IH]; intros page notices st.
  { exists []. cbn. rewrite app_nil_r. repeat split; [lia | constructor]. }
  cbn [pages].
  destruct (http_get_json_requests API_SEARCH_URL
              (to_query segment
               ++ [ ("page", pretty page);
                    ("resultPerPage", pretty MAX_RESULTS_PER_PAGE) ]) st)
    as (n & Hn & Hreq).
  assert (Forall (fun r => exists p, page <= p < page + Z.of_nat (S left)
                                     /\ r = segment_page segment p)
            (replicate n (segment_page segment page))) as Hall.
  { apply Forall_replicate. exists page. split; [lia | reflexivity]. }
  assert (length (replicate n (segment_page segment page))
          <= RETRY_LIMIT * S left)%nat as Hlen.
  { rewrite length_replicate. lia. }
  step; cbn [snd] in Hreq |- *; [| eexists; split; [exact Hreq | split; assumption]].
  step; unfold lift_result in E0; injection E0 as E0 <-;
    [| eexists; split; [exact Hreq | split; assumption]].
  step; unfold lift_result in E1; injection E1 as E1 <-;
    [| eexists; split; [exact Hreq | split; assumption]].
  step; unfold lift_result in E2; injection E2 as E2 <-;
    [| eexists; split; [exact Hreq | split; assumption]].
  step; unfold sleep in E3; [| discriminate]. injection E3 as _ <-.
  step; unfold lift_result in E3; injection E3 as E3 <-; cbn [snd requests];
    [| eexists; split; [exact Hreq | split; assumption]].
  destruct (_ <? MAX_RESULTS_PER_PAGE);
    [cbn [ret snd requests]; eexists; split; [exact Hreq | split; assumption] |].
  match goal with
  | |- context [pages segment (page + 1) left ?ns ?st1] =>
      destruct (IH (page + 1) ns st1) as (new & Hnew & Hl & Hf)
  end.
  exists (replicate n (segment_page segment page) ++ new).
  rewrite Hnew. cbn [requests]. rewrite Hreq, <- app_assoc.
  split; [reflexivity |]. split.
  - rewrite length_app, length_replicate. lia.
  - apply Forall_app. split; [exact Hall |].
    eapply Forall_impl; [exact Hf |].
    intros r (p & Hp & ->). exists p. split; [lia | reflexivity].
Qed.


Lemma replace_letters (a b : ascii) (s : string) :
  letters (replace_char a b s)
  = (fun c => if Ascii.eqb c a then b else c) <$> letters s.
Proof.
  unfold letters, replace_char.
  apply String.list_ascii_of_string_of_list_ascii.
Qed.

Lemma string_length_letters (s : string) : String.length s = length (letters s).
Proof. induction s as [| c s IH]; cbn; [reflexivity | rewrite IH; reflexivity]. Qed.

Lemma letters_inj (s t : string) : letters s = letters t -> s = t.
Proof.
  intros Hl. rewrite <- (String.string_of_list_ascii_of_string s),
    <- (String.string_of_list_ascii_of_string t).
  unfold letters in Hl. rewrite Hl. reflexivity.
Qed.

(** X5: [clean_entity_id] leaves no slash in the id it puts in the URL of a
    notice: the cleaned id has the length of the id, holds every byte
    other than a slash where it was and a dash where a slash was, is the
    id itself when the id has no slash, and cleaning it again changes
    nothing. *)
Theorem clean_entity_id_leaves_no_slash (entity_id : string) :
  ("/"%char ∉ letters (clean_entity_id entity_id))
  /\ String.length (clean_entity_id entity_id) = String.length entity_id
  /\ (forall i c, letters entity_id !! i = Some c ->
        letters (clean_entity_id entity_id) !! i
        = Some (if Ascii.eqb c "/" then "-"%char else c))
  /\ (("/"%char ∉ letters entity_id) -> clean_entity_id entity_id = entity_id)
  /\ clean_entity_id (clean_entity_id entity_id) = clean_entity_id entity_id.
Proof.
  assert (forall l : list ascii,
            "/"%char ∉ l ->
            (fun c => if Ascii.eqb c "/" then "-"%char else c) <$> l = l)
    as Hfix.
  { induction l as [| c l IH]; intros Hn; [reflexivity |].
    rewrite not_elem_of_cons in Hn. destruct Hn as [Hc Hn].
    rewrite fmap_cons, (IH Hn).
    destruct (Ascii.eqb_spec c "/"); [congruence | reflexivity]. }
  assert ("/"%char ∉ letters (clean_entity_id entity_id)) as Hno.
  { unfold clean_entity_id. rewrite replace_letters.
    intros Hin. apply list_elem_of_fmap in Hin as (c & Hc & _).
    destruct (Ascii.eqb_spec c "/"); [discriminate | congruence]. }
  split; [exact Hno |]. split.
  { rewrite !string_length_letters. unfold clean_entity_id.
    rewrite replace_letters. apply length_fmap. }
  split.
  { intros i c Hi. unfold clean_entity_id.
    rewrite replace_letters, list_lookup_fmap, Hi. reflexivity. }
  split.
  - intros Hn. apply letters_inj. unfold clean_entity_id.
    rewrite replace_letters. apply Hfix, Hn.
  - apply letters_inj. unfold clean_entity_id at 1.
    rewrite replace_letters. apply Hfix, Hno.
Qed.

End Pages.

Lemma clean_entity_id_leaves_no_slash_witness :
  SYN.clean_entity_id "2021-4711" = "2021-4711".
Proof.
  apply (proj1 (proj2 (proj2 (proj2
           (clean_entity_id_leaves_no_slash "2021-4711"))))).
  vm_compute. intros Hin. repeat (apply elem_of_cons in Hin as [Hin | Hin];
    [discriminate |]). inversion Hin.
Defined.

(** ** The run of scrape_yellow_notices.py *)

Section SynRun.
Import SYN.
Context `{Builtins} `{Remote}.

Lemma merge_notice_keys (notice details : json) (r : row) :
  merge_notice notice details = Ok r -> r.*1 = OUTPUT_FIELDS.
Proof.
  intros Hm. unfold merge_notice in Hm. unchain Hm. injection Hm as <-.
  reflexivity.
Qed.

Lemma hydrate_shaped (raw : list json) :
  forall seen aggregated st,
    shaped aggregated ->
    match fst (hydrate raw seen aggregated st) with
    | Ok sa => shaped (snd sa)
    | Raise _ => True
    end.
Proof.
  induction raw as [| notice rest IH]; intros seen aggregated st Hs;
    cbn [hydrate]; [exact Hs |].
  step; [| exact I].
  destruct (_ || _); [apply IH, Hs |].
  step; [| exact I]. step; [| exact I].
  unfold lift_result in E1. injection E1 as E1 <-.
  apply IH. apply Forall_app. split; [exact Hs |].
  apply Forall_singleton. apply (merge_notice_keys _ _ _ E1).
Qed.

Lemma collect_loop_shaped (fuel : nat) :
  forall tracker pending seen aggregated st,
    shaped aggregated ->
    shaped_output (fst (collect_loop fuel tracker pending seen aggregated st)).
Proof.
  induction fuel as [| fuel IH]; intros tracker pending seen aggregated st Hs;
    [exact I |].
  cbn [collect_loop]. destruct (pop pending) as [[segment rest] |];
    [| exact Hs].
  destruct (is_done tracker segment); [apply IH, Hs |].
  step; [| exact I].
  destruct (a =? 0). { step; [apply IH, Hs | exact I]. }
  destruct (SEGMENT_THRESHOLD <? a). { step; [apply IH, Hs | exact I]. }
  step; [| exact I]. step; [| exact I].
  pose proof (hydrate_shaped a1 seen aggregated s1 Hs) as Hh.
  step; [| exact I]. cbn [fst] in Hh.
  step; [| exact I]. step; [| exact I].
  apply IH, Hh.
Qed.

Lemma write_rows_shaped (records : list row) :
  forall written st,
    shaped records ->
    write_rows records written st
    = (Ok tt, {| wire := wire st; progress_file := progress_file st;
                 output_file := Some (written ++ records);
                 fetched := fetched st |}).
Proof.
  induction records as [| r rest IH]; intros written st Hs; cbn [write_rows].
  - rewrite app_nil_r. reflexivity.
  - apply Forall_cons in Hs as [Hr Hs]. rewrite Hr.
    replace (forallb (fun k => bool_decide (k ∈ OUTPUT_FIELDS)) OUTPUT_FIELDS)
      with true by (vm_compute; reflexivity).
    rewrite (IH _ _ Hs), <- app_assoc. reflexivity.
Qed.

(** X6: [run] does what [collect_notices] did and no more than writing the
    file: when the collection returns its records, [run] returns, the CSV
    file holds these records, each with the 27 columns of [OUTPUT_FIELDS]
    (the writer has no key to refuse), in the order of the collection, and
    the progress file is gone; when the collection raises, [run] raises the
    same, and network, CSV file and progress file are as the collection
    left them, the progress file still there to resume from. The loop of
    the collection never runs out of the fuel of the model. *)
Theorem run_writes_the_records (st : state) :
  match collect_notices st with
  | (Ok (Some records), st1) =>
      shaped records
      /\ run st
         = (Ok (Some tt),
            {| wire := wire st1; progress_file := None;
               output_file := Some records; fetched := fetched st1 |})
  | (Ok None, _) => False
  | (Raise e, st1) => run st = (Raise e, st1)
  end.
Proof.
  assert (shaped_output (fst (collect_notices st))) as Hs.
  { unfold collect_notices. step; [| exact I].
    apply collect_loop_shaped. constructor. }
  assert (fst (collect_notices st) <> Ok None) as Hfuel.
  { unfold collect_notices. step; [| cbn; discriminate].
    apply collect_loop_ends. unfold budgets. cbn. lia. }
  unfold run. rewrite bind_unfold.
  destruct (collect_notices st) as [[[records |] | e] st1]; cbn [fst] in *.
  - split; [exact Hs |]. rewrite bind_unfold. unfold write_csv.
    rewrite (write_rows_shaped records [] st1 Hs). reflexivity.
  - apply Hfuel. reflexivity.
  - reflexivity.
Qed.

End SynRun.

(** ** The requests of yellow_scraper.py *)

Section Totals.
Import YS.
Context `{Builtins} `{Remote}.

Lemma yields_ret {S A} (Q : A -> Prop) (a : A) : Q a -> yields (S := S) Q (ret a).
Proof. intros Ha s. exact Ha. Qed.

Lemma yields_bind {S A B} (P : A -> Prop) (Q : B -> Prop) (m : M S A)
    (k : A -> M S B) :
  yields P m -> (forall a, P a -> yields Q (k a)) -> yields Q (bind m k).
Proof.
  intros Hm Hk s. rewrite bind_unfold. specialize (Hm s).
  destruct (m s) as [[a | e] s']; cbn [fst] in *; [apply Hk, Hm | exact I].
Qed.

Lemma yields_any {S A} (m : M S A) : yields (fun _ => True) m.
Proof. intros s. destruct (fst (m s)); exact I. Qed.

Lemma yields_then {S A B} (Q : B -> Prop) (m : M S A) (k : A -> M S B) :
  (forall a, yields Q (k a)) -> yields Q (bind m k).
Proof.
  intros Hk. apply (yields_bind (fun _ => True)); [apply yields_any |].
  intros a _. apply Hk.
Qed.

(** The payload [http_get_json] makes of an answer. *)
Lemma http_get_json_run (u : string) (ps : list (string * string)) (s : io) :
  http_get_json u ps s
  = (Ok match fst (urlopen {| url := u; params := ps |} (net s)) with
        | Body j => j
        | _ => JObj []
        end,
     {| net := snd (urlopen {| url := u; params := ps |} (net s));
        requests := requests s ++ [ {| url := u; params := ps |} ];
        slept := slept s |}).
Proof.
  unfold http_get_json, send. rewrite bind_unfold.
  destruct (urlopen _ (net s)) as [o w]. destruct o; reflexivity.
Qed.

(** What one call of [get_total_with_filters] does to the network. *)
Lemma get_total_wire (f : filters) (s : io) :
  snd (get_total_with_filters f s)
  = {| net := snd (urlopen (total_query f) (net s));
       requests := requests s ++ [total_query f];
       slept := slept s |}.
Proof.
  unfold get_total_with_filters, fetch_page_with_filters.
  rewrite bind_unfold, http_get_json_run. fold (total_query f).
  step; unfold lift_result in E; injection E as E <-; [| reflexivity].
  step; unfold lift_result in E0; injection E0 as E0 <-; [| reflexivity].
  destruct (_ <=? 0); [| reflexivity].
  step; unfold lift_result in E1; injection E1 as E1 <-; reflexivity.
Qed.

Lemma get_total_nonneg (f : filters) :
  yields (fun total => 0 <= total) (get_total_with_filters f).
Proof.
  unfold get_total_with_filters. apply yields_then. intros data.
  apply yields_then. intros t. apply yields_then. intros total.
  destruct (Z.leb_spec total 0).
  - apply yields_then. intros items. apply yields_ret. lia.
  - apply yields_ret. lia.
Qed.

Lemma get_total_failed (f : filters) (s : io) :
  failed (fst (urlopen (total_query f) (net s))) = true ->
  fst (get_total_with_filters f s) = Ok 0.
Proof.
  intros Hf. unfold get_total_with_filters, fetch_page_with_filters.
  rewrite bind_unfold, http_get_json_run. fold (total_query f).
  destruct (fst (urlopen (total_query f) (net s))); [discriminate | ..];
    reflexivity.
Qed.

(** X7: [get_total_with_filters] sends one request, page 1 of the search
    with its filters, and sleeps not at all, whether it returns or raises;
    what it returns is never negative; and when the request fails (no
    answer, or a body that is no JSON), it returns 0, as it does for a
    search without a notice. *)
Theorem get_total_with_filters_counts (f : filters) (s : io) :
  snd (get_total_with_filters f s)
  = {| net := snd (urlopen (page_query f 1) (net s));
       requests := requests s ++ [page_query f 1];
       slept := slept s |}
  /\ (forall total, fst (get_total_with_filters f s) = Ok total -> 0 <= total)
  /\ (failed (fst (urlopen (page_query f 1) (net s))) = true ->
      fst (get_total_with_filters f s) = Ok 0).
Proof.
  split; [apply get_total_wire |]. split; [| apply get_total_failed].
  intros total Ht. pose proof (get_total_nonneg f s) as Hn.
  rewrite Ht in Hn. exact Hn.
Qed.

Lemma items_loop_wire (f : filters) (page : Z) (items : list json) :
  forall rows st, wire (snd (items_loop f page items rows st)) = wire st.
Proof.
  induction items as [| item rest IH]; intros rows st; cbn [items_loop];
    [reflexivity |].
  step; unfold lift_result in E; injection E as E <-; [| reflexivity].
  step; unfold lift_result in E0; injection E0 as E0 <-; [| reflexivity].
  step; unfold lift_result in E1; injection E1 as E1 <-; [| reflexivity].
  rewrite bind_unfold. cbn [get_state].
  step; unfold lift_result in E2; injection E2 as E2 <-; [| reflexivity].
  destruct a2; [apply IH |].
  rewrite bind_unfold. cbn [set_seen_ids modify].
  step; unfold lift_result in E3; injection E3 as E3 <-; [| reflexivity].
  rewrite IH. reflexivity.
Qed.

Lemma pages_loop_wire (f : filters) (delay : float) (num_pages : Z)
    (left : nat) :
  forall page rows st rows' st',
    page + Z.of_nat left = num_pages + 1 ->
    pages_loop f delay page num_pages left rows st = (Ok rows', st') ->
    requests (wire st')
    = requests (wire st) ++ (page_query f <$> pages_from page left)
    /\ slept (wire st') = slept (wire st) ++ replicate (left - 1) delay.
Proof.
  induction left as [| left IH]; intros page rows st rows' st' Hp Hl;
    cbn [pages_loop] in Hl.
  { injection Hl as _ <-. cbn. rewrite !app_nil_r. split; reflexivity. }
  revert Hl. rewrite bind_unfold. unfold on_wire at 1, fetch_page_with_filters.
  rewrite http_get_json_run. fold (page_query f page).
  set (s1 := {| wire := _ |}).
  step; unfold lift_result in E; injection E as E <-; [| discriminate].
  pose proof (items_loop_wire f page a rows s1) as Hw.
  step; cbn [snd] in Hw; [| discriminate].
  destruct left as [| left'].
  - destruct (Z.ltb_spec page num_pages); [lia |].
    rewrite bind_unfold. cbn [ret pages_loop]. intros Hl. injection Hl as _ <-.
    rewrite Hw. cbn. rewrite app_nil_r. split; reflexivity.
  - destruct (Z.ltb_spec page num_pages); [| lia].
    rewrite bind_unfold. unfold on_wire at 1, sleep, modify.
    set (s2 := {| wire := _ |}). intros Hl.
    apply IH in Hl; [| lia]. destruct Hl as [Hr Hs].
    rewrite Hr, Hs. subst s2. cbn [wire requests slept]. rewrite Hw.
    subst s1. cbn [wire requests slept pages_from fmap list_fmap].
    rewrite <- !app_assoc. cbn. rewrite Nat.sub_0_r. split; reflexivity.
Qed.

(** X8: when [fetch_all_pages_for_filters] returns, it has asked for page 1
    to know the total, then for the pages 1, 2, ... up to the number of
    pages of that total, each once and in this order, page 1 twice in
    all; it has slept [delay] between two pages and not after the last;
    no other request and no other sleep. *)
Theorem fetch_all_pages_asks_each_page (f : filters) (delay : float)
    (st st' : state) (rows : list row) (total : Z) :
  fst (get_total_with_filters f (wire st)) = Ok total ->
  fetch_all_pages_for_filters f delay st = (Ok rows, st') ->
  let num_pages := Z.to_nat (Py.ceil_div total RESULTS_PER_PAGE) in
  requests (wire st')
  = requests (wire st) ++ page_query f 1 :: (page_query f <$> pages_from 1 num_pages)
  /\ slept (wire st') = slept (wire st) ++ replicate (num_pages - 1) delay.
Proof.
  intros Ht Hf num_pages. revert Hf. unfold fetch_all_pages_for_filters.
  rewrite bind_unfold. cbn [log_call modify]. set (s0 := {| wire := _ |}).
  rewrite bind_unfold. unfold on_wire at 1.
  change (wire s0) with (wire st).
  pose proof (get_total_wire f (wire st)) as Hw.
  pose proof (get_total_nonneg f (wire st)) as Hn.
  destruct (get_total_with_filters f (wire st)) as [r w1].
  cbn [fst snd] in Ht, Hw, Hn. subst r.
  destruct (Z.eqb_spec total 0) as [-> | Hne].
  - cbn [ret]. intros Hf. injection Hf as _ <-. cbn [wire]. rewrite Hw.
    cbn. split; [reflexivity | rewrite app_nil_r; reflexivity].
  - intros Hf. apply pages_loop_wire in Hf.
    + cbn [wire] in Hf. rewrite Hw in Hf. cbn [requests slept] in Hf.
      rewrite <- !app_assoc in Hf. exact Hf.
    + assert (0 < Py.ceil_div total RESULTS_PER_PAGE); [| lia].
      unfold Py.ceil_div, RESULTS_PER_PAGE.
      assert (- total / 160 < 0); [| lia].
      apply Z.div_lt_upper_bound; lia.
Qed.

(** X9: a failed request for the total is an empty search to
    [fetch_all_pages_for_filters]: it returns no row and raises nothing,
    having sent this one request; the shared set of keys and the files
    are as they were. *)
Theorem fetch_all_pages_hides_a_failure (f : filters) (delay : float)
    (st : state) :
  failed (fst (urlopen (page_query f 1) (net (wire st)))) = true ->
  fetch_all_pages_for_filters f delay st
  = (Ok [],
     {| wire := {| net := snd (urlopen (page_query f 1) (net (wire st)));
                   requests := requests (wire st) ++ [page_query f 1];
                   slept := slept (wire st) |};
        seen_ids := seen_ids st; rows_total := rows_total st;
        report_file := report_file st;
        rattrapage_file := rattrapage_file st;
        birth_file := birth_file st; calls := calls st ++ [f] |}).
Proof.
  intros Hf. unfold fetch_all_pages_for_filters.
  rewrite bind_unfold. cbn [log_call modify].
  rewrite bind_unfold. unfold on_wire at 1. cbn [wire].
  pose proof (get_total_wire f (wire st)) as Hw.
  pose proof (get_total_failed f (wire st) Hf) as Hz.
  destruct (get_total_with_filters f (wire st)) as [r w1].
  cbn [fst snd] in Hw, Hz. subst r w1. reflexivity.
Qed.

End Totals.

Lemma fetch_all_pages_asks_each_page_witness :
  requests (YS.wire (snd (@YS.fetch_all_pages_for_filters unused scripted
                            (YS.by_nationality "FR") 1%float
                            (ys_start doubled_page None))))
  = [ page_query (YS.by_nationality "FR") 1;
      page_query (YS.by_nationality "FR") 1 ].
Proof.
  apply (proj1 (@fetch_all_pages_asks_each_page unused scripted
                  (YS.by_nationality "FR") 1%float
                  (ys_start doubled_page None) _ _ 2 eq_refl
                  (pair_of_fst _ _ eq_refl))).
Defined.

Lemma fetch_all_pages_hides_a_failure_witness :
  fst (@YS.fetch_all_pages_for_filters unused scripted
         (YS.by_nationality "FR") 1%float (ys_start [ URLError ] None))
  = Ok [].
Proof.
  rewrite (@fetch_all_pages_hides_a_failure unused scripted
             (YS.by_nationality "FR") 1%float (ys_start [ URLError ] None)
             eq_refl).
  reflexivity.
Defined.

(** ** Country by country *)

Section Country.
Import YS.
Context `{Builtins} `{Remote}.

Lemma yields_lift {S A} (Q : A -> Prop) (r : result A) :
  (forall a, r = Ok a -> Q a) -> yields (S := S) Q (lift_result r).
Proof.
  intros Hr s. unfold lift_result. cbn [fst].
  destruct r; [apply Hr; reflexivity | exact I].
Qed.

Lemma make_row_keys (f : filters) (item : json) (eid : string) (nurl : json)
    (r : row) :
  make_row f item eid nurl = Ok r -> r.*1 = fieldnames.
Proof.
  intros Hm. unfold make_row in Hm. unchain Hm. injection Hm as <-.
  reflexivity.
Qed.

Lemma fielded_snoc (rows : list row) (r : row) :
  fielded rows -> r.*1 = fieldnames -> fielded (rows ++ [r]).
Proof.
  intros Hf Hr. apply Forall_app. split; [exact Hf |].
  apply Forall_singleton, Hr.
Qed.

Lemma fielded_app (rows more : list row) :
  fielded rows -> fielded more -> fielded (rows ++ more).
Proof. intros Hf Hm. apply Forall_app. split; assumption. Qed.

Lemma items_loop_fielded (f : filters) (page : Z) (items : list json) :
  forall rows, fielded rows -> yields fielded (items_loop f page items rows).
Proof.
  induction items as [| item rest IH]; intros rows Hf; cbn [items_loop];
    [apply yields_ret, Hf |].
  apply yields_then. intros eid. apply yields_then. intros nurl.
  apply yields_then. intros key. apply yields_then. intros s0.
  apply yields_then. intros present. destruct present; [apply IH, Hf |].
  apply yields_then. intros _.
  apply (yields_bind (fun r => r.*1 = fieldnames)).
  - apply yields_lift. intros r. apply make_row_keys.
  - intros r Hr. apply IH, fielded_snoc; assumption.
Qed.

Lemma pages_loop_fielded (f : filters) (delay : float) (num_pages : Z)
    (left : nat) :
  forall page rows,
    fielded rows -> yields fielded (pages_loop f delay page num_pages left rows).
Proof.
  induction left as [| left IH]; intros page rows Hf; cbn [pages_loop];
    [apply yields_ret, Hf |].
  apply yields_then. intros data. apply yields_then. intros items.
  apply (yields_bind fielded); [apply items_loop_fielded, Hf |].
  intros rows' Hf'. apply yields_then. intros _. apply IH, Hf'.
Qed.

Lemma fetch_all_fielded (f : filters) (delay : float) :
  yields fielded (fetch_all_pages_for_filters f delay).
Proof.
  unfold fetch_all_pages_for_filters. apply yields_then. intros _.
  apply yields_then. intros total.
  destruct (total =? 0); [apply yields_ret; constructor |].
  apply pages_loop_fielded. constructor.
Qed.

Lemma ages_loop_fielded (country sex : string) (delay : float)
    (ages : list Z) :
  forall all_rows,
    fielded all_rows ->
    yields fielded (ages_loop country sex delay ages all_rows).
Proof.
  induction ages as [| age rest IH]; intros all_rows Hf; cbn [ages_loop];
    [apply yields_ret, Hf |].
  apply yields_then. intros total_age.
  destruct (0 <? total_age); [| apply IH, Hf].
  apply (yields_bind fielded); [apply fetch_all_fielded |].
  intros rows Hr. apply IH, fielded_app; assumption.
Qed.

Lemma sexes_loop_fielded (country : string) (delay : float)
    (sexes : list string) :
  forall all_rows,
    fielded all_rows -> yields fielded (sexes_loop country delay sexes all_rows).
Proof.
  induction sexes as [| sex rest IH]; intros all_rows Hf; cbn [sexes_loop];
    [apply yields_ret, Hf |].
  apply yields_then. intros total_sex.
  destruct (total_sex =? 0); [apply IH, Hf |].
  destruct (total_sex <=? 160).
  - apply (yields_bind fielded); [apply fetch_all_fielded |].
    intros rows Hr. apply IH, fielded_app; assumption.
  - apply (yields_bind fielded); [apply ages_loop_fielded, Hf |].
    intros rows Hr. apply IH, Hr.
Qed.

Lemma smart_fetch_country_fielded (country : string) (delay : float) :
  yields fielded (smart_fetch_country country delay).
Proof.
  unfold smart_fetch_country. apply yields_then. intros total_country.
  apply (yields_bind fielded).
  { destruct (total_country <=? 160);
      [apply fetch_all_fielded | apply sexes_loop_fielded; constructor]. }
  intros all_rows Hf. apply yields_then. intros total_birth_country.
  destruct (_ && _); [| apply yields_ret, Hf].
  apply (yields_bind fielded); [apply fetch_all_fielded |].
  intros rows Hr. apply yields_ret, fielded_app; assumption.
Qed.

(** The rows so far, [acc ++ all_rows], stay consistent with the shared set
    through a loop that hands [all_rows] on. *)
Lemma after_fetch_here (acc rows : list row) (st : state) :
  consistent (seen_ids st) (acc ++ rows) ->
  after_fetch (seen_ids st) acc (Ok rows, st).
Proof. intros Hc. split; [intros x Hx; exact Hx | exact Hc]. Qed.

Lemma fetch_then_consistent (f : filters) (delay : float)
    (acc all_rows : list row) (k : list row -> M state (list row))
    (st : state) :
  consistent (seen_ids st) (acc ++ all_rows) ->
  (forall rows s, consistent (seen_ids s) (acc ++ (all_rows ++ rows)) ->
                  after_fetch (seen_ids s) acc (k rows s)) ->
  after_fetch (seen_ids st) acc
    (bind (fetch_all_pages_for_filters f delay) k st).
Proof.
  intros Hc Hk.
  pose proof (fetch_all_consistent f delay (acc ++ all_rows) st Hc)
    as [Hgrow Hres].
  rewrite bind_unfold.
  destruct (fetch_all_pages_for_filters f delay st) as [[rows | e] s];
    cbn [fst snd] in Hgrow, Hres.
  - apply (after_fetch_weaken _ (seen_ids s)); [exact Hgrow |].
    apply Hk. rewrite app_assoc. exact Hres.
  - split; [exact Hgrow |]. cbn [fst snd].
    apply (consistent_prefix _ _ all_rows), Hres.
Qed.

Lemma total_then_consistent (f : filters) (acc all_rows : list row)
    (k : Z -> M state (list row)) (st : state) :
  consistent (seen_ids st) (acc ++ all_rows) ->
  (forall total s, consistent (seen_ids s) (acc ++ all_rows) ->
                   seen_ids s = seen_ids st ->
                   after_fetch (seen_ids s) acc (k total s)) ->
  after_fetch (seen_ids st) acc
    (bind (on_wire (get_total_with_filters f)) k st).
Proof.
  intros Hc Hk. pose proof (on_wire_seen (get_total_with_filters f) st) as Hw.
  rewrite bind_unfold.
  destruct (on_wire (get_total_with_filters f) st) as [[total | e] s];
    cbn [snd] in Hw; rewrite <- Hw in *.
  - apply Hk; [exact Hc | reflexivity].
  - apply (after_fetch_raise _ all_rows), Hc.
Qed.

Lemma ages_loop_consistent (country sex : string) (delay : float)
    (acc : list row) (ages : list Z) :
  forall all_rows st,
    consistent (seen_ids st) (acc ++ all_rows) ->
    after_fetch (seen_ids st) acc
      (ages_loop country sex delay ages all_rows st).
Proof.
  induction ages as [| age rest IH]; intros all_rows st Hc; cbn [ages_loop];
    [apply after_fetch_here, Hc |].
  apply (total_then_consistent _ _ all_rows); [exact Hc |].
  intros total s Hs _. destruct (0 <? total); [| apply IH, Hs].
  apply (fetch_then_consistent _ _ _ all_rows); [exact Hs |].
  intros rows s' Hs'. apply IH, Hs'.
Qed.

Lemma sexes_loop_consistent (country : string) (delay : float)
    (acc : list row) (sexes : list string) :
  forall all_rows st,
    consistent (seen_ids st) (acc ++ all_rows) ->
    after_fetch (seen_ids st) acc (sexes_loop country delay sexes all_rows st).
Proof.
  induction sexes as [| sex rest IH]; intros all_rows st Hc; cbn [sexes_loop];
    [apply after_fetch_here, Hc |].
  apply (total_then_consistent _ _ all_rows); [exact Hc |].
  intros total s Hs _. destruct (total =? 0); [apply IH, Hs |].
  destruct (total <=? 160).
  - apply (fetch_then_consistent _ _ _ all_rows); [exact Hs |].
    intros rows s' Hs'. apply IH, Hs'.
  - pose proof (ages_loop_consistent country sex delay acc all_ages
                  all_rows s Hs) as [Hgrow Hres].
    rewrite bind_unfold.
    destruct (ages_loop country sex delay all_ages all_rows s)
      as [[rows | e] s']; cbn [fst snd] in Hgrow, Hres.
    + apply (after_fetch_weaken _ (seen_ids s')); [exact Hgrow |].
      apply IH, Hres.
    + split; [exact Hgrow | exact Hres].
Qed.

Lemma smart_fetch_country_consistent (country : string) (delay : float)
    (acc : list row) (st : state) :
  consistent (seen_ids st) acc ->
  after_fetch (seen_ids st) acc (smart_fetch_country country delay st).
Proof.
  intros Hc. unfold smart_fetch_country.
  assert (consistent (seen_ids st) (acc ++ [])) as Hc0
    by (rewrite app_nil_r; exact Hc).
  apply (total_then_consistent _ _ []); [exact Hc0 |].
  intros total_country s Hs _.
  assert (after_fetch (seen_ids s) acc
            ((if total_country <=? 160
              then fetch_all_pages_for_filters (by_nationality country) delay
              else sexes_loop country delay [ "M"; "F"; "U" ] []) s))
    as [Hgrow Hres].
  { destruct (total_country <=? 160).
    - rewrite app_nil_r in Hs. apply fetch_all_consistent, Hs.
    - apply sexes_loop_consistent, Hs. }
  rewrite bind_unfold.
  destruct ((if total_country <=? 160
             then fetch_all_pages_for_filters (by_nationality country) delay
             else sexes_loop country delay [ "M"; "F"; "U" ] []) s)
    as [[all_rows | e] s1]; cbn [fst snd] in Hgrow, Hres;
    [| split; [exact Hgrow | exact Hres]].
  apply (after_fetch_weaken _ (seen_ids s1)); [exact Hgrow |].
  apply (total_then_consistent _ _ all_rows); [exact Hres |].
  intros total_birth s2 Hs2 _.
  destruct (_ && _); [| apply after_fetch_here, Hs2].
  apply (fetch_then_consistent _ _ _ all_rows); [exact Hs2 |].
  intros rows s3 Hs3. apply after_fetch_here, Hs3.
Qed.

(** X10: the searches of [smart_fetch_country] (by nationality, by sex, by
    slice of age, by country of birth) overlap, and the shared set of keys
    keeps their rows apart: when the rows collected so far carry different
    entity_ids (the empty one apart), all of them in the shared set, the
    same holds of these rows with the rows of the country added, and of
    the rows collected so far alone if the country raises; the shared set
    loses no key; and every row returned has the 27 field names. *)
Theorem smart_fetch_country_keeps_rows_apart (country : string)
    (delay : float) (acc : list row) (st : state) :
  consistent (seen_ids st) acc ->
  (forall x, x ∈ seen_ids st ->
             x ∈ seen_ids (snd (smart_fetch_country country delay st)))
  /\ match fst (smart_fetch_country country delay st) with
     | Ok rows =>
         consistent (seen_ids (snd (smart_fetch_country country delay st)))
           (acc ++ rows)
         /\ NoDup (named (acc ++ rows))
         /\ fielded rows
     | Raise _ =>
         consistent (seen_ids (snd (smart_fetch_country country delay st))) acc
     end.
Proof.
  intros Hc.
  destruct (smart_fetch_country_consistent country delay acc st Hc)
    as [Hgrow Hres].
  pose proof (smart_fetch_country_fielded country delay st) as Hf.
  split; [exact Hgrow |].
  destruct (fst (smart_fetch_country country delay st)); [| exact Hres].
  split; [exact Hres |]. split; [apply Hres | exact Hf].
Qed.

End Country.

Lemma smart_fetch_country_keeps_rows_apart_witness :
  match fst (@YS.smart_fetch_country unused scripted "FR" 1%float
               (ys_resumed overlapping_searches)) with
  | Ok rows =>
      row_eid <$> rows = [ "a"; "b"; "c" ]
      /\ NoDup (named (collected ++ rows))
      /\ fielded rows
  | Raise _ => False
  end.
Proof.
  assert (consistent [ JStr "z" ] collected) as Hseen.
  { split; [apply NoDup_singleton |].
    intros e He _. apply list_elem_of_singleton in He. subst e.
    apply list_elem_of_here. }
  pose proof (@smart_fetch_country_keeps_rows_apart unused scripted "FR"
                1%float collected (ys_resumed overlapping_searches) Hseen)
    as [_ Hres].
  destruct (fst (@YS.smart_fetch_country unused scripted "FR" 1%float
                   (ys_resumed overlapping_searches)))
    as [rows | e] eqn:E; vm_compute in E; [| discriminate E].
  injection E as <-. split; [reflexivity |]. apply Hres.
Defined.

(** ** The run of yellow_scraper.py, and its retries *)

Section YsRun.
Import YS.
Context `{Builtins} `{Remote}.

Lemma write_all_fielded (rows : list row) :
  forall written c,
    fielded rows ->
    write_all rows written c
    = (Ok tt, {| fetches := fetches c; all_file := Some (written ++ rows) |}).
Proof.
  induction rows as [| r rest IH]; intros written c Hf; cbn [write_all].
  - rewrite app_nil_r. reflexivity.
  - apply Forall_cons in Hf as [Hr Hf]. rewrite Hr.
    replace (forallb (fun k => bool_decide (k ∈ fieldnames)) fieldnames)
      with true by (vm_compute; reflexivity).
    rewrite (IH _ _ Hf), <- app_assoc. reflexivity.
Qed.

Lemma harvest_cons (country : string) (rest : list string) (s : state) :
  harvest (country :: rest) s
  = (match fst (smart_fetch_country country DELAY s) with
     | Ok rows => rows
     | Raise _ => []
     end
     ++ fst (harvest rest
               (snd (on_wire (sleep (DELAY * 2)%float)
                       (snd (smart_fetch_country country DELAY s))))),
     snd (harvest rest
            (snd (on_wire (sleep (DELAY * 2)%float)
                    (snd (smart_fetch_country country DELAY s)))))).
Proof.
  cbn [harvest]. destruct (smart_fetch_country country DELAY s) as [r s1].
  cbn [fst snd]. destruct (harvest rest _) as [more s']. reflexivity.
Qed.

(** One country of [run]: the rows so far, with those of the country if it
    returned. *)
Lemma run_country (country : string) (all_rows : list row) (c : crawl) :
  consistent (seen_ids (fetches c)) all_rows -> fielded all_rows ->
  exists rows,
    on_fetches (try_except (smart_fetch_country country DELAY)) c
    = (Ok rows,
       {| fetches := snd (smart_fetch_country country DELAY (fetches c));
          all_file := all_file c |})
    /\ default [] rows
       = match fst (smart_fetch_country country DELAY (fetches c)) with
         | Ok rows => rows
         | Raise _ => []
         end
    /\ consistent
         (seen_ids (snd (smart_fetch_country country DELAY (fetches c))))
         (all_rows ++ default [] rows)
    /\ fielded (all_rows ++ default [] rows).
Proof.
  intros Hc Hf. unfold on_fetches, try_except.
  pose proof (smart_fetch_country_consistent country DELAY all_rows
                (fetches c) Hc) as [_ Hres].
  pose proof (smart_fetch_country_fielded country DELAY (fetches c)) as Hrows.
  destruct (smart_fetch_country country DELAY (fetches c)) as [[rows | e] s];
    cbn [fst snd] in Hres, Hrows |- *.
  - exists (Some rows). split; [reflexivity |]. split; [reflexivity |].
    split; [exact Hres | apply fielded_app; assumption].
  - exists None. cbn [default]. rewrite app_nil_r.
    split; [reflexivity |]. split; [reflexivity |]. split; assumption.
Qed.

(** The loop of [run] gathers what the countries give, whatever the
    checkpoints. *)
Lemma run_loop_ok (todo : list string) :
  forall i all_rows c,
    consistent (seen_ids (fetches c)) all_rows -> fielded all_rows ->
    exists c',
      run_loop i todo all_rows c
      = (Ok (all_rows ++ fst (harvest todo (fetches c))), c')
      /\ fetches c' = snd (harvest todo (fetches c))
      /\ consistent (seen_ids (fetches c'))
           (all_rows ++ fst (harvest todo (fetches c)))
      /\ fielded (all_rows ++ fst (harvest todo (fetches c)))
      /\ checkpointed (all_file c)
           (all_rows ++ fst (harvest todo (fetches c))) c'.
Proof.
  induction todo as [| country rest IH]; intros i all_rows c Hc Hf;
    cbn [run_loop].
  { exists c. cbn [harvest fst snd]. rewrite app_nil_r.
    split; [reflexivity |]. split; [reflexivity |].
    split; [exact Hc |]. split; [exact Hf |]. left. reflexivity. }
  rewrite harvest_cons. cbn [fst snd].
  destruct (run_country country all_rows c Hc Hf)
    as (got & Hrun & Hgot & Hc1 & Hf1).
  rewrite bind_unfold, Hrun. cbv beta iota.
  rewrite <- Hgot, app_assoc.
  set (s := snd (smart_fetch_country country DELAY (fetches c))) in *.
  set (s1 := snd (on_wire (sleep (DELAY * 2)%float) s)) in *.
  assert (on_fetches (on_wire (sleep (DELAY * 2)%float))
            {| fetches := s; all_file := all_file c |}
          = (Ok tt, {| fetches := s1; all_file := all_file c |})) as Hsleep
    by reflexivity.
  assert (seen_ids s1 = seen_ids s) as Hs1 by reflexivity.
  rewrite <- Hs1 in Hc1. clearbody s1. clearbody s.
  rewrite bind_unfold, Hsleep. cbv beta iota.
  rewrite bind_unfold.
  destruct (i mod 5 =? 0).
  - rewrite (write_all_fielded _ [] _ Hf1). cbn [fetches app]. cbv beta iota.
    set (c2 := {| fetches := s1 |}).
    destruct (IH (i + 1) (all_rows ++ default [] got) c2 Hc1 Hf1)
      as (c' & Hl & Hs' & Hc' & Hf' & Hcp).
    exists c'. split; [exact Hl |]. split; [exact Hs' |].
    split; [exact Hc' |]. split; [exact Hf' |].
    right. destruct Hcp as [Hsame | Hnew]; [| exact Hnew].
    eexists. split; [exact Hsame |]. apply prefix_app_r. reflexivity.
  - cbn [ret]. set (c2 := {| fetches := s1 |}).
    destruct (IH (i + 1) (all_rows ++ default [] got) c2 Hc1 Hf1)
      as (c' & Hl & Hs' & Hc' & Hf' & Hcp).
    exists c'. split; [exact Hl |]. split; [exact Hs' |].
    split; [exact Hc' |]. split; [exact Hf' |].
    destruct Hcp as [Hsame | (written & Hw & Hpre)];
      [left; exact Hsame | right; exists written; split; assumption].
Qed.

(** X11: [run] returns, whatever the server answers, and the file it
    leaves holds what the 676 countries gave, AA to ZZ in this order: the
    rows each call of [smart_fetch_country] returned, starting from an
    empty set of keys, and none for a country that raised; the
    checkpoints change nothing of it. Each row has the 27 field names of
    the writer (which has no key to refuse), and no two rows have the
    same entity_id, the empty one apart; the ids of the rows are in the
    set of keys. *)
Theorem run_leaves_distinct_rows (c : crawl) :
  exists rows s',
    harvest countries (snd (set_seen_ids [] (fetches c))) = (rows, s')
    /\ run c = (Ok tt, {| fetches := s'; all_file := Some rows |})
    /\ fielded rows
    /\ NoDup (named rows)
    /\ consistent (seen_ids s') rows
    /\ length countries = 676%nat.
Proof.
  unfold run. rewrite bind_unfold. unfold on_fetches at 1.
  set (s0 := snd (set_seen_ids [] (fetches c))).
  change (set_seen_ids [] (fetches c)) with (Ok tt, s0).
  cbv beta iota. set (c0 := {| fetches := s0 |}).
  assert (consistent (seen_ids (fetches c0)) []) as Hc0
    by (split; [constructor | intros e He; inversion He]).
  destruct (run_loop_ok countries 1 [] c0 Hc0 (Forall_nil_2 _))
    as (c' & Hl & Hs' & Hc' & Hf' & _).
  cbn [app fetches] in Hl, Hs', Hc', Hf'. subst c0.
  exists (fst (harvest countries s0)), (snd (harvest countries s0)).
  split; [destruct (harvest countries s0); reflexivity |].
  rewrite bind_unfold, Hl. cbv beta iota.
  rewrite (write_all_fielded _ [] c' Hf'). cbn [app]. rewrite Hs' in *.
  split; [reflexivity |]. split; [exact Hf' |].
  split; [apply Hc' |]. split; [exact Hc' | reflexivity].
Qed.

Lemma retry_file_steady (b : option (list row)) : steady (retry_file_is b).
Proof.
  split.
  - intros seen s Hs. exact Hs.
  - intros A m _. apply preserves_on_wire. intros s w sn Hs. exact Hs.
Qed.

Lemma fetch_all_retry_file (b : option (list row)) (f : filters)
    (delay : float) :
  preserves (retry_file_is b) (fetch_all_pages_for_filters f delay).
Proof.
  unfold fetch_all_pages_for_filters. apply preserves_bind.
  - intros s Hs. exact Hs.
  - intros _. apply fetch_all_steady, retry_file_steady.
Qed.

Lemma retry_loop_ok (missing_countries : list string) :
  forall completed st,
    consistent (seen_ids st) completed -> fielded completed ->
    exists rows st',
      retry_loop missing_countries completed st = (Ok rows, st')
      /\ consistent (seen_ids st') rows /\ fielded rows
      /\ rattrapage_file st' = rattrapage_file st.
Proof.
  induction missing_countries as [| country rest IH]; intros completed st Hc Hf;
    cbn [retry_loop].
  { exists completed, st. split; [reflexivity |]. split; [exact Hc |].
    split; [exact Hf | reflexivity]. }
  rewrite bind_unfold. unfold try_except.
  pose proof (fetch_all_consistent (by_nationality country) 1.5%float
                completed st Hc) as [_ Hres].
  pose proof (fetch_all_fielded (by_nationality country) 1.5%float st) as Hrows.
  pose proof (fetch_all_retry_file (rattrapage_file st)
                (by_nationality country) 1.5%float st eq_refl) as Hfile.
  destruct (fetch_all_pages_for_filters (by_nationality country) 1.5%float st)
    as [[rows | e] s]; cbn [fst snd default] in *.
  - destruct (IH (completed ++ rows) s Hres (fielded_app _ _ Hf Hrows))
      as (rows' & st' & Hl & Hc' & Hf' & Hfile').
    exists rows', st'. split; [exact Hl |]. split; [exact Hc' |].
    split; [exact Hf' |]. rewrite Hfile'. exact Hfile.
  - rewrite app_nil_r.
    destruct (IH completed s Hres Hf) as (rows' & st' & Hl & Hc' & Hf' & Hfile').
    exists rows', st'. split; [exact Hl |]. split; [exact Hc' |].
    split; [exact Hf' |]. rewrite Hfile'. exact Hfile.
Qed.

(** X12: [auto_rattrapage], up to the file it writes, returns whatever the
    server answers, a country that raises passed over; the retry file is
    as it was, or holds the rows of the retried countries: at least one
    row, each with the 27 field names and no two with the same entity_id,
    the empty one apart. *)
Theorem auto_rattrapage_leaves_distinct_rows (threshold : float) (st : state) :
  exists st',
    auto_rattrapage threshold st = (Ok tt, st')
    /\ (rattrapage_file st' = rattrapage_file st
        \/ exists rows,
             rattrapage_file st' = Some rows
             /\ rows <> [] /\ fielded rows /\ NoDup (named rows)).
Proof.
  unfold auto_rattrapage. rewrite bind_unfold. cbn [get_state].
  destruct (report_file st) as [df |];
    [| exists st; split; [reflexivity | left; reflexivity]].
  destruct (below threshold df) as [| country rest] eqn:Hb;
    [exists st; split; [reflexivity | left; reflexivity] |].
  rewrite bind_unfold. cbn [set_seen_ids modify]. set (s0 := {| wire := _ |}).
  assert (consistent (seen_ids s0) []) as Hc0
    by (split; [constructor | intros e He; inversion He]).
  destruct (retry_loop_ok (country :: rest) [] s0 Hc0 (Forall_nil_2 _))
    as (rows & st' & Hl & Hc' & Hf' & Hfile).
  rewrite bind_unfold, Hl.
  destruct rows as [| r rows].
  - exists st'. split; [reflexivity |]. left. rewrite Hfile. reflexivity.
  - eexists. split; [reflexivity |]. right. exists (r :: rows).
    split; [reflexivity |]. split; [discriminate |].
    split; [exact Hf' | apply Hc'].
Qed.

End YsRun.

(** ** The retry by country of birth *)

Section Birth.
Import YS.
Context `{Builtins} `{Remote}.

Lemma birth_known_on_wire {A} (m : M io A) :
  preserves birth_known (on_wire m).
Proof.
  intros s Hs. unfold on_wire. destruct (m (wire s)) as [r w]. exact Hs.
Qed.

Lemma birth_known_seen (s : state) (key : json) :
  birth_known s ->
  birth_known
    {| wire := wire s; seen_ids := seen_ids s ++ [key];
       rows_total := rows_total s; report_file := report_file s;
       rattrapage_file := rattrapage_file s; birth_file := birth_file s;
       calls := calls s |}.
Proof.
  intros [Hc Hk]. split; [| exact Hk]. cbn [seen_ids rows_total].
  apply (consistent_mono (seen_ids s)); [| exact Hc].
  intros x Hx. apply elem_of_app. left. exact Hx.
Qed.

Lemma birth_items_known (country : string) (items : list json) :
  preserves birth_known (birth_items country items).
Proof.
  induction items as [| item rest IH]; cbn [birth_items];
    [apply preserves_ret |].
  apply preserves_bind_lift. intros eid He.
  apply preserves_bind_lift. intros nurl Hu.
  apply preserves_bind_get. intros s Hs.
  rewrite bind_unfold.
  destruct (negb (Py.truthy (if negb (String.eqb eid "") then JStr eid else nurl)))
    eqn:Ht; [apply IH, Hs |].
  unfold lift_result at 1.
  destruct (Py.set_mem _ (seen_ids s)) as [present | e] eqn:Hm; [| exact Hs].
  destruct present; [apply IH, Hs |].
  rewrite bind_unfold. cbn [set_seen_ids modify].
  rewrite bind_unfold. unfold lift_result at 1.
  match goal with
  | |- context [match ?r with Ok _ => _ | Raise _ => _ end] =>
      destruct r as [r' | e] eqn:Hr
  end; [| apply birth_known_seen, Hs].
  unchain Hr. injection Hr as <-.
  rewrite bind_unfold. cbn [get_state].
  apply IH. destruct Hs as [Hc Hk]. split; cbn [seen_ids rows_total].
  - apply consistent_snoc; [exact Hc |].
    change (row_eid _) with eid. intros Hne.
    destruct (String.eqb_spec eid ""); [contradiction |]. cbn [negb] in *.
    split; [reflexivity | apply set_mem_str_false, Hm].
  - apply Forall_app. split; [exact Hk |]. apply Forall_singleton.
    unfold keyed. change (row_eid _) with eid. change (row_url _) with nurl.
    destruct (String.eqb_spec eid ""); cbn [negb] in Ht; [| left; assumption].
    right. apply negb_false_iff, Ht.
Qed.

Lemma birth_pages_known (country : string) (left : nat) :
  forall page, preserves birth_known (birth_pages country page left).
Proof.
  induction left as [| left IH]; intros page; cbn [birth_pages];
    [apply preserves_ret |].
  apply preserves_bind; [apply birth_known_on_wire | intros data].
  apply preserves_bind; [apply preserves_lift | intros notices].
  apply preserves_bind; [apply birth_items_known | intros _].
  apply preserves_bind; [apply birth_known_on_wire | intros _]. apply IH.
Qed.

Lemma birth_loop_known (countries_to_retry : list string) :
  preserves birth_known (birth_loop countries_to_retry).
Proof.
  induction countries_to_retry as [| country rest IH]; cbn [birth_loop];
    [apply preserves_ret |].
  apply preserves_bind; [| intros _; exact IH].
  apply preserves_try. unfold birth_country.
  apply preserves_bind; [apply birth_known_on_wire | intros data].
  apply preserves_bind; [apply preserves_lift | intros t].
  apply preserves_bind; [apply preserves_lift | intros total].
  destruct (total =? 0); [apply preserves_ret | apply birth_pages_known].
Qed.

Lemma birth_loop_returns (countries_to_retry : list string) :
  forall st, fst (birth_loop countries_to_retry st) = Ok tt.
Proof.
  induction countries_to_retry as [| country rest IH]; intros st;
    cbn [birth_loop]; [reflexivity |].
  rewrite bind_unfold. unfold try_except.
  destruct (birth_country country st) as [[[] | e] s]; apply IH.
Qed.

(** X13: [rattrapage_par_pays_naissance], up to the file it writes, returns
    whatever the server answers, a country that raises passed over; the
    birth-country file is as it was, or holds the rows of the pass: at
    least one row, each with an entity_id or a URL (an item with neither
    is dropped) and no two with the same entity_id, the empty one
    apart. *)
Theorem birth_pass_leaves_distinct_rows (threshold : float) (st : state) :
  exists st',
    rattrapage_par_pays_naissance threshold st = (Ok tt, st')
    /\ (birth_file st' = birth_file st
        \/ exists rows,
             birth_file st' = Some rows
             /\ rows <> [] /\ Forall keyed rows /\ NoDup (named rows)).
Proof.
  unfold rattrapage_par_pays_naissance. rewrite bind_unfold. cbn [get_state].
  destruct (report_file st) as [df |];
    [| exists st; split; [reflexivity | left; reflexivity]].
  destruct (below threshold df) as [| c cs];
    [exists st; split; [reflexivity | left; reflexivity] |].
  rewrite bind_unfold. cbn [set_seen_ids modify].
  rewrite bind_unfold. cbn [set_rows_total modify].
  set (s1 := {| wire := _ |}).
  assert (birth_inv (birth_file st) s1) as H1
    by (split; [reflexivity | constructor]).
  assert (birth_known s1) as H2.
  { split; [| constructor]. split; [constructor | intros e He; inversion He]. }
  pose proof (birth_loop_shaped _ (c :: cs) s1 H1) as [Hb _].
  pose proof (birth_loop_known (c :: cs) s1 H2) as [Hc Hk].
  pose proof (birth_loop_returns (c :: cs) s1) as Hret.
  rewrite bind_unfold.
  destruct (birth_loop (c :: cs) s1) as [r s2]; cbn [fst snd] in *. subst r.
  rewrite bind_unfold. cbn [get_state].
  destruct (rows_total s2) as [| r rows] eqn:Hr.
  - exists s2. split; [reflexivity | left; exact Hb].
  - eexists. split; [reflexivity |]. right. exists (r :: rows).
    split; [reflexivity |]. split; [discriminate |].
    split; [exact Hk | apply Hc].
Qed.

End Birth.

(** ** The crawl of the red notices *)

Section Red.
Import Main.
Context `{Builtins} `{Remote} `{Requests}.

Lemma extract_notice_info_keys (notice : json) (r : row) :
  extract_notice_info notice = Ok r -> r.*1 = notice_fields.
Proof.
  intros He. unfold extract_notice_info in He. unchain He.
  injection He as <-. reflexivity.
Qed.

Lemma listed_snoc (rows : list row) (r : row) :
  listed rows -> r.*1 = notice_fields -> listed (rows ++ [r]).
Proof.
  intros Hl Hr. apply Forall_app. split; [exact Hl |].
  apply Forall_singleton, Hr.
Qed.

Lemma notices_loop_listed (get_full_details : bool) (notices : list json) :
  forall all_notices,
    listed all_notices ->
    yields listed (notices_loop get_full_details notices all_notices).
Proof.
  induction notices as [| notice rest IH]; intros all_notices Hl;
    cbn [notices_loop]; [apply yields_ret, Hl |].
  apply yields_then. intros entity_id.
  apply (yields_bind (fun r => r.*1 = notice_fields)).
  - destruct (_ && _).
    + apply yields_then. intros detailed_notice.
      apply (yields_bind (fun r => r.*1 = notice_fields)).
      * apply yields_lift. intros r.
        destruct (Py.truthy detailed_notice); apply extract_notice_info_keys.
      * intros r Hr. apply yields_then. intros _. apply yields_ret, Hr.
    + apply yields_lift. intros r. apply extract_notice_info_keys.
  - intros r Hr. apply IH, listed_snoc; assumption.
Qed.

Lemma pages_loop_listed (get_full_details : bool) (fuel : nat) :
  forall page all_notices,
    listed all_notices ->
    yields listed_output (pages_loop fuel get_full_details page all_notices).
Proof.
  induction fuel as [| fuel IH]; intros page all_notices Hl; cbn [pages_loop];
    [apply yields_ret; exact I |].
  apply yields_then. intros data. apply yields_then. intros usable.
  destruct usable; [| apply yields_ret, Hl].
  apply yields_then. intros embedded. apply yields_then. intros notices.
  destruct (negb _); [apply yields_ret, Hl |].
  apply yields_then. intros _. apply yields_then. intros items.
  apply (yields_bind listed); [apply notices_loop_listed, Hl |].
  intros all_notices' Hl'. apply yields_then. intros total.
  apply yields_then. intros complete.
  destruct complete; [apply yields_ret, Hl' |].
  apply yields_then. intros _. apply IH, Hl'.
Qed.

Lemma app_not_self (s t : string) : t <> "" -> s +:+ t <> s.
Proof.
  intros Ht. induction s as [| c s IH]; cbn; [exact Ht |].
  intros Heq. injection Heq as Heq. apply IH, Heq.
Qed.

Lemma detail_is_no_page (entity_id : json) :
  String.eqb (base_url +:+ "/" +:+ Py.str entity_id) base_url = false.
Proof.
  apply String.eqb_neq, app_not_self. discriminate.
Qed.

Lemma list_pages_app (l l' : list request) :
  list_pages (l ++ l') = list_pages l ++ list_pages l'.
Proof. apply List.filter_app. Qed.

(** What [get_json] does to the network, and where its value comes from. *)
Lemma get_json_run (req : request) (st : state) :
  same_files st (snd (on_wire (get_json req) st))
  /\ net (wire (snd (on_wire (get_json req) st)))
     = snd (urlopen req (net (wire st)))
  /\ requests (wire (snd (on_wire (get_json req) st)))
     = requests (wire st) ++ [req]
  /\ forall data,
       fst (on_wire (get_json req) st) = Ok data ->
       Py.truthy data = true ->
       fst (urlopen req (net (wire st))) = Body data.
Proof.
  unfold on_wire, get_json. rewrite bind_unfold. unfold send.
  destruct (urlopen req (net (wire st))) as [o w].
  destruct o as [j | | | what]; cbn;
    try destruct json_error_is_request_exception; cbn;
    (split; [split; reflexivity |]); (split; [reflexivity |]);
    (split; [reflexivity |]); intros data Hd Ht;
    try discriminate; injection Hd as <-; try discriminate; reflexivity.
Qed.

Lemma same_files_refl (s : state) : same_files s s.
Proof. split; reflexivity. Qed.

Lemma same_files_trans (s s' s'' : state) :
  same_files s s' -> same_files s' s'' -> same_files s s''.
Proof. intros [Ha Hb] [Hc Hd]. split; congruence. Qed.

Lemma later_refl (s : state) : later s s.
Proof. exists []. reflexivity. Qed.

Lemma after_app (reqs reqs' : list request) :
  forall w, after (reqs ++ reqs') w = after reqs' (after reqs w).
Proof.
  induction reqs as [| r reqs IH]; intros w; cbn; [reflexivity | apply IH].
Qed.

Lemma later_trans (s s' s'' : state) : later s s' -> later s' s'' -> later s s''.
Proof.
  intros [r1 Ha] [r2 Hb]. exists (r1 ++ r2). rewrite after_app, <- Ha. exact Hb.
Qed.

Lemma modest_later (limit : Z) (s s' : state) :
  later s s' -> modest limit (net (wire s)) -> modest limit (net (wire s')).
Proof.
  intros [r Hr] Hm reqs req j t Hj Ht. rewrite Hr, <- after_app in Hj.
  exact (Hm _ _ _ _ Hj Ht).
Qed.

(** The record of one notice: no file touched, no page of the list asked
    for. *)
Lemma notice_info_run (get_full_details : bool) (notice entity_id : json)
    (st : state) (res : result row * state) :
  (if get_full_details && negb (Py.eqb entity_id (JStr "N/A")) then
     let* detailed_notice := on_wire (get_notice_detail entity_id) in
     let* notice_info :=
       lift_result
         (if Py.truthy detailed_notice
          then extract_notice_info detailed_notice
          else extract_notice_info notice) in
     on_wire (sleep 0x1.3333333333333p-2%float) ;;
     ret notice_info
   else lift_result (extract_notice_info notice)) st = res ->
  same_files st (snd res) /\ later st (snd res)
  /\ list_pages (requests (wire (snd res))) = list_pages (requests (wire st)).
Proof.
  destruct (_ && _).
  - destruct (get_json_run
                {| url := base_url +:+ "/" +:+ Py.str entity_id; params := [] |}
                st) as (Hf & Hn & Hq & _).
    fold (get_notice_detail entity_id) in Hf, Hn, Hq.
    assert (later st (snd (on_wire (get_notice_detail entity_id) st))) as Hl.
    { exists [ {| url := base_url +:+ "/" +:+ Py.str entity_id;
                  params := [] |} ].
      exact Hn. }
    assert (list_pages
              (requests (wire (snd (on_wire (get_notice_detail entity_id) st))))
            = list_pages (requests (wire st))) as Hp.
    { rewrite Hq, list_pages_app. unfold list_pages at 2.
      cbn [List.filter url]. rewrite detail_is_no_page. apply app_nil_r. }
    clear Hn Hq. step; cbn [snd] in Hf, Hl, Hp;
      [| intros <-; split; [exact Hf |]; split; [exact Hl | exact Hp]].
    step; unfold lift_result in E0; injection E0 as E0 <-;
      [| intros <-; split; [exact Hf |]; split; [exact Hl | exact Hp]].
    step; unfold on_wire, sleep, modify in E1; [| discriminate].
    injection E1 as _ <-. intros <-. cbn [ret snd wire requests json_file csv_file].
    split; [exact Hf |]. split; [| exact Hp].
    destruct Hl as [reqs Hl]. exists reqs. exact Hl.
  - unfold lift_result. intros <-. cbn [snd].
    split; [apply same_files_refl |]. split; [apply later_refl | reflexivity].
Qed.

(** The loop over the notices of a page touches no file and asks for no
    page of the list; it appends one record per notice. *)
Lemma notices_loop_run (get_full_details : bool) (notices : list json) :
  forall all_notices st,
    same_files st (snd (notices_loop get_full_details notices all_notices st))
    /\ later st (snd (notices_loop get_full_details notices all_notices st))
    /\ list_pages
         (requests (wire (snd (notices_loop get_full_details notices
                                 all_notices st))))
       = list_pages (requests (wire st))
    /\ forall rows,
         fst (notices_loop get_full_details notices all_notices st) = Ok rows ->
         length rows = (length all_notices + length notices)%nat.
Proof.
  induction notices as [| notice rest IH]; intros all_notices st;
    cbn [notices_loop].
  { cbn. split; [apply same_files_refl |]. split; [apply later_refl |].
    split; [reflexivity |]. intros rows Hr. injection Hr as <-. lia. }
  step; unfold lift_result in E; injection E as E <-.
  2: { cbn [fst snd]. split; [apply same_files_refl |].
       split; [apply later_refl |]. split; [reflexivity |].
       intros rows Hr. discriminate Hr. }
  step; apply notice_info_run in E0; cbn [snd] in E0;
    destruct E0 as (Hf & Hl & Hp).
  2: { cbn [fst snd]. split; [exact Hf |]. split; [exact Hl |].
       split; [exact Hp |]. intros rows Hr. discriminate Hr. }
  destruct (IH (all_notices ++ [a0]) s) as (Hf' & Hl' & Hp' & Hlen).
  split; [apply (same_files_trans _ s); assumption |].
  split; [apply (later_trans _ s); assumption |].
  split; [rewrite Hp'; exact Hp |].
  intros rows Hr. rewrite (Hlen rows Hr), length_app. cbn. lia.
Qed.

Lemma on_wire_sleep (d : float) (st st' : state) (r : result unit) :
  on_wire (sleep d) st = (r, st') ->
  r = Ok tt /\ same_files st st' /\ net (wire st') = net (wire st)
  /\ requests (wire st') = requests (wire st).
Proof.
  unfold on_wire, sleep, modify. intros Hs. injection Hs as <- <-.
  repeat split.
Qed.

(** The pages the loop asks for are consecutive, and no file is touched. *)
Lemma pages_loop_run (get_full_details : bool) (fuel : nat) :
  forall page all_notices st,
    same_files st (snd (pages_loop fuel get_full_details page all_notices st))
    /\ exists n,
         (n <= fuel)%nat
         /\ list_pages
              (requests (wire (snd (pages_loop fuel get_full_details page
                                      all_notices st))))
            = list_pages (requests (wire st)) ++ (red_page <$> pages_from page n).
Proof.
  induction fuel as [| fuel IH]; intros page all_notices st; cbn [pages_loop].
  { split; [apply same_files_refl |]. exists 0%nat. split; [lia |].
    cbn. rewrite app_nil_r. reflexivity. }
  destruct (get_json_run (red_page page) st) as (Hf & _ & Hq & _).
  change (get_json (red_page page)) with (get_notices page) in Hf, Hq.
  assert (forall s',
            same_files (snd (on_wire (get_notices page) st)) s' ->
            list_pages (requests (wire s'))
            = list_pages (requests (wire (snd (on_wire (get_notices page) st)))) ->
            same_files st s'
            /\ exists n,
                 (n <= S fuel)%nat
                 /\ list_pages (requests (wire s'))
                    = list_pages (requests (wire st))
                      ++ (red_page <$> pages_from page n)) as Hone.
  { intros s' Hf' Hp'. split; [apply (same_files_trans _ _ _ Hf Hf') |].
    exists 1%nat. split; [lia |]. rewrite Hp', Hq, list_pages_app.
    unfold list_pages at 2. cbn [List.filter red_page url].
    rewrite String.eqb_refl. reflexivity. }
  step; cbn [snd] in Hf, Hq, Hone;
    [| apply Hone; [apply same_files_refl | reflexivity]].
  step; unfold lift_result in E0; injection E0 as E0 <-;
    [| apply Hone; [apply same_files_refl | reflexivity]].
  destruct a0; [| apply Hone; [apply same_files_refl | reflexivity]].
  step; unfold lift_result in E1; injection E1 as E1 <-;
    [| apply Hone; [apply same_files_refl | reflexivity]].
  step; unfold lift_result in E2; injection E2 as E2 <-;
    [| apply Hone; [apply same_files_refl | reflexivity]].
  destruct (negb _); [apply Hone; [apply same_files_refl | reflexivity] |].
  step; unfold lift_result in E3; injection E3 as E3 <-;
    [| apply Hone; [apply same_files_refl | reflexivity]].
  step; unfold lift_result in E4; injection E4 as E4 <-;
    [| apply Hone; [apply same_files_refl | reflexivity]].
  destruct (notices_loop_run get_full_details a3 all_notices s)
    as (Hf1 & _ & Hp1 & _).
  step; cbn [snd] in Hf1, Hp1; [| apply Hone; assumption].
  step; unfold lift_result in E6; injection E6 as E6 <-;
    [| apply Hone; assumption].
  step; unfold lift_result in E7; injection E7 as E7 <-;
    [| apply Hone; assumption].
  destruct a6; [apply Hone; assumption |].
  step; apply on_wire_sleep in E8; destruct E8 as (Hr & Hf2 & _ & Hq2);
    [| discriminate].
  destruct (IH (page + 1) a4 s1) as (Hf3 & n & Hn & Hp3).
  split.
  - apply (same_files_trans _ s); [exact Hf |].
    apply (same_files_trans _ s0); [exact Hf1 |].
    apply (same_files_trans _ s1); assumption.
  - exists (S n). split; [lia |]. rewrite Hp3, Hq2, Hp1, Hq, list_pages_app.
    unfold list_pages at 2. cbn [List.filter red_page url].
    rewrite String.eqb_refl, <- app_assoc. reflexivity.
Qed.

Lemma write_rows_listed (rows : list row) :
  forall written st,
    listed rows ->
    write_rows notice_fields rows written st
    = (Ok tt, {| wire := wire st; json_file := json_file st;
                 csv_file := Some (written ++ rows) |}).
Proof.
  induction rows as [| r rest IH]; intros written st Hl; cbn [write_rows].
  - rewrite app_nil_r. reflexivity.
  - apply Forall_cons in Hl as [Hr Hl]. rewrite Hr.
    replace (forallb (fun k => bool_decide (k ∈ notice_fields)) notice_fields)
      with true by (vm_compute; reflexivity).
    rewrite (IH _ _ Hl), <- app_assoc. reflexivity.
Qed.

(** X14: when [scrape_all_notices] returns, every record it returns has the
    twelve keys of [extract_notice_info], so the CSV writer, set up with
    the keys of the first record, has no key to refuse. With no record
    the two files are left as they were; with a record or more, the JSON
    file (if asked for) and the CSV file (if asked for) hold the records
    returned, in that order. *)
Theorem scrape_all_notices_saves_its_records (fuel : nat)
    (save_to_json save_to_csv get_full_details : bool) (st st' : state)
    (rows : list row) :
  scrape_all_notices fuel save_to_json save_to_csv get_full_details st
  = (Ok (Some rows), st') ->
  listed rows
  /\ json_file st'
     = (if save_to_json && negb (bool_decide (rows = []))
        then Some rows else json_file st)
  /\ csv_file st'
     = (if save_to_csv && negb (bool_decide (rows = []))
        then Some rows else csv_file st).
Proof.
  unfold scrape_all_notices.
  pose proof (pages_loop_listed get_full_details fuel 1 [] (Forall_nil_2 _) st)
    as Hl.
  destruct (pages_loop_run get_full_details fuel 1 [] st) as ([Hj Hc] & _).
  step; cbn [fst snd] in Hl, Hj, Hc; [| discriminate].
  destruct a as [all_notices |]; [| discriminate].
  cbn [listed_output] in Hl. destruct all_notices as [| first more].
  - rewrite bind_unfold. cbn [ret]. intros Hs. injection Hs as <- <-.
    rewrite !andb_false_r. split; [constructor |]. split; assumption.
  - pose proof Hl as Hfirst. apply Forall_cons in Hfirst as [Hfirst _].
    rewrite Hfirst, bind_unfold, bind_unfold.
    destruct save_to_json, save_to_csv; cbn [set_json_file modify ret];
      rewrite ?(write_rows_listed _ [] _ Hl); cbn [ret app];
      intros Hs; injection Hs as <- <-; cbn [json_file csv_file andb];
      rewrite ?(bool_decide_eq_false_2 (first :: more = [])) by discriminate;
      cbn [negb];
      (split; [exact Hl |]); split; first [reflexivity | assumption].
Qed.

Lemma write_rows_wire (fieldnames : list string) (rows : list row) :
  forall written st, wire (snd (write_rows fieldnames rows written st)) = wire st.
Proof.
  induction rows as [| r rest IH]; intros written st; cbn [write_rows];
    [reflexivity |].
  destruct (forallb _ _); [apply IH | reflexivity].
Qed.

(** X15: the pages of the list [scrape_all_notices] asks for are the pages
    1, 2, 3, ... in this order, each once and none left out, whatever the
    server answers and whether it returns or raises. *)
Theorem scrape_all_notices_asks_consecutive_pages (fuel : nat)
    (save_to_json save_to_csv get_full_details : bool) (st : state) :
  exists n,
    (n <= fuel)%nat
    /\ list_pages
         (requests (wire (snd (scrape_all_notices fuel save_to_json
                                 save_to_csv get_full_details st))))
       = list_pages (requests (wire st)) ++ (red_page <$> pages_from 1 n).
Proof.
  unfold scrape_all_notices.
  destruct (pages_loop_run get_full_details fuel 1 [] st) as (_ & n & Hn & Hp).
  exists n. split; [exact Hn |].
  step; cbn [snd] in Hp; [| exact Hp].
  destruct a as [all_notices |]; [| exact Hp].
  rewrite bind_unfold. destruct all_notices as [| first more];
    [exact Hp |].
  rewrite bind_unfold.
  destruct save_to_json, save_to_csv; cbn [set_json_file modify ret];
    try exact Hp;
    match goal with
    | |- context [write_rows ?f ?rows ?w ?s] =>
        pose proof (write_rows_wire f rows w s) as Hw;
        destruct (write_rows f rows w s) as [[[] | e] s'];
        cbn [snd ret wire] in Hw |- *; rewrite Hw; exact Hp
    end.
Qed.

Lemma int_ge_float_mono (n n' : Z) (f : float) :
  n <= n' -> int_ge_float n f = true -> int_ge_float n' f = true.
Proof.
  unfold int_ge_float. intros Hn.
  destruct (Prim2SF f) as [s | s | | s m e]; try (intros Hf; exact Hf).
  - rewrite !Z.leb_le. lia.
  - destruct (0 <=? e); rewrite !Z.leb_le; intros Hf; [lia |].
    assert (0 <= 2 ^ (- e)) by (apply Z.pow_nonneg; lia). nia.
Qed.

Lemma int_ge_mono (n n' : Z) (t : json) :
  n <= n' -> int_ge n t <> Ok false -> int_ge n' t <> Ok false.
Proof.
  intros Hn. destruct t as [| b | k | f | | |]; cbn; try discriminate.
  - destruct (Z.leb_spec (if b then 1 else 0) n); [| congruence].
    intros _. destruct (Z.leb_spec (if b then 1 else 0) n');
      [discriminate | lia].
  - destruct (Z.leb_spec k n); [| congruence].
    intros _. destruct (Z.leb_spec k n'); [discriminate | lia].
  - destruct (int_ge_float n f) eqn:Hf; [| congruence].
    intros _. rewrite (int_ge_float_mono n n' f Hn Hf). discriminate.
Qed.

Lemma iter_nonempty (v : json) (items : list json) :
  Py.truthy v = true -> Py.iter v = Ok items -> (1 <= length items)%nat.
Proof.
  destruct v as [| b | n | f | s | l | d]; cbn; try discriminate.
  - destruct s as [| c s]; [discriminate |]. intros _ Hi. injection Hi as <-.
    rewrite length_fmap. cbn [Py.chars].
    destruct (Py.chars s) as [| ch chs]; [cbn; lia |].
    destruct (Py.starts_continued ch); cbn; lia.
  - destruct l; [discriminate |]. intros _ Hi. injection Hi as <-. cbn. lia.
  - destruct d; [discriminate |]. intros _ Hi. injection Hi as <-. cbn. lia.
Qed.

Lemma has_notices_truthy (data : json) :
  has_notices data = Ok true -> Py.truthy data = true.
Proof.
  unfold has_notices. destruct (Py.truthy data); [reflexivity | discriminate].
Qed.

Lemma pages_loop_ends (limit : Z) (get_full_details : bool) (fuel : nat) :
  forall page all_notices st,
    modest limit (net (wire st)) ->
    Z.max 1 (limit - Z.of_nat (length all_notices)) <= Z.of_nat fuel ->
    ended (fst (pages_loop fuel get_full_details page all_notices st)) = true.
Proof.
  induction fuel as [| fuel IH]; intros page all_notices st Hm Hfuel; [lia |].
  cbn [pages_loop].
  destruct (get_json_run (red_page page) st) as (_ & Hn & _ & Hbody).
  change (get_json (red_page page)) with (get_notices page) in Hn, Hbody.
  step; cbn [fst snd] in Hn, Hbody; [| reflexivity].
  step; unfold lift_result in E0; injection E0 as E0 <-; [| reflexivity].
  destruct a0; [| reflexivity].
  step; unfold lift_result in E1; injection E1 as E1 <-; [| reflexivity].
  step; unfold lift_result in E2; injection E2 as E2 <-; [| reflexivity].
  destruct (negb (Py.truthy a1)) eqn:Ht; [reflexivity |].
  step; unfold lift_result in E3; injection E3 as E3 <-; [| reflexivity].
  step; unfold lift_result in E4; injection E4 as E4 <-; [| reflexivity].
  destruct (notices_loop_run get_full_details a3 all_notices s)
    as (_ & Hl1 & _ & Hlen).
  step; cbn [fst snd] in Hl1, Hlen; [| reflexivity].
  step; unfold lift_result in E6; injection E6 as E6 <-; [| reflexivity].
  step; unfold lift_result in E7; injection E7 as E7 <-; [| reflexivity].
  destruct a6; [reflexivity |].
  step; apply on_wire_sleep in E8; destruct E8 as (Hr & _ & Hn2 & _);
    [| discriminate].
  specialize (Hbody a eq_refl (has_notices_truthy a E0)).
  specialize (Hlen a4 eq_refl).
  apply negb_false_iff in Ht.
  pose proof (iter_nonempty a1 a3 Ht E4) as Hitems.
  pose proof (Hm [] (red_page page) a a5 Hbody E6) as Hlimit.
  assert (Z.of_nat (length a4) < limit) as Hless.
  { destruct (Z.lt_ge_cases (Z.of_nat (length a4)) limit) as [Hlt | Hge];
      [exact Hlt |].
    exfalso. apply (int_ge_mono _ _ _ Hge Hlimit). exact E7. }
  apply IH; [| lia].
  apply (modest_later limit st); [| exact Hm].
  apply (later_trans _ s); [exists [red_page page]; exact Hn |].
  apply (later_trans _ s0); [exact Hl1 |].
  exists []. exact Hn2.
Qed.

(** X16: the loop of [scrape_all_notices], a [while True], comes to its
    end when the totals the server reports are bounded: if from the start
    on no answer reports a total above [limit], the loop ends (it returns
    or raises) within [max(1, limit)] pages. *)
Theorem scrape_all_notices_ends (limit : Z) (fuel : nat)
    (save_to_json save_to_csv get_full_details : bool) (st : state) :
  modest limit (net (wire st)) ->
  Z.max 1 limit <= Z.of_nat fuel ->
  ended (fst (scrape_all_notices fuel save_to_json save_to_csv
                get_full_details st)) = true.
Proof.
  intros Hm Hfuel. unfold scrape_all_notices.
  assert (ended (fst (pages_loop fuel get_full_details 1 [] st)) = true) as He.
  { apply (pages_loop_ends limit); [exact Hm |]. cbn [length]. lia. }
  step; cbn [fst] in He; [| reflexivity].
  destruct a as [all_notices |]; [| discriminate He].
  step; reflexivity.
Qed.

End Red.

Lemma scrape_all_notices_saves_its_records_witness :
  exists rows st',
    @Main.scrape_all_notices unused scripted recent 2 true true false
      (main_start one_red_page) = (Ok (Some rows), st')
    /\ length rows = 1%nat
    /\ listed rows.
Proof.
  eexists. eexists. split; [vm_compute; reflexivity |].
  split; [reflexivity |].
  refine (proj1 (@scrape_all_notices_saves_its_records unused scripted recent
                   2 true true false (main_start one_red_page) _ _ _)).
  vm_compute. reflexivity.
Defined.

Lemma scrape_all_notices_ends_witness :
  ended (fst (@Main.scrape_all_notices unused scripted recent 1 true true false
                (main_start one_red_page))) = true.
Proof.
  apply (@scrape_all_notices_ends unused scripted recent 1 1 true true false
           (main_start one_red_page)); [| cbn; lia].
  assert (forall reqs, @after scripted reqs [] = []) as Hover
    by (induction reqs as [| r reqs IH]; [reflexivity | exact IH]).
  intros reqs req j t Hj Ht. destruct reqs as [| r reqs].
  - cbn in Hj. injection Hj as <-. cbn in Ht. injection Ht as <-.
    cbn. discriminate.
  - cbn [after main_start Main.wire online net one_red_page scripted urlopen snd]
      in Hj.
    rewrite Hover in Hj. discriminate Hj.
Defined.

(** ** Hydration loses no notice *)

Section Hydration.
Import SYN.
Context `{Builtins} `{Remote}.

Lemma notice_ids_cons (notice : json) (rest : list json) (e : json) :
  Py.get notice "entity_id" (JStr "") = Ok e ->
  notice_ids (notice :: rest)
  = (if String.eqb (Py.str e) "" then [] else [Py.str e]) ++ notice_ids rest.
Proof.
  intros He. unfold notice_ids. cbn [omap list_omap]. rewrite He.
  destruct (String.eqb (Py.str e) ""); reflexivity.
Qed.

(** X17: the loop of [collect_notices] over the notices of a segment loses
    none: when it returns, the set of seen ids has grown by exactly the
    entity_ids of the list entries (the empty one apart), and the records
    appended are one for each of these ids that was not seen before, no
    id twice; the records aggregated before are still there, in place. *)
Theorem hydrate_keeps_every_notice (raw_notices : list json) :
  forall (seen_ids seen_ids' : gset string) (aggregated aggregated' : list row)
         (st st' : state),
    hydrate raw_notices seen_ids aggregated st
    = (Ok (seen_ids', aggregated'), st') ->
    seen_ids' = seen_ids ∪ list_to_set (notice_ids raw_notices)
    /\ exists new,
         aggregated' = aggregated ++ new
         /\ NoDup (row_eid <$> new)
         /\ forall e, e ∈ row_eid <$> new
                      <-> e ∈ notice_ids raw_notices /\ e ∉ seen_ids.
Proof.
  induction raw_notices as [| notice rest IH];
    intros seen seen' aggregated aggregated' st st'; cbn [hydrate].
  { intros Hh. injection Hh as <- <- <-. split.
    - cbn. rewrite right_id_L; [reflexivity | apply _].
    - exists []. rewrite app_nil_r. split; [reflexivity |].
      split; [constructor |]. intros e. cbn. rewrite !elem_of_nil. tauto. }
  step; unfold lift_result in E; injection E as E <-; [| discriminate].
  rewrite (notice_ids_cons notice rest a E).
  destruct (String.eqb_spec (Py.str a) "") as [Hempty | Hfull]; cbn [orb].
  { intros Hh. apply IH in Hh. cbn [app]. exact Hh. }
  cbn [app list_to_set].
  destruct (bool_decide (Py.str a ∈ seen)) eqn:Hseen.
  { apply bool_decide_eq_true in Hseen. intros Hh. apply IH in Hh.
    destruct Hh as (Hs & new & Ha & Hnd & Hin). split.
    - rewrite Hs. apply set_eq. intros x.
      rewrite !elem_of_union, elem_of_singleton. split; [tauto |].
      intros [Hx | [Hx | Hx]];
        [left; exact Hx | left; rewrite Hx; exact Hseen | right; exact Hx].
    - exists new. split; [exact Ha |]. split; [exact Hnd |].
      intros e. rewrite Hin, elem_of_cons. split.
      + intros [He Hn]. split; [right; exact He | exact Hn].
      + intros [[He | He] Hn]; [| split; assumption].
        exfalso. apply Hn. rewrite He. exact Hseen. }
  apply bool_decide_eq_false in Hseen.
  step; [| discriminate].
  step; unfold lift_result in E1; injection E1 as E1 <-; [| discriminate].
  pose proof (merge_notice_eid _ _ _ _ E1 E) as Heid.
  intros Hh. apply IH in Hh. destruct Hh as (Hs & new & Ha & Hnd & Hin).
  split.
  { rewrite Hs. apply set_eq. intros x.
    rewrite !elem_of_union, elem_of_singleton. tauto. }
  exists (a1 :: new). split; [rewrite Ha, <- app_assoc; reflexivity |].
  rewrite fmap_cons, Heid. split.
  - apply NoDup_cons. split; [| exact Hnd].
    intros Hdup. apply Hin in Hdup. destruct Hdup as [_ Hdup].
    apply Hdup, elem_of_union_l, elem_of_singleton. reflexivity.
  - intros e. rewrite !elem_of_cons, Hin, elem_of_union, elem_of_singleton.
    split.
    + intros [-> | [He Hn]]; [split; [left; reflexivity | exact Hseen] |].
      split; [right; exact He | tauto].
    + intros [[-> | He] Hn]; [left; reflexivity |].
      destruct (decide (e = Py.str a)) as [-> | Hne]; [left; reflexivity |].
      right. split; [exact He | tauto].
Qed.

End Hydration.

Lemma hydrate_keeps_every_notice_witness :
  exists seen_ids' aggregated' st',
    @SYN.hydrate unused scripted
      [ notice_of "a" "A"; notice_of "a" "A"; notice_of "b" "B" ] ∅ []
      (syn_start [ Body (JObj []); Body (JObj []) ])
    = (Ok (seen_ids', aggregated'), st')
    /\ length aggregated' = 2%nat
    /\ seen_ids'
       = ∅ ∪ list_to_set
               (@notice_ids unused
                  [ notice_of "a" "A"; notice_of "a" "A"; notice_of "b" "B" ]).
Proof.
  eexists. eexists. eexists. split; [vm_compute; reflexivity |].
  split; [reflexivity |].
  refine (proj1 (@hydrate_keeps_every_notice unused scripted
                   [ notice_of "a" "A"; notice_of "a" "A"; notice_of "b" "B" ]
                   ∅ _ [] _
                   (syn_start [ Body (JObj []); Body (JObj []) ]) _ _)).
  vm_compute. reflexivity.
Defined.

(** ** The cost of a crawl *)

Section Cost.
Import SYN.
Context `{Builtins} `{Remote}.

Lemma none_asked (new : list request) :
  Forall (fun r => is_total_query r = false) new ->
  List.filter is_total_query new = [].
Proof.
  induction new as [| r new IH]; intros Hn; [reflexivity |].
  apply Forall_cons in Hn as [Hr Hn]. cbn. rewrite Hr. apply IH, Hn.
Qed.

Lemma segment_page_is_no_total (segment : Segment) (page : Z) :
  is_total_query (segment_page segment page) = false.
Proof.
  unfold is_total_query, segment_page, to_query. cbn [params].
  apply bool_decide_eq_false. rewrite !elem_of_app, !elem_of_cons, !elem_of_nil.
  intros [[[Hq | [Hq | []]] | Hq] | [Hq | [Hq | []]]]; try discriminate Hq.
  destruct (sex segment) as [s |]; [| inversion Hq].
  destruct (String.eqb s ""); [inversion Hq |].
  apply list_elem_of_singleton in Hq. discriminate Hq.
Qed.

Lemma asked_query_total (segment : Segment) (st : state) :
  (asked (snd (on_wire (query_total segment) st)) <= asked st + RETRY_LIMIT)%nat.
Proof.
  unfold on_wire, query_total. cbv zeta.
  destruct (http_get_json_requests API_SEARCH_URL
              (to_query segment ++ [ ("page", "1"); ("resultPerPage", "1") ])
              (wire st)) as (n & Hn & Hreq).
  assert (forall w : io,
            requests w = requests (snd (http_get_json API_SEARCH_URL
              (to_query segment ++ [ ("page", "1"); ("resultPerPage", "1") ])
              (wire st))) ->
            (length (List.filter is_total_query (requests w))
             <= asked st + RETRY_LIMIT)%nat) as Hle.
  { intros w Hw. rewrite Hw, Hreq, List.filter_app, length_app.
    pose proof (List.filter_length_le is_total_query
                  (replicate n {| url := API_SEARCH_URL;
                                  params := to_query segment
                                            ++ [ ("page", "1");
                                                 ("resultPerPage", "1") ] |}))
      as Hf.
    rewrite length_replicate in Hf. unfold asked. lia. }
  step; [| apply Hle; reflexivity].
  step; unfold lift_result in E0; injection E0 as E0 <-;
    [| apply Hle; reflexivity].
  unfold lift_result. destruct (Py.int a0); apply Hle; reflexivity.
Qed.

Lemma asked_fetch_segment (segment : Segment) (total : Z) (st : state) :
  asked (snd (on_wire (fetch_segment segment total) st)) = asked st.
Proof.
  unfold on_wire, fetch_segment.
  destruct (pages_requests segment
              (Z.to_nat (Z.max 1 (Py.ceil_div total MAX_RESULTS_PER_PAGE)))
              1 [] (wire st)) as (new & Hnew & _ & Hf).
  destruct (pages segment 1 _ [] (wire st)) as [r w]. cbn [snd] in *.
  unfold asked. cbn [wire].
  rewrite Hnew, List.filter_app, length_app, (none_asked new);
    [cbn [length]; lia |].
  eapply Forall_impl; [exact Hf |].
  intros q (p & _ & ->). apply segment_page_is_no_total.
Qed.

Lemma asked_fetch_details (entity_id : string) (st : state) :
  asked (snd (on_wire (fetch_details entity_id) st)) = asked st.
Proof.
  unfold on_wire, fetch_details. cbv zeta.
  destruct (http_get_json_requests
              (API_DETAILS_URL +:+ "/" +:+ clean_entity_id entity_id) []
              (wire st)) as (n & _ & Hreq).
  assert (forall w : io,
            requests w = requests (snd (http_get_json
              (API_DETAILS_URL +:+ "/" +:+ clean_entity_id entity_id) []
              (wire st))) ->
            length (List.filter is_total_query (requests w)) = asked st) as Heq.
  { intros w Hw.
    rewrite Hw, Hreq, List.filter_app, length_app, (none_asked (replicate _ _));
      [unfold asked; cbn [length]; lia |].
    apply Forall_replicate. reflexivity. }
  step; [| apply Heq; reflexivity].
  rewrite bind_unfold. cbn. apply Heq. reflexivity.
Qed.

Lemma asked_hydrate (raw : list json) :
  forall seen aggregated st,
    asked (snd (hydrate raw seen aggregated st)) = asked st.
Proof.
  induction raw as [| notice rest IH]; intros seen aggregated st;
    cbn [hydrate]; [reflexivity |].
  step; unfold lift_result in E; injection E as E <-; [| reflexivity].
  destruct (_ || _); [apply IH |].
  pose proof (asked_fetch_details (Py.str a) st) as Hd.
  step; cbn [snd] in Hd |- *; [| exact Hd].
  step; unfold lift_result in E1; injection E1 as E1 <-; [| exact Hd].
  rewrite IH. exact Hd.
Qed.

Lemma asked_mark_done (tracker : ProgressTracker) (segment : Segment)
    (st : state) :
  asked (snd (mark_done tracker segment st)) = asked st.
Proof.
  destruct (mark_done tracker segment st) as [[tracker' | e] st'] eqn:Hm.
  - destruct (mark_done_clean _ _ _ _ _ Hm) as (_ & Hw & _).
    unfold asked. cbn [snd]. rewrite Hw. reflexivity.
  - rewrite (mark_done_raise _ _ _ _ _ Hm). reflexivity.
Qed.

Lemma asked_write_rows (records : list row) :
  forall written st, asked (snd (write_rows records written st)) = asked st.
Proof.
  induction records as [| r rest IH]; intros written st; cbn [write_rows];
    [reflexivity |].
  destruct (forallb _ _); [apply IH | reflexivity].
Qed.

Lemma collect_loop_cost (fuel : nat) :
  forall tracker pending seen aggregated st,
    (asked (snd (collect_loop fuel tracker pending seen aggregated st))
     <= asked st + RETRY_LIMIT * budgets pending)%nat
    /\ (length (fetched (snd (collect_loop fuel tracker pending seen
                                aggregated st)))
        <= length (fetched st) + budgets pending)%nat.
Proof.
  induction fuel as [| fuel IH]; intros tracker pending seen aggregated st;
    [cbn; lia |].
  cbn [collect_loop]. destruct (pop pending) as [[segment rest] |] eqn:Hpop;
    [| cbn; lia].
  apply pop_Some in Hpop. subst pending. rewrite budgets_app.
  unfold budgets at 2 4. cbn [fmap list_fmap sum_list sum_list_with].
  unfold id. pose proof (budget_pos segment) as Hpos. unfold RETRY_LIMIT in *.
  destruct (is_done tracker segment).
  { destruct (IH tracker rest seen aggregated st). lia. }
  pose proof (asked_query_total segment st) as Hq.
  pose proof (f_equal length (keeps_on_wire (query_total segment) st)) as Hk.
  unfold RETRY_LIMIT in Hq.
  step; cbn [snd] in Hq, Hk |- *; [| lia].
  destruct (a =? 0).
  { pose proof (asked_mark_done tracker segment s) as Hm.
    pose proof (f_equal length (keeps_mark_done tracker segment s)) as Hkm.
    step; cbn [snd] in Hm, Hkm |- *; [| lia].
    destruct (IH a0 rest seen aggregated s0). lia. }
  destruct (SEGMENT_THRESHOLD <? a).
  { step; unfold lift_result in E0; injection E0 as E0 <-; [| cbn; lia].
    pose proof (budget_split _ _ E0) as Hsplit.
    destruct (IH tracker (rest ++ a0) seen aggregated s) as [Ha Hl].
    rewrite budgets_app in Ha, Hl. lia. }
  step; unfold log_fetch, modify in E0; [| discriminate].
  injection E0 as _ <-.
  match goal with
  | |- context [bind _ _ ?s1] =>
      pose proof (asked_fetch_segment segment a s1) as Hf;
      pose proof (f_equal length (keeps_on_wire (fetch_segment segment a) s1)) as Hkf
  end.
  change (asked {| wire := wire s |}) with (asked s) in Hf.
  cbn [fetched] in Hkf. rewrite length_app in *. cbn [length] in *.
  step; cbn [snd] in Hf, Hkf |- *; [| lia].
  pose proof (asked_hydrate a1 seen aggregated s0) as Hh.
  pose proof (f_equal length (keeps_hydrate a1 seen aggregated s0)) as Hkh.
  step; cbn [snd] in Hh, Hkh |- *; [| lia].
  pose proof (asked_mark_done tracker segment s1) as Hm.
  pose proof (f_equal length (keeps_mark_done tracker segment s1)) as Hkm.
  step; cbn [snd] in Hm, Hkm |- *; [| lia].
  assert (asked (snd ((if Z.of_nat (length (snd a2)) mod 200 =? 0
                       then write_csv (snd a2) else ret tt) s2)) = asked s2
          /\ length (fetched (snd ((if Z.of_nat (length (snd a2)) mod 200 =? 0
                                    then write_csv (snd a2) else ret tt) s2)))
             = length (fetched s2)) as [Hw Hkw].
  { destruct (_ =? 0);
      [split; [apply asked_write_rows | f_equal; apply keeps_write_rows]
      | split; reflexivity]. }
  step; cbn [snd] in Hw, Hkw |- *; [| lia].
  destruct (IH a3 rest (fst a2) (snd a2) s3). lia.
Qed.

(** X18: a crawl is bounded in what it asks: whatever the server answers,
    and whether it returns or raises, [collect_notices] sends at most
    [RETRY_LIMIT] * 604 = 3020 requests for a total and calls
    [fetch_segment] at most 604 times, 604 being the budget of the initial
    segment: every segment that is asked about or fetched uses up one of
    the budget, and the parts of a split have less than their parent. *)
Theorem collect_notices_asks_within_budget (st : state) :
  budget initial = 604%nat
  /\ (asked (snd (collect_notices st)) <= asked st + RETRY_LIMIT * 604)%nat
  /\ (length (fetched (snd (collect_notices st)))
      <= length (fetched st) + 604)%nat.
Proof.
  split; [reflexivity |]. unfold collect_notices. rewrite bind_unfold.
  unfold new_tracker. rewrite bind_unfold. cbn [get_state]. unfold lift_result.
  destruct (_load (progress_file st)) as [tracker | e]; [| cbn; lia].
  destruct (collect_loop_cost (S (budget initial)) tracker [initial] ∅ [] st)
    as [Ha Hl].
  change (budgets [initial]) with 604%nat in Ha, Hl. split; assumption.
Qed.

End Cost.

(** ** A row for every new key *)

Section Keys.
Import YS.
Context `{Builtins} `{Remote}.

Lemma items_loop_counts (f : filters) (page : Z) (items : list json) :
  forall rows st rows' st',
    items_loop f page items rows st = (Ok rows', st') ->
    (length rows' + length (seen_ids st)
     = length rows + length (seen_ids st'))%nat.
Proof.
  induction items as [| item rest IH]; intros rows st rows' st';
    cbn [items_loop].
  { intros Hl. injection Hl as <- <-. reflexivity. }
  step; unfold lift_result in E; injection E as E <-; [| discriminate].
  step; unfold lift_result in E0; injection E0 as E0 <-; [| discriminate].
  step; unfold lift_result in E1; injection E1 as E1 <-; [| discriminate].
  rewrite bind_unfold. cbn [get_state].
  step; unfold lift_result in E2; injection E2 as E2 <-; [| discriminate].
  destruct a2; [apply IH |].
  rewrite bind_unfold. cbn [set_seen_ids modify].
  step; unfold lift_result in E3; injection E3 as E3 <-; [| discriminate].
  intros Hl. apply IH in Hl. cbn [seen_ids] in Hl.
  rewrite !length_app in Hl. cbn [length] in Hl. lia.
Qed.

Lemma pages_loop_counts (f : filters) (delay : float) (num_pages : Z)
    (left : nat) :
  forall page rows st rows' st',
    pages_loop f delay page num_pages left rows st = (Ok rows', st') ->
    (length rows' + length (seen_ids st)
     = length rows + length (seen_ids st'))%nat.
Proof.
  induction left as [| left IH]; intros page rows st rows' st';
    cbn [pages_loop].
  { intros Hl. injection Hl as <- <-. reflexivity. }
  pose proof (on_wire_seen (fetch_page_with_filters page f) st) as Hw.
  step; cbn [snd] in Hw; [| discriminate].
  step; unfold lift_result in E0; injection E0 as E0 <-; [| discriminate].
  step; [apply items_loop_counts in E1 | discriminate].
  assert (forall s' : state,
            seen_ids s' = seen_ids s0 ->
            pages_loop f delay (page + 1) num_pages left a1 s' = (Ok rows', st') ->
            (length rows' + length (seen_ids st)
             = length rows + length (seen_ids st'))%nat) as Hnext.
  { intros s' Hs' Hl. apply IH in Hl. rewrite Hs' in Hl. rewrite Hw in E1. lia. }
  destruct (page <? num_pages).
  - pose proof (on_wire_seen (sleep delay) s0) as Hz.
    step; cbn [snd] in Hz; [apply Hnext, Hz | discriminate].
  - rewrite bind_unfold. cbn [ret]. apply Hnext. reflexivity.
Qed.

(** X19: when [fetch_all_pages_for_filters] returns, it returns one row for
    each key it has put into the shared set, no more and no less: the
    rows returned are as many as the keys the set has gained. *)
Theorem fetch_all_pages_returns_a_row_per_key (f : filters) (delay : float)
    (st st' : state) (rows : list row) :
  fetch_all_pages_for_filters f delay st = (Ok rows, st') ->
  (length (seen_ids st') = length (seen_ids st) + length rows)%nat.
Proof.
  unfold fetch_all_pages_for_filters. rewrite bind_unfold.
  cbn [log_call modify]. set (s0 := {| wire := _ |}).
  change (seen_ids st) with (seen_ids s0).
  pose proof (on_wire_seen (get_total_with_filters f) s0) as Hw.
  step; cbn [snd] in Hw; [| discriminate].
  destruct (a =? 0).
  - intros Hr. injection Hr as <- <-. rewrite Hw. cbn. lia.
  - intros Hl. apply pages_loop_counts in Hl. rewrite Hw in Hl.
    cbn [length] in Hl. lia.
Qed.

End Keys.

Lemma fetch_all_pages_returns_a_row_per_key_witness :
  exists rows st',
    @YS.fetch_all_pages_for_filters unused scripted (YS.by_nationality "FR")
      1%float (ys_start doubled_page None) = (Ok rows, st')
    /\ length rows = 1%nat
    /\ length (YS.seen_ids st') = (0 + length rows)%nat.
Proof.
  eexists. eexists. split; [vm_compute; reflexivity |].
  split; [reflexivity |].
  refine (@fetch_all_pages_returns_a_row_per_key unused scripted
            (YS.by_nationality "FR") 1%float (ys_start doubled_page None)
            _ _ _).
  vm_compute. reflexivity.
Defined.

(** ** The segments a crawl fetches *)

Section Reach.
Import SYN.
Context `{Builtins} `{Remote}.

Lemma reachable_parts (segment : Segment) (parts : list Segment) :
  reachable segment -> split segment = Ok parts -> Forall reachable parts.
Proof.
  intros Hr Hs. apply Forall_forall. intros p Hp.
  apply (rtc_r _ segment); [exact Hr |]. exists parts. split; assumption.
Qed.

Lemma collect_loop_reach (fuel : nat) :
  forall tracker pending seen aggregated st,
    Forall reachable pending ->
    exists new,
      fetched (snd (collect_loop fuel tracker pending seen aggregated st))
      = fetched st ++ new
      /\ Forall (fun call => reachable (fst call)) new.
Proof.
  induction fuel as [| fuel IH]; intros tracker pending seen aggregated st Hp.
  { exists []. rewrite app_nil_r. split; [reflexivity | constructor]. }
  cbn [collect_loop].
  assert (forall s' : state,
            fetched s' = fetched st ->
            exists new,
              fetched s' = fetched st ++ new
              /\ Forall (fun call : Segment * Z => reachable (fst call)) new)
    as Hsame.
  { intros s' Hs'. exists []. rewrite app_nil_r.
    split; [exact Hs' | constructor]. }
  destruct (pop pending) as [[segment rest] |] eqn:Hpop;
    [| apply Hsame; reflexivity].
  apply pop_Some in Hpop. subst pending.
  apply Forall_app in Hp as [Hrest Hseg]. rewrite Forall_singleton in Hseg.
  destruct (is_done tracker segment); [apply IH, Hrest |].
  pose proof (keeps_on_wire (query_total segment) st) as Hk.
  step; cbn [snd] in Hk |- *; [| apply Hsame, Hk].
  destruct (a =? 0).
  { pose proof (keeps_mark_done tracker segment s) as Hkm.
    step; cbn [snd] in Hkm |- *; [| apply Hsame; congruence].
    destruct (IH a0 rest seen aggregated s0 Hrest) as (new & Hn & Hf).
    exists new. split; [rewrite Hn; congruence | exact Hf]. }
  destruct (SEGMENT_THRESHOLD <? a).
  { step; unfold lift_result in E0; injection E0 as E0 <-;
      [| apply Hsame, Hk].
    destruct (IH tracker (rest ++ a0) seen aggregated s) as (new & Hn & Hf).
    { apply Forall_app. split; [exact Hrest |].
      apply (reachable_parts segment); assumption. }
    exists new. split; [rewrite Hn; congruence | exact Hf]. }
  step; unfold log_fetch, modify in E0; [| discriminate].
  injection E0 as _ <-.
  assert (forall s' : state,
            fetched s' = fetched st ++ [(segment, a)] ->
            exists new,
              fetched s' = fetched st ++ new
              /\ Forall (fun call : Segment * Z => reachable (fst call)) new)
    as Hone.
  { intros s' Hs'. exists [(segment, a)].
    split; [exact Hs' | apply Forall_singleton; exact Hseg]. }
  match goal with
  | |- context [bind _ _ ?s1] =>
      pose proof (keeps_on_wire (fetch_segment segment a) s1) as Hkf
  end.
  step; cbn [snd fetched] in Hkf |- *; rewrite Hk in Hkf;
    [| apply Hone, Hkf].
  pose proof (keeps_hydrate a1 seen aggregated s0) as Hkh.
  step; cbn [snd] in Hkh |- *; [| apply Hone; congruence].
  pose proof (keeps_mark_done tracker segment s1) as Hkm.
  step; cbn [snd] in Hkm |- *; [| apply Hone; congruence].
  assert (fetched (snd ((if Z.of_nat (length (snd a2)) mod 200 =? 0
                         then write_csv (snd a2) else ret tt) s2))
          = fetched s2) as Hkw.
  { destruct (_ =? 0); [apply keeps_write_rows | reflexivity]. }
  step; cbn [snd] in Hkw |- *; [| apply Hone; congruence].
  destruct (IH a3 rest (fst a2) (snd a2) s3 Hrest) as (new & Hn & Hf).
  exists ((segment, a) :: new). split.
  - rewrite Hn, Hkw, Hkm, Hkh, Hkf, <- app_assoc. reflexivity.
  - constructor; assumption.
Qed.

(** X20: every segment a run of [collect_notices] fetches comes from the
    initial segment, ages 0 to 120 and any sex, by splitting: the log of
    the calls of [fetch_segment] only grows by such segments, each of them
    one of the 604 of [crawl_segments], which their labels tell apart. *)
Theorem collect_notices_fetches_crawl_segments (st : state) :
  exists new,
    fetched (snd (collect_notices st)) = fetched st ++ new
    /\ Forall (fun call => reachable (fst call)) new
    /\ Forall (fun call => fst call ∈ crawl_segments) new
    /\ length crawl_segments = 604%nat.
Proof.
  assert (exists new,
            fetched (snd (collect_notices st)) = fetched st ++ new
            /\ Forall (fun call => reachable (fst call)) new)
    as (new & Hn & Hf).
  { unfold collect_notices. rewrite bind_unfold. unfold new_tracker.
    rewrite bind_unfold. cbn [get_state]. unfold lift_result.
    destruct (_load (progress_file st)) as [tracker | e].
    - apply collect_loop_reach. apply Forall_singleton, rtc_refl.
    - exists []. rewrite app_nil_r. split; [reflexivity | constructor]. }
  exists new. split; [exact Hn |]. split; [exact Hf |].
  split; [| vm_compute; reflexivity].
  eapply Forall_impl; [exact Hf |]. intros call. apply reachable_in_crawl.
Qed.

End Reach.

Lemma run_leaves_distinct_rows_witness :
  exists c',
    @YS.run unused scripted (crawl_start one_country) = (Ok tt, c')
    /\ row_eid <$> default [] (YS.all_file c') = [ "a" ].
Proof.
  destruct (@run_leaves_distinct_rows unused scripted (crawl_start one_country))
    as (rows & s' & Hh & Hrun & _).
  apply (f_equal fst) in Hh. cbn [fst] in Hh. vm_compute in Hh. subst rows.
  eexists. split; [exact Hrun | reflexivity].
Defined.
